(** * amset.util: settings validation and the mesh-data container codec

    A shallow embedding of [src/amset/util.py].  Python values are modelled
    by inductive types, exceptions by a result type, dictionaries by
    association lists in insertion order, and the numeric library (float
    parsing, [int], numpy's [linspace], [geomspace], ...) by Section
    variables, so that every general statement holds for whatever those
    primitives compute. *)

From Stdlib Require Import String Ascii List ZArith Bool Arith Lia.
From Stdlib Require Import Permutation Sorted Reals Lra.
Import ListNotations.
Open Scope string_scope.
Open Scope list_scope.

(** ** Python base layer *)

Module Py.

(** Exceptions.  [ValueError] carries its message; the other classes that
    can escape the functions below are kept by name. *)
Inductive exn : Type :=
| ValueError (msg : string)
| KeyError (key : string)
| OtherError (cls : string).

Inductive result (A : Type) : Type :=
| Ok (a : A)
| Raise (e : exn).
Arguments Ok {A} a.
Arguments Raise {A} e.

Definition bind {A B : Type} (c : result A) (k : A -> result B) : result B :=
  match c with
  | Ok a => k a
  | Raise e => Raise e
  end.

(** [try: body / except ValueError: handler]. *)
Definition except_ValueError {A : Type} (body handler : result A) : result A :=
  match body with
  | Raise (ValueError _) => handler
  | r => r
  end.

Definition is_Ok {A : Type} (r : result A) : bool :=
  match r with Ok _ => true | Raise _ => false end.

(** *** Strings

    A [string] is read as a Python [str] whose characters are the code
    points below 256. *)

(** [str.isspace] on one character: TAB..CR, FS..US, space, NEL, NBSP. *)
Definition is_space (c : ascii) : bool :=
  let n := nat_of_ascii c in
  (((9 <=? n) && (n <=? 13)) || ((28 <=? n) && (n <=? 32))
   || (n =? 133) || (n =? 160))%nat.

Fixpoint lstrip (s : string) : string :=
  match s with
  | EmptyString => EmptyString
  | String c s' => if is_space c then lstrip s' else s
  end.

Fixpoint rstrip (s : string) : string :=
  match s with
  | EmptyString => EmptyString
  | String c s' =>
      match rstrip s' with
      | EmptyString => if is_space c then EmptyString else String c EmptyString
      | r => String c r
      end
  end.

(** [s.strip()] *)
Definition strip (s : string) : string := rstrip (lstrip s).

(** [sub in s] *)
Fixpoint contains (sub s : string) : bool :=
  prefix sub s ||
  match s with
  | EmptyString => false
  | String _ s' => contains sub s'
  end.

(** [s.replace(old, new)] for a non-empty [old]: occurrences are replaced
    from the left and do not overlap.  [skip] counts the characters of a
    matched occurrence that are still to be dropped. *)
Fixpoint replace_from (old new : string) (skip : nat) (s : string) : string :=
  match s with
  | EmptyString => EmptyString
  | String c s' =>
      match skip with
      | S k => replace_from old new k s'
      | O =>
          if prefix old s
          then new ++ replace_from old new (String.length old - 1) s'
          else String c (replace_from old new 0 s')
      end
  end.

Definition replace (old new s : string) : string := replace_from old new 0 s.

(** A pattern that no string can straddle when the pattern itself follows
    it: its only occurrence in [k + old] that starts inside [k] lies in [k]. *)
Definition no_straddle (old : string) : Prop :=
  forall k, prefix old (k ++ old) = true -> prefix old k = true \/ k = "".

(** [s.split(sep)] for a one-character separator. *)
Fixpoint split (sep : ascii) (s : string) : list string :=
  match s with
  | EmptyString => [EmptyString]
  | String c s' =>
      if Ascii.eqb c sep then EmptyString :: split sep s'
      else match split sep s' with
           | p :: ps => String c p :: ps
           | [] => [String c EmptyString]
           end
  end.

(** [l[-1]] of a list of strings (the empty string stands for the
    IndexError that [split] never provokes, its result being non-empty). *)
Definition last_part (l : list string) : string := List.last l EmptyString.

(** *** Dictionaries: association lists in insertion order *)

Section Dict.
Context {K V : Type} (eqb : K -> K -> bool).

Fixpoint getitem (d : list (K * V)) (k : K) : option V :=
  match d with
  | [] => None
  | (k', v) :: d' => if eqb k k' then Some v else getitem d' k
  end.

(** [d[k] = v]: overwrite in place, or append a new key. *)
Fixpoint setitem (d : list (K * V)) (k : K) (v : V) : list (K * V) :=
  match d with
  | [] => [(k, v)]
  | (k', v') :: d' =>
      if eqb k k' then (k', v) :: d' else (k', v') :: setitem d' k v
  end.

(** [k in d] *)
Definition has_key (d : list (K * V)) (k : K) : bool :=
  match getitem d k with Some _ => true | None => false end.

(** [d.update(other)] *)
Definition update (d other : list (K * V)) : list (K * V) :=
  fold_left (fun acc kv => setitem acc (fst kv) (snd kv)) other d.

Definition keys (d : list (K * V)) : list K := map fst d.
End Dict.

End Py.

Import Py.

Notation "x <- c1 ;; c2" := (bind c1 (fun x => c2))
  (at level 61, c1 at next level, right associativity).

(** Dictionaries keyed by strings. *)
Definition sdict (V : Type) : Type := list (string * V).
Definition sget {V} (d : sdict V) (k : string) : option V := getitem String.eqb d k.
Definition sset {V} (d : sdict V) (k : string) (v : V) : sdict V := setitem String.eqb d k v.
Definition shas {V} (d : sdict V) (k : string) : bool := has_key String.eqb d k.

(** [d[k]] as an expression: KeyError when the key is absent. *)
Definition lookup {V} (d : sdict V) (k : string) : result V :=
  match sget d k with
  | Some v => Ok v
  | None => Raise (KeyError k)
  end.

(** ** The model of [amset.util] *)

Module util.

(** *** Arrays *)

(** A numpy array of numbers: its shape and its items in row-major order. *)
Record ndarray (F : Type) : Type := mk_ndarray { shape : list nat; data : list F }.
Arguments mk_ndarray {F} shape data.
Arguments shape {F} n.
Arguments data {F} n.

Definition array1 {F} (l : list F) : ndarray F := mk_ndarray [List.length l] l.
Definition array0 {F} (x : F) : ndarray F := mk_ndarray [] [x].

Definition shape_eqb (s1 s2 : list nat) : bool :=
  if list_eq_dec Nat.eq_dec s1 s2 then true else false.

(** *** The string grammars: [parse_doping], [parse_temperatures],
       [parse_deformation_potential] *)

(** A validated deformation potential: a file reference, one number, or the
    (conduction, valence) pair. *)
Inductive deformation (F : Type) : Type :=
| DefFile (path : string)
| DefScalar (x : F)
| DefPair (cb vb : F).
Arguments DefFile {F} path.
Arguments DefScalar {F} x.
Arguments DefPair {F} cb vb.

(** A value of the settings mapping: [None], a number ([int] or [float]), a
    string, a list or a tuple of numbers, a numeric array, or the 0-d array
    numpy wraps around an object that is not a number. *)
Inductive setting (F : Type) : Type :=
| SNone
| SNum (x : F)
| SStr (s : string)
| SList (l : list F)
| STuple (l : list F)
| SArray (a : ndarray F)
| SArray0 (item : setting F).
Arguments SNone {F}.
Arguments SNum {F} x.
Arguments SStr {F} s.
Arguments SList {F} l.
Arguments STuple {F} l.
Arguments SArray {F} a.
Arguments SArray0 {F} item.

Section Settings.
(** Numbers and the library calls the parsers make. *)
Variable F : Type.
(** [float(s)]: [None] is the ValueError of an unparsable string. *)
Variable py_float : string -> option F.
(** [int(x)] of a float: may raise (ValueError on NaN, OverflowError on
    an infinity). *)
Variable py_int : F -> result Z.
(** [np.linspace(start, stop, num)] and [np.geomspace(start, stop, num)];
    either may raise (a negative [num], a zero endpoint). *)
Variable linspace : F -> F -> Z -> result (list F).
Variable geomspace : F -> F -> Z -> result (list F).

Definition float (s : string) : result F :=
  match py_float s with
  | Some x => Ok x
  | None => Raise (ValueError ("could not convert string to float: " ++ s))
  end.

(** [list(map(float, parts))] *)
Fixpoint map_float (parts : list string) : result (list F) :=
  match parts with
  | [] => Ok []
  | p :: ps => x <- float p ;; xs <- map_float ps ;; Ok (x :: xs)
  end.

Definition doping_message (s : string) : string :=
  "ERROR: Unrecognised doping format: " ++ s.
Definition temperature_message (s : string) : string :=
  "ERROR: Unrecognised temperature format: " ++ s.
Definition deformation_message (s : string) : string :=
  "ERROR: Unrecognised deformation potential format: " ++ s.

(** The string the parsers work on and report: stripped, spaces removed. *)
Definition clean (s : string) : string := replace " " "" (strip s).

Definition parse_doping (doping_str : string) : result (list F) :=
  let doping_str := clean doping_str in
  except_ValueError
    (if contains ":" doping_str then
       parts <- map_float (split ":"%char doping_str) ;;
       match parts with
       | [lo; hi; n] => num <- py_int n ;; geomspace lo hi num
       | _ => Raise (ValueError "")
       end
     else
       map_float (split ","%char doping_str))
    (Raise (ValueError (doping_message doping_str))).

Definition parse_temperatures (temperatures_str : string) : result (list F) :=
  let temperatures_str := clean temperatures_str in
  except_ValueError
    (if contains ":" temperatures_str then
       parts <- map_float (split ":"%char temperatures_str) ;;
       match parts with
       | [lo; hi; n] => num <- py_int n ;; linspace lo hi num
       | _ => Raise (ValueError "")
       end
     else
       map_float (split ","%char temperatures_str))
    (Raise (ValueError (temperature_message temperatures_str))).

Definition parse_deformation_potential (deformation_pot_str : string)
  : result (deformation F) :=
  if contains "h5" deformation_pot_str then Ok (DefFile deformation_pot_str)
  else
    let deformation_pot_str := clean deformation_pot_str in
    except_ValueError
      (parts <- map_float (split ","%char deformation_pot_str) ;;
       match parts with
       | [x] => Ok (DefScalar x)
       | [cb; vb] => Ok (DefPair cb vb)
       | _ => Raise (ValueError "")
       end)
      (Raise (ValueError (deformation_message deformation_pot_str))).

(** The tokens of a range [lo:hi:n] in the cleaned string [c], the numbers
    [float] reads from the first two and the count [int(float(n))]. *)
Definition range_parts (c : string) (lo hi : F) (num : Z) : Prop :=
  exists a b n x,
    split ":"%char c = [a; b; n] /\
    py_float a = Some lo /\ py_float b = Some hi /\ py_float n = Some x /\
    py_int x = Ok num.

(** The tokens [float] is mapped over: split at [:] when the cleaned
    string has one, at [,] otherwise. *)
Definition tokens (c : string) : list string :=
  if contains ":" c then split ":"%char c else split ","%char c.

(** *** Tensor canonicalisation *)

(** The constants and operations of the number type that the tensor casts
    use: [0.], [1.], [*], [/ 2] and NaN. *)
Variables zero one nan : F.
Variable mul : F -> F -> F.
Variable div2 : F -> F.
(** pymatgen's [Tensor.from_voigt]. *)
Variable from_voigt : ndarray F -> ndarray F.

(** The items of an [n] x [n] matrix, row by row. *)
Definition matrix_items (n : nat) (item : nat -> nat -> F) : list F :=
  flat_map (fun i => map (item i) (seq 0 n)) (seq 0 n).

(** [np.eye(n) * x] *)
Definition eye_times (n : nat) (x : F) : ndarray F :=
  mk_ndarray [n; n]
    (matrix_items n (fun i j => mul (if Nat.eqb i j then one else zero) x)).

(** [np.diag(v)] of a 1-d array [v]. *)
Definition diag (v : list F) : ndarray F :=
  let n := List.length v in
  mk_ndarray [n; n]
    (matrix_items n (fun i j => if Nat.eqb i j then nth i v zero else zero)).

(** [np.asarray(x)] *)
Definition np_asarray (x : setting F) : setting F :=
  match x with
  | SNone => SArray0 SNone
  | SNum v => SArray (array0 v)
  | SStr s => SArray0 (SStr s)
  | SList l | STuple l => SArray (array1 l)
  | SArray a => SArray a
  | SArray0 i => SArray0 i
  end.

(** [x.shape] of what [np.asarray] returned. *)
Definition shape_of (x : setting F) : list nat :=
  match x with
  | SArray a => shape a
  | _ => []
  end.

Definition tensor_message : string := "Unsupported tensor shape.".

(** [amset.constants.numeric_types] (not among the sources) holds the
    number classes: the test [isinstance(tensor, numeric_types)] picks out
    [SNum]. *)
Definition cast_tensor (tensor : setting F) : result (setting F) :=
  match tensor with
  | SNum x => Ok (SArray (eye_times 3 x))
  | _ =>
      let tensor := np_asarray tensor in
      match tensor with
      | SArray a =>
          if Nat.eqb (List.length (shape a)) 1 then Ok (SArray (diag (data a)))
          else if negb (shape_eqb (shape a) [3; 3])
               then Raise (ValueError tensor_message)
               else Ok tensor
      | _ =>
          (* a 0-d array: its shape is () *)
          Raise (ValueError tensor_message)
      end
  end.

Definition elastic_message : string :=
  "Unsupported elastic tensor shape. Should be (6, 6) or (3, 3, 3, 3).".

(** [np.eye(6) * x] with the entries (3,3), (4,4), (5,5) halved. *)
Definition voigt_of_number (x : F) : ndarray F :=
  mk_ndarray [6; 6]
    (matrix_items 6 (fun i j =>
       let e := mul (if Nat.eqb i j then one else zero) x in
       if Nat.eqb i j && Nat.leb 3 i then div2 e else e)).

Definition cast_elastic_tensor (elastic_tensor : setting F) : result (setting F) :=
  let elastic_tensor :=
    match elastic_tensor with
    | SNum x => SArray (voigt_of_number x)
    | _ => elastic_tensor
    end in
  let elastic_tensor := np_asarray elastic_tensor in
  let elastic_tensor :=
    match elastic_tensor with
    | SArray a => if shape_eqb (shape a) [6; 6] then SArray (from_voigt a) else elastic_tensor
    | _ => elastic_tensor
    end in
  if negb (shape_eqb (shape_of elastic_tensor) [3; 3; 3; 3])
  then Raise (ValueError elastic_message)
  else Ok elastic_tensor.

(** *** [validate_settings] *)

(** The default schema, [amset.constants.defaults]. *)
Variable defaults : sdict (setting F).

(** [np.asarray(x, dtype=float)] *)
Fixpoint np_asarray_float (x : setting F) : result (setting F) :=
  match x with
  | SNone => Ok (SArray (array0 nan))
  | SNum v => Ok (SArray (array0 v))
  | SStr s => v <- float s ;; Ok (SArray (array0 v))
  | SList l | STuple l => Ok (SArray (array1 l))
  | SArray a => Ok (SArray a)
  | SArray0 i => np_asarray_float i
  end.

Definition setting_of_deformation (d : deformation F) : setting F :=
  match d with
  | DefFile path => SStr path
  | DefScalar x => SNum x
  | DefPair cb vb => STuple [cb; vb]
  end.

Definition unrecognised_setting (k : string) : string := "Unrecognised setting: " ++ k.

(** The closing loop: the first key outside the defaults raises. *)
Fixpoint check_settings (ks : list string) : result unit :=
  match ks with
  | [] => Ok tt
  | k :: ks' =>
      if shas defaults k then check_settings ks'
      else Raise (ValueError (unrecognised_setting k))
  end.

(** [if settings[k] is not None: settings[k] = cast(settings[k])] *)
Definition cast_entry (cast : setting F -> result (setting F))
           (settings : sdict (setting F)) (k : string) : result (sdict (setting F)) :=
  v <- lookup settings k ;;
  match v with
  | SNone => Ok settings
  | _ => t <- cast v ;; Ok (sset settings k t)
  end.

(** The number-or-string normalisation shared by doping and temperatures. *)
Definition promote_entry (parse : string -> result (list F))
           (settings : sdict (setting F)) (k : string) : result (sdict (setting F)) :=
  v <- lookup settings k ;;
  match v with
  | SNum x => Ok (sset settings k (SList [x]))
  | SStr s => a <- parse s ;; Ok (sset settings k (SArray (array1 a)))
  | _ => Ok settings
  end.

(** Everything [validate_settings] does before its closing loop. *)
Definition normalise_settings (user_settings : sdict (setting F))
  : result (sdict (setting F)) :=
  let settings := update String.eqb defaults user_settings in
  settings <- promote_entry parse_doping settings "doping" ;;
  settings <- promote_entry parse_temperatures settings "temperatures" ;;
  dp <- lookup settings "deformation_potential" ;;
  settings <- match dp with
              | SStr s =>
                  d <- parse_deformation_potential s ;;
                  Ok (sset settings "deformation_potential" (setting_of_deformation d))
              | SList l => Ok (sset settings "deformation_potential" (STuple l))
              | _ => Ok settings
              end ;;
  settings <- cast_entry cast_tensor settings "static_dielectric" ;;
  settings <- cast_entry cast_tensor settings "high_frequency_dielectric" ;;
  settings <- cast_entry cast_elastic_tensor settings "elastic_constant" ;;
  doping <- lookup settings "doping" ;;
  doping <- np_asarray_float doping ;;
  let settings := sset settings "doping" doping in
  temperatures <- lookup settings "temperatures" ;;
  let settings := sset settings "temperatures" (np_asarray temperatures) in
  Ok settings.

Definition validate_settings (user_settings : sdict (setting F))
  : result (sdict (setting F)) :=
  settings <- normalise_settings user_settings ;;
  _ <- check_settings (keys settings) ;;
  Ok settings.

(** *** The validation, key by key *)

(** The settings [validate_settings] normalises. *)
Definition typed_keys : list string :=
  ["doping"; "temperatures"; "deformation_potential"; "static_dielectric";
   "high_frequency_dielectric"; "elastic_constant"].

(** The first normalisation of a doping or temperature value. *)
Definition promote_value (parse : string -> result (list F)) (v : setting F)
  : result (setting F) :=
  match v with
  | SNum x => Ok (SList [x])
  | SStr s => a <- parse s ;; Ok (SArray (array1 a))
  | _ => Ok v
  end.

(** What the statements of [validate_settings] that read and write the
    key [k] make of the value [v] found under it. *)
Definition normalised_value (k : string) (v : setting F) : result (setting F) :=
  if String.eqb k "doping" then
    v <- promote_value parse_doping v ;; np_asarray_float v
  else if String.eqb k "temperatures" then
    v <- promote_value parse_temperatures v ;; Ok (np_asarray v)
  else if String.eqb k "deformation_potential" then
    match v with
    | SStr s => d <- parse_deformation_potential s ;; Ok (setting_of_deformation d)
    | SList l => Ok (STuple l)
    | _ => Ok v
    end
  else if String.eqb k "static_dielectric" || String.eqb k "high_frequency_dielectric" then
    match v with
    | SNone => Ok v
    | _ => cast_tensor v
    end
  else if String.eqb k "elastic_constant" then
    match v with
    | SNone => Ok v
    | _ => cast_elastic_tensor v
    end
  else Ok v.
End Settings.

(** *** [cast_dict_ndarray] *)

(** pymatgen's [Spin] enumeration; [Spin.name s] is [s.name]. *)
Module Spin.
Inductive t : Type := up | down.

Definition name (s : t) : string :=
  match s with up => "up" | down => "down" end.

Definition eqb (a b : t) : bool :=
  match a, b with
  | up, up | down, down => true
  | _, _ => false
  end.
End Spin.

(** A dictionary key: a string or a spin. *)
Inductive key : Type :=
| KStr (s : string)
| KSpin (s : Spin.t).

Definition key_eqb (a b : key) : bool :=
  match a, b with
  | KStr s, KStr s' => String.eqb s s'
  | KSpin s, KSpin s' => Spin.eqb s s'
  | _, _ => false
  end.

(** The data [cast_dict_ndarray] walks over: lists (payload [L]), arrays
    ([A]), nested mappings, and any other object ([O]). *)
#[local] Unset Elimination Schemes.
Inductive jvalue (L A O : Type) : Type :=
| JList (l : L)
| JArray (a : A)
| JMap (d : list (key * jvalue L A O))
| JOther (o : O).
#[local] Set Elimination Schemes.
Arguments JList {L A O} l.
Arguments JArray {L A O} a.
Arguments JMap {L A O} d.
Arguments JOther {L A O} o.

Section CastDict.
Variables L A O : Type.
(** [np.array(v)] of a list. *)
Variable np_array : L -> A.

(** "cast keys back to spin": the test compares the literal ["k"]. *)
Definition cast_key (k : key) : key :=
  match k with
  | KStr s =>
      if String.eqb s "up" || String.eqb s "down"
      then KSpin (if String.eqb "k" "up" then Spin.up else Spin.up)
      else k
  | _ => k
  end.

Fixpoint cast_jvalue (v : jvalue L A O) : jvalue L A O :=
  match v with
  | JMap d =>
      JMap (fold_left
              (fun new_d kv => setitem key_eqb new_d (cast_key (fst kv)) (cast_jvalue (snd kv)))
              d [])
  | JList l => JArray (np_array l)
  | _ => v
  end.

(** [None] stands for the argument [None]. *)
Definition cast_dict_ndarray (d : option (list (key * jvalue L A O)))
  : option (list (key * jvalue L A O)) :=
  match d with
  | None => None
  | Some d =>
      Some (fold_left
              (fun new_d kv => setitem key_eqb new_d (cast_key (fst kv)) (cast_jvalue (snd kv)))
              d [])
  end.
End CastDict.

(** *** The mesh-data container: [write_mesh_data], [load_mesh_data] *)

(** Python values of a mesh mapping.  [VBool] is one of Python's two [bool]
    objects, [VNpBool] a numpy [bool_] scalar: they compare equal with [==]
    and are different objects, which [is] tells apart.  [VBytesArray] and
    [VTextArray] are arrays of dtype [S] and [U]; [VBytes] is a byte-string
    scalar. *)
#[local] Unset Elimination Schemes.
Inductive value (F Structure : Type) : Type :=
| VNone
| VBool (b : bool)
| VNpBool (b : bool)
| VNum (x : F)
| VArray (a : ndarray F)
| VStructure (s : Structure)
| VTextList (l : list string)
| VNumList (l : list F)
| VBytes (b : string)
| VBytesArray (a : ndarray string)
| VTextArray (a : ndarray string)
| VDict (d : list (Spin.t * value F Structure)).
#[local] Set Elimination Schemes.
Arguments VNone {F Structure}.
Arguments VBool {F Structure} b.
Arguments VNpBool {F Structure} b.
Arguments VNum {F Structure} x.
Arguments VArray {F Structure} a.
Arguments VStructure {F Structure} s.
Arguments VTextList {F Structure} l.
Arguments VNumList {F Structure} l.
Arguments VBytes {F Structure} b.
Arguments VBytesArray {F Structure} a.
Arguments VTextArray {F Structure} a.
Arguments VDict {F Structure} d.

(** What one entry of the container holds. *)
Inductive dataset (F : Type) : Type :=
| DArray (a : ndarray F) (gzip : bool)
| DBytesArray (a : ndarray string) (gzip : bool)
| DBytes (b : string)
| DBool (b : bool)
| DNum (x : F).
Arguments DArray {F} a gzip.
Arguments DBytesArray {F} a gzip.
Arguments DBytes {F} b.
Arguments DBool {F} b.
Arguments DNum {F} x.

(** Modelled from the spec: [str_to_spin] of [amset.constants], the mapping
    from a spin's name to the spin; any other name is a KeyError. *)
Definition str_to_spin (s : string) : result Spin.t :=
  if String.eqb s "up" then Ok Spin.up
  else if String.eqb s "down" then Ok Spin.down
  else Raise (KeyError s).

Definition is_ascii (s : string) : bool :=
  forallb (fun c => Nat.ltb (nat_of_ascii c) 128) (list_ascii_of_string s).

(** A fixed-width numpy string item cannot end in NUL: the padding is cut. *)
Fixpoint rstrip_nul (s : string) : string :=
  match s with
  | EmptyString => EmptyString
  | String c s' =>
      match rstrip_nul s' with
      | EmptyString => if Ascii.eqb c zero then EmptyString else String c EmptyString
      | r => String c r
      end
  end.

(** The first [n] characters. *)
Fixpoint take (n : nat) (s : string) : string :=
  match n, s with
  | S k, String c s' => String c (take k s')
  | _, _ => EmptyString
  end.

Section Mesh.
Variables F Structure : Type.
(** pymatgen's [Structure.to_json] and [Structure.from_str(..., fmt="json")]. *)
Variable to_json : Structure -> string.
(** Whether the type numpy gives an array of numbers has an HDF5 type.  The
    array of a number [x] is [array0 x], as [np.asarray(x)] makes it; an
    array of dtype [object], as numpy makes of an integer beyond 64 bits,
    has none. *)
Variable has_h5_type : ndarray F -> bool.
Variable from_str : string -> result Structure.
(** [x.astype("U13")] and [np.string_(x).decode()] of values that are not
    byte strings. *)
Variable astype_U13_other : value F Structure -> result (value F Structure).
Variable decode_other : value F Structure -> result string.

#[local] Abbreviation value := (value F Structure).
#[local] Abbreviation dataset := (dataset F).

(** An open container: its datasets, each under the name it was created
    with, in creation order.  A name with a [/] in it is a path: h5py
    creates the groups on the way, and the dataset is then no entry of the
    root group.  The facts that take a written container to the reader are
    stated for the names of [entry_name] below. *)
Definition h5file : Type := list (string * dataset).

(** What h5py makes a dataset of: data of a type with an HDF5 type, and not
    a scalar when compression is asked for. *)
Definition h5_accepts (d : dataset) : bool :=
  match d with
  | DArray a gzip => has_h5_type a && negb (gzip && shape_eqb (shape a) [])
  | DBytesArray a gzip => negb (gzip && shape_eqb (shape a) [])
  | DNum x => has_h5_type (array0 x)
  | DBytes _ | DBool _ => true
  end.

(** [f.create_dataset(name, data=d)] and, with [gzip] set in [d],
    [f.create_dataset(name, data=d, compression="gzip")].  Data h5py cannot
    make a dataset of is a TypeError, the empty name is refused, and so is
    a name the container holds already. *)
Definition create_dataset (f : h5file) (name : string) (d : dataset) : result h5file :=
  if negb (h5_accepts d) then Raise (OtherError "TypeError")
  else if String.eqb name "" then Raise (OtherError "TypeError")
  else if shas f name
  then Raise (ValueError "Unable to create dataset (name already exists)")
  else Ok (f ++ [(name, d)]).

(** [f[name] = d], for a byte string [d]. *)
Definition set_entry (f : h5file) (name : string) (d : dataset) : result h5file :=
  if shas f name
  then Raise (OtherError "OSError")
  else Ok (f ++ [(name, d)]).

Definition add_data (f : h5file) (name : string) (data : value) : result h5file :=
  match data with
  | VArray a => create_dataset f name (DArray a true)
  | VBytesArray a => create_dataset f name (DBytesArray a true)
  | VTextArray _ => Raise (OtherError "TypeError")
  | VStructure s =>
      if is_ascii (to_json s) then set_entry f "structure" (DBytes (to_json s))
      else Raise (OtherError "UnicodeEncodeError")
  | VTextList [] | VNumList [] => Raise (OtherError "IndexError")
  | VTextList l =>
      if forallb is_ascii l
      then create_dataset f name (DBytesArray (array1 (map rstrip_nul l)) false)
      else Raise (OtherError "UnicodeEncodeError")
  | VNumList l => create_dataset f name (DArray (array1 l) false)
  | VNone => create_dataset f name (DBool false)
  | VBool b | VNpBool b => create_dataset f name (DBool b)
  | VNum x => create_dataset f name (DNum x)
  | VBytes b => create_dataset f name (DBytes b)
  | VDict _ => Raise (OtherError "TypeError")
  end.

(** The inner loop over a spin mapping; [key] is rebound at every turn. *)
Fixpoint write_spins (f : h5file) (key : string) (items : list (Spin.t * value))
  : result h5file :=
  match items with
  | [] => Ok f
  | (spin, spin_value) :: rest =>
      let key := (key ++ "_" ++ Spin.name spin)%string in
      f <- add_data f key spin_value ;;
      write_spins f key rest
  end.

Fixpoint write_items (f : h5file) (items : sdict value) : result h5file :=
  match items with
  | [] => Ok f
  | (key, value) :: rest =>
      f <- match value with
           | VDict d => write_spins f key d
           | _ => add_data f key value
           end ;;
      write_items f rest
  end.

(** The file is opened with mode ["w"]: it starts empty. *)
Definition write_mesh_data (mesh_data : sdict value) : result h5file :=
  write_items [] mesh_data.

(** [data[()]]: the container hands arrays and numpy scalars back. *)
Definition h5_get (data : dataset) : value :=
  match data with
  | DArray a _ => VArray a
  | DBytesArray a _ => VBytesArray a
  | DBytes b => VBytes b
  | DBool b => VNpBool b
  | DNum x => VNum x
  end.

(** [d is not False]: only Python's own [False] object is [False]. *)
Definition is_not_False (d : value) : bool :=
  match d with
  | VBool false => false
  | _ => true
  end.

(** [np.string_(x).decode()] *)
Definition decode (x : value) : result string :=
  match x with
  | VBytes b => if is_ascii b then Ok b else decode_other x
  | _ => decode_other x
  end.

(** [x.astype("U13")] *)
Definition astype_U13 (x : value) : result value :=
  match x with
  | VBytesArray a =>
      if forallb is_ascii (data a)
      then Ok (VTextArray (mk_ndarray (shape a) (map (take 13) (data a))))
      else Raise (OtherError "UnicodeDecodeError")
  | _ => astype_U13_other x
  end.

Definition read_data (name : string) (data : dataset) : result value :=
  if String.eqb name "structure" then
    data_str <- decode (h5_get data) ;;
    s <- from_str data_str ;;
    Ok (VStructure s)
  else if String.eqb name "scattering_labels" then
    astype_U13 (h5_get data)
  else if String.eqb name "vb_idx" then
    let d := h5_get data in
    Ok (if is_not_False d then d else VNone)
  else Ok (h5_get data).

(** [mesh_data[key][spin] = v] *)
Definition set_spin (mesh_data : sdict value) (key : string) (spin : Spin.t) (v : value)
  : result (sdict value) :=
  match sget mesh_data key with
  | Some (VDict d) => Ok (sset mesh_data key (VDict (setitem Spin.eqb d spin v)))
  | Some (VArray _) | Some (VBytesArray _) | Some (VTextArray _) =>
      Raise (OtherError "IndexError")
  | Some _ => Raise (OtherError "TypeError")
  | None => Raise (KeyError key)
  end.

(** The loop of [load_mesh_data] over the entries the container lists. *)
Fixpoint load_items (mesh_data : sdict value) (items : list (string * dataset))
  : result (sdict value) :=
  match items with
  | [] => Ok mesh_data
  | (key, value) :: rest =>
      if contains "_up" key || contains "_down" key then
        spin <- str_to_spin (last_part (split "_"%char key)) ;;
        let key := replace ("_" ++ Spin.name spin)%string "" key in
        let mesh_data := if shas mesh_data key then mesh_data else sset mesh_data key (VDict []) in
        v <- read_data key value ;;
        mesh_data <- set_spin mesh_data key spin v ;;
        load_items mesh_data rest
      else
        v <- read_data key value ;;
        load_items (sset mesh_data key v) rest
  end.

(** [f.items()] lists the entries of the root group by name; with names
    of [entry_name] these are all the datasets of the container. *)
Fixpoint insert_by_name (e : string * dataset) (l : list (string * dataset))
  : list (string * dataset) :=
  match l with
  | [] => [e]
  | e' :: l' => if String.leb (fst e) (fst e') then e :: l else e' :: insert_by_name e l'
  end.

Definition h5_items (f : h5file) : list (string * dataset) :=
  fold_right insert_by_name [] f.

Definition load_mesh_data (f : h5file) : result (sdict value) :=
  load_items [] (h5_items f).

(** One turn of the writer's outer loop. *)
Definition write_entry (f : h5file) (e : string * value) : result h5file :=
  match snd e with
  | VDict d => write_spins f (fst e) d
  | v => add_data f (fst e) v
  end.

(** The test the reader makes on an entry name: it carries a spin marker. *)
Definition marked (name : string) : bool :=
  contains "_up" name || contains "_down" name.

(** *** What the round trip is stated over *)

(** A name the container takes as it is for an entry of its root group:
    not empty, not [.] (the group itself), and without [/] (a path through
    groups) or NUL. *)
Definition entry_name (name : string) : bool :=
  negb (String.eqb name "") && negb (String.eqb name ".")
  && forallb (fun c => negb (Ascii.eqb c "/") && negb (Ascii.eqb c zero))
             (list_ascii_of_string name).

(** A plain name: the name of a root entry that the reader decodes as it
    is stored, being none of the three reserved names with a decoding of
    their own and free of the spin markers. *)
Definition plain_name (k : string) : bool :=
  entry_name k
  && negb (String.eqb k "structure") && negb (String.eqb k "scattering_labels")
  && negb (String.eqb k "vb_idx")
  && negb (contains "_up" k) && negb (contains "_down" k).

(** Payloads stored as an array or a scalar: an array of at least one
    dimension, a number, a Python [bool], a non-empty list of numbers;
    the numbers of a type with an HDF5 type. *)
Inductive storable : value -> Prop :=
| storable_array a :
    shape a <> [] -> has_h5_type a = true -> storable (VArray a)
| storable_num x : has_h5_type (array0 x) = true -> storable (VNum x)
| storable_bool b : storable (VBool b)
| storable_num_list x l :
    has_h5_type (array1 (x :: l)) = true -> storable (VNumList (x :: l)).

(** A label that fits a 13-character slot of ASCII text. *)
Definition label_ok (s : string) : Prop :=
  is_ascii s = true /\ String.length s <= 13 /\ rstrip_nul s = s.

(** The entries of a mesh mapping the amended round trip covers. *)
Inductive supported : string -> value -> Prop :=
| supported_plain k v :
    plain_name k = true -> storable v -> supported k v
| supported_spin k spin v :
    plain_name k = true -> storable v -> supported k (VDict [(spin, v)])
| supported_structure s :
    is_ascii (to_json s) = true -> from_str (to_json s) = Ok s ->
    supported "structure" (VStructure s)
| supported_labels x l :
    Forall label_ok (x :: l) -> supported "scattering_labels" (VTextList (x :: l)).

(** Equality of values up to the container types: Python's [==] between
    a [bool] and a numpy [bool_], array equality between a list and the
    array of its items. *)
#[local] Unset Elimination Schemes.
Inductive same_content : value -> value -> Prop :=
| same_refl v : same_content v v
| same_bool b : same_content (VBool b) (VNpBool b)
| same_num_list l : same_content (VNumList l) (VArray (array1 l))
| same_text_list l : same_content (VTextList l) (VTextArray (array1 l))
| same_dict d d' :
    Forall2 (fun e e' => fst e = fst e' /\ same_content (snd e) (snd e')) d d' ->
    same_content (VDict d) (VDict d').
#[local] Set Elimination Schemes.

(** Two mappings with the same keys and equal values, whatever the order
    of their entries. *)
Definition same_mapping (x y : sdict value) : Prop :=
  exists x', Permutation x x' /\
             Forall2 (fun e e' => fst e = fst e' /\ same_content (snd e) (snd e')) x' y.

(** The dataset a storable payload is written as, and the value it is
    read back as. *)
Definition encoded (v : value) : dataset :=
  match v with
  | VArray a => DArray a true
  | VNum x => DNum x
  | VBool b => DBool b
  | VNumList l => DArray (array1 l) false
  | VTextList l => DBytesArray (array1 (map rstrip_nul l)) false
  | VStructure s => DBytes (to_json s)
  | _ => DBool false
  end.

Definition decoded (v : value) : value :=
  match v with
  | VBool b => VNpBool b
  | VNumList l => VArray (array1 l)
  | VTextList l => VTextArray (array1 l)
  | _ => v
  end.

(** The container entry a supported entry of the mapping becomes. *)
Definition entry_on_disk (e : string * value) : string * dataset :=
  match snd e with
  | VDict [(spin, v)] => ((fst e ++ "_" ++ Spin.name spin)%string, encoded v)
  | v => (fst e, encoded v)
  end.

(** The entry of the mapping read back from it. *)
Definition entry_read_back (e : string * value) : string * value :=
  match snd e with
  | VDict [(spin, v)] => (fst e, VDict [(spin, decoded v)])
  | v => (fst e, decoded v)
  end.
End Mesh.

(** *** [cast_dict_list] *)

(** An object that is neither a list, an array nor a mapping: a tuple
    (payload [T]) or anything else. *)
Inductive obj (T O : Type) : Type :=
| OTuple (t : T)
| OObj (o : O).
Arguments OTuple {T O} t.
Arguments OObj {T O} o.

Section CastList.
Variables L A T O : Type.
(** [v.tolist()]: a (nested) list, or a Python scalar for a 0-d array. *)
Variable tolist : A -> L + O.
(** [list(v)] of a tuple. *)
Variable list_of_tuple : T -> L.

(** "cast keys": a spin becomes its name. *)
Definition name_key (k : key) : key :=
  match k with
  | KSpin s => KStr (Spin.name s)
  | _ => k
  end.

Fixpoint list_jvalue (v : jvalue L A (obj T O)) : jvalue L A (obj T O) :=
  match v with
  | JMap d =>
      JMap (fold_left
              (fun new_d kv => setitem key_eqb new_d (name_key (fst kv)) (list_jvalue (snd kv)))
              d [])
  | JArray a =>
      match tolist a with
      | inl l => JList l
      | inr o => JOther (OObj o)
      end
  | JOther (OTuple t) => JList (list_of_tuple t)
  | _ => v
  end.

(** [None] stands for the argument [None]. *)
Definition cast_dict_list (d : option (list (key * jvalue L A (obj T O))))
  : option (list (key * jvalue L A (obj T O))) :=
  match d with
  | None => None
  | Some d =>
      Some (fold_left
              (fun new_d kv => setitem key_eqb new_d (name_key (fst kv)) (list_jvalue (snd kv)))
              d [])
  end.
End CastList.

(** One turn of the loop of either cast, for a cast [fk] of the keys and
    [fv] of the values, and the entry it stores. *)
Section CastStep.
Variables V W : Type.
Variable fk : key -> key.
Variable fv : V -> W.

Definition cast_step (acc : list (key * W)) (kv : key * V) : list (key * W) :=
  setitem key_eqb acc (fk (fst kv)) (fv (snd kv)).

Definition cast_pair (kv : key * V) : key * W := (fk (fst kv), fv (snd kv)).
End CastStep.

Section CastRoundTrip.
Variables L A T O : Type.
Variable tolist : A -> L + O.
Variable np_array : L -> A.

(** A key that is a string. *)
Definition is_name (k : key) : bool :=
  match k with KStr _ => true | KSpin _ => false end.

(** Plain data: the keys of the mapping and of every mapping inside it are
    strings, and no value of these mappings is an array or a tuple.  The
    elements of a list are not looked at. *)
Fixpoint plain_data (v : jvalue L A (obj T O)) : bool :=
  match v with
  | JMap d => forallb (fun kv => is_name (fst kv) && plain_data (snd kv)) d
  | JArray _ => false
  | JOther (OTuple _) => false
  | _ => true
  end.

(** [k] is a key of the mapping [v] or of a mapping inside it. *)
Fixpoint key_inside (k : key) (v : jvalue L A (obj T O)) : bool :=
  match v with
  | JMap d => existsb (fun kv => key_eqb k (fst kv) || key_inside k (snd kv)) d
  | _ => false
  end.

(** A string key other than the two spin names. *)
Definition ordinary_key (k : key) : Prop :=
  exists s, k = KStr s /\ s <> "up" /\ s <> "down".

(** Values the two casts take to a list and back: an array that is the
    array of its own list, an object that is not a tuple, and a mapping of
    such values under distinct ordinary keys. *)
#[local] Unset Elimination Schemes.
Inductive restorable : jvalue L A (obj T O) -> Prop :=
| restorable_array a l :
    tolist a = inl l -> np_array l = a -> restorable (JArray a)
| restorable_obj o : restorable (JOther (OObj o))
| restorable_map d :
    NoDup (keys d) ->
    Forall (fun kv => ordinary_key (fst kv) /\ restorable (snd kv)) d ->
    restorable (JMap d).
#[local] Set Elimination Schemes.
End CastRoundTrip.

(** *** [groupby] *)

Section Groupby.
(** The rows of [a]; the labels [b] are integers. *)
Variable A : Type.

(** [b.argsort(kind="mergesort")]: the stable sorting permutation of the
    indices of [b].  A stable sort has one result; it is computed here by
    insertion from the right, an index going in front of the first index
    whose label is not smaller. *)
Fixpoint insert_index (b : list Z) (i : nat) (l : list nat) : list nat :=
  match l with
  | [] => [i]
  | j :: l' =>
      if (nth i b 0 <=? nth j b 0)%Z then i :: l else j :: insert_index b i l'
  end.

Definition argsort (b : list Z) : list nat :=
  fold_right (insert_index b) [] (seq 0 (List.length b)).

(** [a[sidx]]: an index beyond the end is an IndexError. *)
Fixpoint take_rows (a : list A) (sidx : list nat) : result (list A) :=
  match sidx with
  | [] => Ok []
  | i :: rest =>
      match nth_error a i with
      | Some x => xs <- take_rows a rest ;; Ok (x :: xs)
      | None => Raise (OtherError "IndexError")
      end
  end.

(** [b_sorted[1:] != b_sorted[:-1]] *)
Definition changes (b_sorted : list Z) : list bool :=
  map (fun p => negb (fst p =? snd p)%Z) (combine (tl b_sorted) (removelast b_sorted)).

(** [np.flatnonzero(mask)] *)
Definition flatnonzero (mask : list bool) : list nat :=
  map fst (filter snd (combine (seq 0 (List.length mask)) mask)).

(** [l[i:j]] for indices that are not negative. *)
Definition slice {X : Type} (l : list X) (i j : nat) : list X := firstn (j - i) (skipn i l).

(** The result is the object array numpy builds from the list of groups;
    it is given here as that list. *)
Definition groupby (a : list A) (b : list Z) : result (list (list A)) :=
  let sidx := argsort b in
  a_sorted <- take_rows a sidx ;;
  let b_sorted := map (fun i => nth i b 0%Z) sidx in
  let cut_idx := flatnonzero (true :: changes b_sorted ++ [true]) in
  Ok (map (fun ij => slice a_sorted (fst ij) (snd ij))
          (combine (removelast cut_idx) (tl cut_idx))).
End Groupby.

(** The rows of [a] that carry the label [v], in the order of [a]. *)
Definition labelled {A : Type} (a : list A) (b : list Z) (v : Z) : list A :=
  map fst (filter (fun p => (snd p =? v)%Z) (combine a b)).

(** The indices among [idxs] whose label is [v]. *)
Definition indices_of (b : list Z) (v : Z) (idxs : list nat) : list nat :=
  filter (fun i => (nth i b 0 =? v)%Z) idxs.

(** The distinct labels in increasing order, built one label at a time. *)
Fixpoint add_value (k : Z) (vs : list Z) : list Z :=
  match vs with
  | [] => [k]
  | v :: vs' =>
      if (k <? v)%Z then k :: vs
      else if (k =? v)%Z then vs
      else v :: add_value k vs'
  end.

Definition values_of (b : list Z) (idxs : list nat) : list Z :=
  fold_right (fun i => add_value (nth i b 0%Z)) [] idxs.

(** [np.flatnonzero] of a mask whose first position is [off]. *)
Definition nonzero_from (off : nat) (mask : list bool) : list nat :=
  map fst (filter snd (combine (seq off (List.length mask)) mask)).

(** The cut positions of sorted labels, consecutive pairs of a list, and
    the slices of [xs] between the cuts. *)
Definition cuts (b_sorted : list Z) : list nat :=
  flatnonzero (true :: changes b_sorted ++ [true]).

Definition between {X : Type} (c : list X) : list (X * X) := combine (removelast c) (tl c).

Definition slices {X : Type} (xs : list X) (bs : list Z) : list (list X) :=
  map (fun ij => slice xs (fst ij) (snd ij)) (between (cuts bs)).

(** *** [get_progress_bar] *)

(** Text with characters beyond Latin-1: the list of its code points. *)
Definition text : Type := list N.

(** The literal in front of a description: four spaces, U+251C, U+2500
    twice, a space. *)
Definition pipe_prefix : text := [32; 32; 32; 32; 9500; 9472; 9472; 32]%N.

Definition _bar_format : string :=
  "{desc} {percentage:3.0f}%|{bar}| {elapsed}<{remaining}{postfix}".

(** The arguments a [tqdm] bar is created with (its [file] is always
    [sys.stdout]). *)
Record tqdm (I : Type) : Type := mk_tqdm {
  tqdm_iterable : option I;
  tqdm_total : option Z;
  tqdm_ncols : Z;
  tqdm_desc : text;
  tqdm_bar_format : string
}.
Arguments mk_tqdm {I} _ _ _ _ _.
Arguments tqdm_iterable {I} _.
Arguments tqdm_total {I} _.
Arguments tqdm_ncols {I} _.
Arguments tqdm_desc {I} _.
Arguments tqdm_bar_format {I} _.

Definition progress_message : string :=
  "Error creating progress bar, need total or iterable".

Section ProgressBar.
Variable I : Type.
(** [amset.constants.output_width] *)
Variable output_width : Z.

Definition get_progress_bar (iterable : option I) (total : option Z) (desc : text)
           (min_desc_width : Z) (prepend_pipe : bool) : result (tqdm I) :=
  let desc := if prepend_pipe then pipe_prefix ++ desc else desc in
  let desc := desc ++ [58%N] in
  let desc :=
    if (Z.of_nat (List.length desc) <? min_desc_width)%Z
    then desc ++ repeat 32%N (Z.to_nat (min_desc_width - Z.of_nat (List.length desc)))
    else desc in
  match iterable, total with
  | Some _, _ => Ok (mk_tqdm iterable total output_width desc _bar_format)
  | None, Some _ => Ok (mk_tqdm None total output_width desc _bar_format)
  | None, None => Raise (ValueError progress_message)
  end.
End ProgressBar.

(** *** [check_nbands_equal] *)

(** The attributes the check reads: [interpolator.nbands],
    [amset_data.energies] and [amset_data.spins]. *)
Record interpolator : Type := mk_interpolator { nbands : list (Spin.t * Z) }.

Record amset_data (F : Type) : Type := mk_amset_data {
  energies : list (Spin.t * ndarray F);
  spins : list Spin.t
}.
Arguments mk_amset_data {F} _ _.
Arguments energies {F} _.
Arguments spins {F} _.

Section Nbands.
Variable F : Type.

(** [d[s]] of a mapping keyed by spins. *)
Definition spin_item {V : Type} (d : list (Spin.t * V)) (s : Spin.t) : result V :=
  match getitem Spin.eqb d s with
  | Some v => Ok v
  | None => Raise (KeyError ("Spin." ++ Spin.name s))
  end.

(** [a.shape[0]] *)
Definition shape0 (a : ndarray F) : result nat :=
  match shape a with
  | n :: _ => Ok n
  | [] => Raise (OtherError "IndexError")
  end.

(** The list comprehension: every spin is looked at, in order. *)
Fixpoint nbands_equal (interp : interpolator) (data : amset_data F) (ss : list Spin.t)
  : result (list bool) :=
  match ss with
  | [] => Ok []
  | s :: rest =>
      e <- spin_item (energies data) s ;;
      n <- shape0 e ;;
      nb <- spin_item (nbands interp) s ;;
      bs <- nbands_equal interp data rest ;;
      Ok ((Z.of_nat n =? nb)%Z :: bs)
  end.

Definition check_nbands_equal (interp : interpolator) (data : amset_data F) : result bool :=
  bs <- nbands_equal interp data (spins data) ;;
  Ok (forallb (fun b => b) bs).
End Nbands.

End util.

Import util.

(** ** An instance for the examples of the container codec

    Numbers are integers and a structure is represented by its JSON
    document.  The two conversions of values that are not byte strings are
    only reached when a reserved entry holds data of another kind, which no
    example does: they raise here. *)

Module Sample.
Definition to_json (s : string) : string := s.
(** An array of Python integers has an HDF5 type when they all fit in 64
    bits: numpy holds them as [int64], [uint64] or [float64]. *)
Definition has_h5_type (a : ndarray Z) : bool :=
  forallb (fun z => (- 2 ^ 63 <=? z)%Z && (z <? 2 ^ 64)%Z) (data a).
Definition from_str (s : string) : result string := Ok s.
Definition astype_U13_other (v : value Z string) : result (value Z string) :=
  Raise (OtherError "TypeError").
Definition decode_other (v : value Z string) : result string :=
  Raise (OtherError "TypeError").

Definition write_mesh_data := write_mesh_data Z string to_json has_h5_type.
Definition load_mesh_data := load_mesh_data Z string from_str astype_U13_other decode_other.

(** A mesh mapping with one entry of every supported kind. *)
Definition sample_mesh : sdict (value Z string) :=
  [ ("kpoints", VArray (mk_ndarray [2; 3] [0; 0; 0; 1; 0; 0]%Z));
    ("efermi", VNum 3%Z);
    ("is_metal", VBool false);
    ("energies", VDict [(Spin.up, VArray (mk_ndarray [2] [5; 7]%Z))]);
    ("structure", VStructure "{}");
    ("scattering_labels", VTextList ["ADP"; "IMP"]) ].
End Sample.

(** ** An instance of the numeric primitives: exact arithmetic

    Floats idealised as real numbers with a NaN.  Rounding and the two
    infinities are outside this instance (it reads "inf" as unparsable);
    the general statements below do not depend on it. *)

Module Ideal.

Inductive num : Type :=
| Real (r : R)
| NaN.

Definition lift2 (f : R -> R -> R) (a b : num) : num :=
  match a, b with
  | Real x, Real y => Real (f x y)
  | _, _ => NaN
  end.

Definition add := lift2 Rplus.
Definition sub := lift2 Rminus.
Definition mul := lift2 Rmult.
Definition div := lift2 Rdiv.
Definition div2 (a : num) : num := div a (Real 2).
Definition of_Z (z : Z) : num := Real (IZR z).

(** *** [float(s)] on decimal literals *)

Definition digit_of (c : ascii) : option Z :=
  let n := nat_of_ascii c in
  if ((48 <=? n) && (n <=? 57))%nat then Some (Z.of_nat (n - 48)) else None.

(** The leading digits of [s], read onto [acc]; how many there were; the rest. *)
Fixpoint digits (acc : Z) (count : nat) (s : string) : Z * nat * string :=
  match s with
  | EmptyString => (acc, count, s)
  | String c s' =>
      match digit_of c with
      | Some d => digits (10 * acc + d) (S count) s'
      | None => (acc, count, s)
      end
  end.

Definition sign (s : string) : bool * string :=
  match s with
  | String "-" s' => (true, s')
  | String "+" s' => (false, s')
  | _ => (false, s)
  end.

(** A parsed literal: (-1)^negative * mantissa * 10^exponent. *)
Record decimal : Type := mk_decimal { negative : bool; mantissa : Z; exponent : Z }.

Definition parse_exponent (s : string) : option Z :=
  match s with
  | EmptyString => Some 0%Z
  | String c s' =>
      if Ascii.eqb c "e" || Ascii.eqb c "E" then
        let '(neg, s1) := sign s' in
        let '(e, n, rest) := digits 0 0 s1 in
        if Nat.eqb n 0 || negb (String.eqb rest "") then None
        else Some (if neg then (- e)%Z else e)
      else None
  end.

Definition parse_decimal (s : string) : option decimal :=
  let '(neg, s1) := sign s in
  let '(ip, n1, s2) := digits 0 0 s1 in
  let '(m, n2, s3) :=
    match s2 with
    | String "." r => digits ip 0 r
    | _ => (ip, O, s2)
    end in
  if Nat.eqb (n1 + n2) 0 then None
  else match parse_exponent s3 with
       | Some e => Some (mk_decimal neg m (e - Z.of_nat n2))
       | None => None
       end.

Definition decimal_value (d : decimal) : R :=
  let m := IZR (if negative d then (- mantissa d)%Z else mantissa d) in
  if (0 <=? exponent d)%Z then (m * IZR (10 ^ exponent d))%R
  else (m / IZR (10 ^ (- exponent d)))%R.

Definition lower (c : ascii) : ascii :=
  let n := nat_of_ascii c in
  if ((65 <=? n) && (n <=? 90))%nat then ascii_of_nat (n + 32) else c.

Fixpoint lower_string (s : string) : string :=
  match s with
  | EmptyString => EmptyString
  | String c s' => String (lower c) (lower_string s')
  end.

Definition py_float (s : string) : option num :=
  let s := strip s in
  if String.eqb (lower_string (snd (sign s))) "nan" then Some NaN
  else option_map (fun d => Real (decimal_value d)) (parse_decimal s).

(** *** [int(x)]: truncation towards zero *)

Definition trunc (r : R) : Z :=
  if Rle_dec 0 r then Int_part r else (- Int_part (- r))%Z.

Definition py_int (x : num) : result Z :=
  match x with
  | Real r => Ok (trunc r)
  | NaN => Raise (ValueError "cannot convert float NaN to integer")
  end.

(** *** [np.linspace] and [np.geomspace], endpoint included *)

Definition samples_message : string := "Number of samples must be non-negative.".

(** The indices [0 .. num-1]. *)
Definition arange (num : Z) : list Z := map Z.of_nat (seq 0 (Z.to_nat num)).

Definition linspace (start stop : num) (num : Z) : result (list Ideal.num) :=
  if (num <? 0)%Z then Raise (ValueError samples_message)
  else
    let dv := (num - 1)%Z in
    let delta := sub stop start in
    let y (i : Z) : Ideal.num :=
      if (0 <? dv)%Z then add (mul (of_Z i) (div delta (of_Z dv))) start
      else add (mul (of_Z i) delta) start in
    Ok (map (fun i => if (1 <? num)%Z && (i =? num - 1)%Z then stop else y i)
            (arange num)).

Definition is_zero (a : num) : bool :=
  match a with
  | Real r => if Req_dec_T r 0 then true else false
  | NaN => false
  end.

Definition is_negative (a : num) : bool :=
  match a with
  | Real r => if Rlt_dec r 0 then true else false
  | NaN => false
  end.

Definition neg (a : num) : num := sub (Real 0) a.

Definition log10 (a : num) : num :=
  match a with
  | Real r => if Rlt_dec 0 r then Real (ln r / ln 10) else NaN
  | NaN => NaN
  end.

Definition pow10 (a : num) : num :=
  match a with
  | Real y => Real (Rpower 10 y)
  | NaN => NaN
  end.

Definition zero_message : string := "Geometric sequence cannot include zero".

Definition geomspace (start stop : num) (num : Z) : result (list Ideal.num) :=
  if is_zero start || is_zero stop then Raise (ValueError zero_message)
  else
    let both_negative := is_negative start && is_negative stop in
    let out_sign := if both_negative then Real (-1) else Real 1 in
    let log_start := log10 (if both_negative then neg start else start) in
    let log_stop := log10 (if both_negative then neg stop else stop) in
    points <- linspace log_start log_stop num ;;
    Ok (map (fun ip =>
               let '(i, p) := ip in
               if (i =? 0)%Z then start
               else if (1 <? num)%Z && (i =? num - 1)%Z then stop
               else mul out_sign (pow10 p))
            (combine (arange num) points)).

(** *** pymatgen's [Tensor.from_voigt] on a 6 x 6 matrix *)

Definition voigt_index (i j : nat) : nat := if Nat.eqb i j then i else 6 - i - j.

Definition from_voigt (a : ndarray num) : ndarray num :=
  mk_ndarray [3; 3; 3; 3]
    (flat_map (fun i => flat_map (fun j => flat_map (fun k => map (fun l =>
       nth (6 * voigt_index i j + voigt_index k l) (data a) NaN)
       (seq 0 3)) (seq 0 3)) (seq 0 3)) (seq 0 3)).

(** The functions of the module at this instance. *)
Definition parse_doping := parse_doping num py_float py_int geomspace.
Definition parse_temperatures := parse_temperatures num py_float py_int linspace.
Definition parse_deformation_potential := parse_deformation_potential num py_float.
Definition cast_tensor := cast_tensor num (Real 0) (Real 1) mul.
Definition validate_settings :=
  validate_settings num py_float py_int linspace geomspace
                    (Real 0) (Real 1) NaN mul div2 from_voigt.

(** Modelled from the spec: a default schema with the six typed settings
    the validator normalises ([amset.constants.defaults] is not among the
    sources). *)
Definition defaults : sdict (setting num) :=
  [ ("doping", SList [Real 1e15; Real 1e16]);
    ("temperatures", SList [Real 300]);
    ("deformation_potential", SNone);
    ("static_dielectric", SNone);
    ("high_frequency_dielectric", SNone);
    ("elastic_constant", SNone) ].

End Ideal.

(** * Properties *)

#[local] Arguments ascii_dec : simpl never.
#[local] Arguments Ascii.eqb : simpl never.

(** ** Strings *)

Lemma prefix_empty s : prefix "" s = true.
Proof. destruct s; reflexivity. Qed.

Lemma prefix_refl s : prefix s s = true.
Proof.
  induction s as [|c s IH]; simpl; [reflexivity|].
  destruct (ascii_dec c c) as [_|n]; [exact IH | congruence].
Qed.

Lemma prefix_app s t : prefix s (s ++ t) = true.
Proof.
  induction s as [|c s IH]; simpl; [apply prefix_empty|].
  destruct (ascii_dec c c) as [_|n]; [exact IH | congruence].
Qed.

Lemma contains_prefix sub s : prefix sub s = true -> contains sub s = true.
Proof. intros H. destruct s; simpl in *; rewrite H; reflexivity. Qed.

(** [sub in (pre + sub + post)] *)
Lemma contains_app pre sub post : contains sub (pre ++ sub ++ post) = true.
Proof.
  induction pre as [|c pre IH]; simpl.
  - apply contains_prefix, prefix_app.
  - rewrite IH. apply orb_true_r.
Qed.

Lemma contains_app_r pre sub : contains sub (pre ++ sub) = true.
Proof.
  assert (E : sub = (sub ++ "")%string) by (clear; induction sub; simpl; congruence).
  rewrite E at 2. apply contains_app.
Qed.

Lemma contains_char c s :
  contains (String c "") s = true <-> In c (list_ascii_of_string s).
Proof.
  induction s as [|a s IH]; simpl.
  - split; [discriminate | tauto].
  - destruct (ascii_dec c a) as [->|n].
    + rewrite prefix_empty. simpl. tauto.
    + simpl. rewrite IH. split; [tauto|]. intros [E|H]; [congruence | exact H].
Qed.

Lemma In_lstrip c s :
  In c (list_ascii_of_string s) -> is_space c = false ->
  In c (list_ascii_of_string (lstrip s)).
Proof.
  induction s as [|a s IH]; simpl; intros H Hc; [exact H|].
  destruct (is_space a) eqn:Ea.
  - destruct H as [->|H]; [congruence | auto].
  - exact H.
Qed.

Lemma In_rstrip c s :
  In c (list_ascii_of_string s) -> is_space c = false ->
  In c (list_ascii_of_string (rstrip s)).
Proof.
  induction s as [|a s IH]; simpl; intros H Hc; [exact H|].
  destruct H as [->|H].
  - destruct (rstrip s); [rewrite Hc|]; simpl; auto.
  - specialize (IH H Hc). destruct (rstrip s); [destruct IH | right; exact IH].
Qed.

Lemma In_remove_spaces c s :
  In c (list_ascii_of_string s) -> c <> " "%char ->
  In c (list_ascii_of_string (replace " " "" s)).
Proof.
  unfold replace. induction s as [|a s IH]; simpl; intros H Hc; [exact H|].
  destruct (ascii_dec " " a) as [<-|n].
  - rewrite prefix_empty. simpl. destruct H as [E|H]; [congruence | auto].
  - simpl. destruct H as [E|H]; [left; exact E | right; auto].
Qed.

Lemma contains_char_clean c s :
  is_space c = false ->
  contains (String c "") s = true -> contains (String c "") (clean s) = true.
Proof.
  intros Hc H. apply contains_char. apply contains_char in H.
  unfold clean, strip. apply In_remove_spaces.
  - apply In_rstrip; [apply In_lstrip|]; assumption.
  - intros ->. discriminate.
Qed.

(** Strings: append, prefixes, replacement of a suffix, the last part. *)

Lemma append_nil_r s : (s ++ "")%string = s.
Proof. induction s; simpl; congruence. Qed.

Lemma append_assoc s t u : ((s ++ t) ++ u)%string = (s ++ t ++ u)%string.
Proof. induction s; simpl; congruence. Qed.

Lemma length_append s t : String.length (s ++ t) = String.length s + String.length t.
Proof. induction s; simpl; congruence. Qed.

Lemma prefix_iff s1 s2 : prefix s1 s2 = true <-> exists t, s2 = (s1 ++ t)%string.
Proof.
  revert s2. induction s1 as [|a s1 IH]; intros s2.
  - rewrite prefix_empty. split; [intros _; exists s2; reflexivity | reflexivity].
  - destruct s2 as [|b s2]; simpl.
    + split; [discriminate | intros [t H]; discriminate].
    + destruct (ascii_dec a b) as [->|n].
      * rewrite IH. split; intros [t H]; exists t; congruence.
      * split; [discriminate | intros [t H]; congruence].
Qed.

Lemma replace_from_skip old new skip s :
  String.length s <= skip -> replace_from old new skip s = "".
Proof.
  revert skip. induction s as [|c s IH]; intros skip H; simpl; [reflexivity|].
  destruct skip as [|k]; simpl in H; [lia|]. apply IH. lia.
Qed.

Lemma replace_suffix old k :
  old <> "" -> no_straddle old -> contains old k = false ->
  replace old "" (k ++ old) = k.
Proof.
  intros Hne Hns. unfold replace. induction k as [|a k IH]; intros Hc.
  - simpl. destruct old as [|c old]; [congruence|].
    cbn [replace_from]. rewrite prefix_refl. simpl.
    apply replace_from_skip. lia.
  - simpl in Hc. apply orb_false_elim in Hc. destruct Hc as [Hp Hc].
    change (String a k ++ old)%string with (String a (k ++ old)).
    cbn [replace_from].
    destruct (prefix old (String a (k ++ old))) eqn:E.
    + exfalso. destruct (Hns (String a k) E) as [H|H]; [|discriminate].
      simpl in H. congruence.
    + rewrite IH by exact Hc. reflexivity.
Qed.

Lemma no_straddle_up : no_straddle "_up".
Proof.
  intros k H. apply prefix_iff in H. destruct H as [t H].
  destruct k as [|c1 [|c2 [|c3 k]]]; simpl in H; try discriminate H.
  - right. reflexivity.
  - left. injection H as -> -> -> _. apply prefix_iff. exists k. reflexivity.
Qed.

Lemma no_straddle_down : no_straddle "_down".
Proof.
  intros k H. apply prefix_iff in H. destruct H as [t H].
  destruct k as [|c1 [|c2 [|c3 [|c4 [|c5 k]]]]]; simpl in H; try discriminate H.
  - right. reflexivity.
  - left. injection H as -> -> -> -> -> _. apply prefix_iff. exists k. reflexivity.
Qed.

Lemma split_nonempty c s : split c s <> [].
Proof.
  induction s as [|a s IH]; simpl; [discriminate|].
  destruct (Ascii.eqb a c); [discriminate|].
  destruct (split c s); [contradiction | discriminate].
Qed.

Lemma split_app c s t :
  split c (s ++ String c t) = split c s ++ split c t.
Proof.
  induction s as [|a s IH]; simpl.
  - rewrite Ascii.eqb_refl. reflexivity.
  - destruct (Ascii.eqb a c); [rewrite IH; reflexivity|].
    rewrite IH. pose proof (split_nonempty c s) as Hs.
    destruct (split c s); [contradiction | reflexivity].
Qed.

Lemma last_app_nonempty (A : Type) (l1 l2 : list A) d :
  l2 <> [] -> last (l1 ++ l2) d = last l2 d.
Proof.
  intros H. induction l1 as [|a l1 IH]; [reflexivity|].
  simpl. rewrite IH. destruct (l1 ++ l2) eqn:E; [|reflexivity].
  apply app_eq_nil in E. destruct E. contradiction.
Qed.

Lemma last_part_spin k spin :
  last_part (split "_"%char (k ++ String "_" (Spin.name spin))) = Spin.name spin.
Proof.
  unfold last_part.
  rewrite split_app, last_app_nonempty by apply split_nonempty.
  destruct spin; reflexivity.
Qed.

Lemma str_to_spin_name spin : str_to_spin (Spin.name spin) = Ok spin.
Proof. destruct spin; reflexivity. Qed.

Lemma contains_spin_name k spin :
  contains "_up" (k ++ String "_" (Spin.name spin))
  || contains "_down" (k ++ String "_" (Spin.name spin)) = true.
Proof.
  destruct spin; simpl Spin.name.
  - rewrite contains_app_r. reflexivity.
  - rewrite (contains_app_r k "_down"). apply orb_true_r.
Qed.

Lemma replace_spin_name k spin :
  contains "_up" k = false -> contains "_down" k = false ->
  replace (String "_" (Spin.name spin)) "" (k ++ String "_" (Spin.name spin)) = k.
Proof.
  intros Hu Hd. destruct spin; simpl Spin.name.
  - apply replace_suffix; [discriminate | apply no_straddle_up | exact Hu].
  - apply replace_suffix; [discriminate | apply no_straddle_down | exact Hd].
Qed.

(** ** The grammars *)

Section GrammarFacts.
Variable F : Type.
Variable py_float : string -> option F.
Variable py_int : F -> result Z.
Variable linspace geomspace : F -> F -> Z -> result (list F).

#[local] Abbreviation map_float := (map_float F py_float).

Lemma map_float_Ok parts xs :
  map_float parts = Ok xs <-> map py_float parts = map Some xs.
Proof.
  revert xs. induction parts as [|p ps IH]; intros xs; simpl.
  - split; intros H.
    + injection H as <-. reflexivity.
    + destruct xs; [reflexivity | discriminate].
  - unfold float. destruct (py_float p) as [x|] eqn:Ep; simpl.
    + destruct (util.map_float F py_float ps) as [ys|e] eqn:Eps; simpl.
      * split; intros H.
        -- injection H as <-. simpl. f_equal. apply IH. reflexivity.
        -- destruct xs as [|x' xs']; [discriminate|]. simpl in H.
           injection H as -> H. apply IH in H. injection H as ->. reflexivity.
      * split; intros H; [discriminate|].
        destruct xs as [|x' xs']; [discriminate|]. simpl in H.
        injection H as -> H. apply IH in H. discriminate.
    + split; intros H; [discriminate|]. destruct xs; discriminate.
Qed.

Lemma map_float_length parts xs :
  map_float parts = Ok xs -> List.length xs = List.length parts.
Proof.
  intros H. apply map_float_Ok in H.
  apply (f_equal (@List.length _)) in H. rewrite !length_map in H. congruence.
Qed.

Lemma map_float_Raise parts e :
  map_float parts = Raise e -> exists msg, e = ValueError msg.
Proof.
  induction parts as [|p ps IH]; simpl; [discriminate|].
  unfold float. destruct (py_float p); simpl.
  - destruct (util.map_float F py_float ps); simpl; [discriminate|].
    intros H. injection H as <-. apply IH. reflexivity.
  - intros H. injection H as <-. eauto.
Qed.

Lemma map_float_None parts p :
  In p parts -> py_float p = None -> exists msg, map_float parts = Raise (ValueError msg).
Proof.
  induction parts as [|q qs IH]; simpl; [tauto|].
  intros [->|Hin] Hp; unfold float.
  - rewrite Hp. simpl. eauto.
  - destruct (py_float q); simpl; [|eauto].
    destruct (IH Hin Hp) as [msg ->]. simpl. eauto.
Qed.

(** Every ValueError raised inside the [try] leaves as the handler's. *)
Lemma except_ValueError_message A (body : result A) msg m :
  except_ValueError body (Raise (ValueError msg)) = Raise (ValueError m) -> m = msg.
Proof.
  destruct body as [a|[m'|k|c]]; simpl; intros H; try discriminate.
  injection H as <-. reflexivity.
Qed.

Lemma except_ValueError_Ok A (body handler : result A) a :
  except_ValueError body handler = Ok a -> handler = Ok a \/ body = Ok a.
Proof.
  destruct body as [a'|[m'|k|c]]; simpl; intros H; try discriminate; auto.
Qed.

#[local] Abbreviation parse_doping := (parse_doping F py_float py_int geomspace).
#[local] Abbreviation parse_temperatures := (parse_temperatures F py_float py_int linspace).
#[local] Abbreviation parse_deformation_potential := (parse_deformation_potential F py_float).

Ltac range_wrong_count H Hn :=
  let E := fresh "E" in
  let parts := fresh "parts" in
  cbv zeta; rewrite H;
  match goal with
  | |- context [util.map_float ?F ?f ?l] =>
      destruct (util.map_float F f l) as [parts|?] eqn:E; simpl
  end;
  [ apply map_float_length in E;
    destruct parts as [|? [|? [|? [|? ?]]]]; simpl in *; try reflexivity;
    exfalso; apply Hn; congruence
  | apply map_float_Raise in E; destruct E as [? ->]; reflexivity ].

Lemma parse_doping_wrong_count s :
  contains ":" (clean s) = true ->
  List.length (split ":"%char (clean s)) <> 3 ->
  parse_doping s = Raise (ValueError (doping_message (clean s))).
Proof. intros H Hn. unfold util.parse_doping. range_wrong_count H Hn. Qed.

Lemma parse_temperatures_wrong_count s :
  contains ":" (clean s) = true ->
  List.length (split ":"%char (clean s)) <> 3 ->
  parse_temperatures s = Raise (ValueError (temperature_message (clean s))).
Proof. intros H Hn. unfold util.parse_temperatures. range_wrong_count H Hn. Qed.

Ltac range_sound H :=
  let Hp := fresh "Hp" in
  let E := fresh "E" in
  let En := fresh "En" in
  let parts := fresh "parts" in
  let lo := fresh "lo" in
  let hi := fresh "hi" in
  let x := fresh "x" in
  let num := fresh "num" in
  let a := fresh "a" in
  let b := fresh "b" in
  let n := fresh "n" in
  let Es := fresh "Es" in
  let toks := fresh "toks" in
  cbv zeta; rewrite H; intros Hp;
  apply except_ValueError_Ok in Hp; destruct Hp as [Hp|Hp]; [discriminate|];
  match type of Hp with
  | context [util.map_float ?F ?f ?l] =>
      destruct (util.map_float F f l) as [parts|?] eqn:E; simpl in Hp; [|discriminate]
  end;
  destruct parts as [|lo [|hi [|x [|? ?]]]]; try discriminate;
  destruct (py_int x) as [num|?] eqn:En; simpl in Hp; [|discriminate];
  apply map_float_Ok in E;
  match type of E with
  | map _ ?l = _ => remember l as toks eqn:Es; symmetry in Es;
                    destruct toks as [|a [|b [|n [|? ?]]]]; try discriminate
  end;
  injection E as ? ? ?;
  exists lo, hi, num; split;
  [exists a, b, n, x; repeat split; try (reflexivity || assumption) | exact Hp].

Lemma parse_doping_range_sound s arr :
  contains ":" (clean s) = true ->
  parse_doping s = Ok arr ->
  exists lo hi num, range_parts F py_float py_int (clean s) lo hi num /\ geomspace lo hi num = Ok arr.
Proof. intros H. unfold util.parse_doping. range_sound H. Qed.

Lemma parse_temperatures_range_sound s arr :
  contains ":" (clean s) = true ->
  parse_temperatures s = Ok arr ->
  exists lo hi num, range_parts F py_float py_int (clean s) lo hi num /\ linspace lo hi num = Ok arr.
Proof. intros H. unfold util.parse_temperatures. range_sound H. Qed.

Ltac range_complete H Hr :=
  let Es := fresh "Es" in
  let Ea := fresh "Ea" in
  let Eb := fresh "Eb" in
  let En := fresh "En" in
  let Ei := fresh "Ei" in
  destruct Hr as (? & ? & ? & ? & Es & Ea & Eb & En & Ei);
  cbv zeta; rewrite H, Es; simpl; unfold float; rewrite Ea, Eb, En; simpl;
  rewrite Ei; reflexivity.

Lemma parse_doping_range_complete s lo hi num :
  contains ":" (clean s) = true ->
  range_parts F py_float py_int (clean s) lo hi num ->
  parse_doping s =
  except_ValueError (geomspace lo hi num) (Raise (ValueError (doping_message (clean s)))).
Proof. intros H Hr. unfold util.parse_doping. range_complete H Hr. Qed.

Lemma parse_temperatures_range_complete s lo hi num :
  contains ":" (clean s) = true ->
  range_parts F py_float py_int (clean s) lo hi num ->
  parse_temperatures s =
  except_ValueError (linspace lo hi num) (Raise (ValueError (temperature_message (clean s)))).
Proof. intros H Hr. unfold util.parse_temperatures. range_complete H Hr. Qed.
End GrammarFacts.

Section GrammarFacts2.
Variable F : Type.
Variable py_float : string -> option F.
Variable py_int : F -> result Z.
Variable linspace geomspace : F -> F -> Z -> result (list F).

#[local] Abbreviation parse_doping := (parse_doping F py_float py_int geomspace).
#[local] Abbreviation parse_temperatures := (parse_temperatures F py_float py_int linspace).
#[local] Abbreviation parse_deformation_potential := (parse_deformation_potential F py_float).

Lemma except_map_float_Ok parts msg xs :
  except_ValueError (map_float F py_float parts) (Raise (ValueError msg)) = Ok xs <->
  map py_float parts = map Some xs.
Proof.
  rewrite <- map_float_Ok.
  destruct (map_float F py_float parts) as [ys|[m|k|c]]; simpl;
    split; intros H; (discriminate || exact H).
Qed.

Lemma parse_doping_list s xs :
  contains ":" (clean s) = false ->
  parse_doping s = Ok xs <-> map py_float (split ","%char (clean s)) = map Some xs.
Proof.
  intros H. unfold util.parse_doping. cbv zeta. rewrite H.
  apply except_map_float_Ok.
Qed.

Lemma parse_temperatures_list s xs :
  contains ":" (clean s) = false ->
  parse_temperatures s = Ok xs <-> map py_float (split ","%char (clean s)) = map Some xs.
Proof.
  intros H. unfold util.parse_temperatures. cbv zeta. rewrite H.
  apply except_map_float_Ok.
Qed.

Ltac bad_token Hin Hp :=
  let c := fresh "c" in
  let msg := fresh "msg" in
  let E := fresh "E" in
  cbv zeta; unfold tokens in Hin;
  match goal with
  | |- context [contains ":" ?s] => destruct (contains ":" s)
  end;
  destruct (map_float_None F py_float _ _ Hin Hp) as [msg E]; rewrite E; reflexivity.

Lemma parse_doping_bad_token s p :
  In p (tokens (clean s)) -> py_float p = None ->
  parse_doping s = Raise (ValueError (doping_message (clean s))).
Proof. intros Hin Hp. unfold util.parse_doping. bad_token Hin Hp. Qed.

Lemma parse_temperatures_bad_token s p :
  In p (tokens (clean s)) -> py_float p = None ->
  parse_temperatures s = Raise (ValueError (temperature_message (clean s))).
Proof. intros Hin Hp. unfold util.parse_temperatures. bad_token Hin Hp. Qed.

Lemma parse_doping_message s m :
  parse_doping s = Raise (ValueError m) -> m = doping_message (clean s).
Proof. apply except_ValueError_message. Qed.

Lemma parse_temperatures_message s m :
  parse_temperatures s = Raise (ValueError m) -> m = temperature_message (clean s).
Proof. apply except_ValueError_message. Qed.

Lemma parse_deformation_potential_message s m :
  parse_deformation_potential s = Raise (ValueError m) -> m = deformation_message (clean s).
Proof.
  unfold util.parse_deformation_potential.
  destruct (contains "h5" s); [discriminate|]. apply except_ValueError_message.
Qed.

Lemma parse_deformation_potential_bad_token s p :
  contains "h5" s = false ->
  In p (split ","%char (clean s)) -> py_float p = None ->
  parse_deformation_potential s = Raise (ValueError (deformation_message (clean s))).
Proof.
  intros H Hin Hp. unfold util.parse_deformation_potential. rewrite H. cbv zeta.
  destruct (map_float_None F py_float _ _ Hin Hp) as [msg E]. rewrite E. reflexivity.
Qed.

Lemma parse_deformation_potential_wrong_count s :
  contains "h5" s = false ->
  List.length (split ","%char (clean s)) <> 1 ->
  List.length (split ","%char (clean s)) <> 2 ->
  parse_deformation_potential s = Raise (ValueError (deformation_message (clean s))).
Proof.
  intros H H1 H2. unfold util.parse_deformation_potential. rewrite H. cbv zeta.
  destruct (map_float F py_float (split ","%char (clean s))) as [parts|e] eqn:E; simpl.
  - apply map_float_length in E.
    destruct parts as [|? [|? [|? ?]]]; simpl in *; try reflexivity;
      exfalso; (apply H1; congruence) || (apply H2; congruence).
  - apply map_float_Raise in E. destruct E as [msg ->]. reflexivity.
Qed.

Lemma message_contains pre c : contains c (pre ++ c) = true.
Proof. apply contains_app_r. Qed.
End GrammarFacts2.

(** Evaluation at the exact-arithmetic instance. *)

Lemma trunc_IZR z : Ideal.trunc (IZR z) = z.
Proof.
  unfold Ideal.trunc. destruct (Rle_dec 0 (IZR z)) as [H|H].
  - symmetry. apply Int_part_spec. lra.
  - rewrite <- opp_IZR. rewrite <- (Int_part_spec (IZR (- z)) (- z)%Z); [lia | lra].
Qed.

Lemma py_float_100 : Ideal.py_float "100" = Some (Ideal.Real 100).
Proof.
  unfold Ideal.py_float.
  replace (String.eqb _ "nan") with false by (vm_compute; reflexivity).
  replace (Ideal.parse_decimal (strip "100")) with (Some (Ideal.mk_decimal false 100 0))
    by (vm_compute; reflexivity).
  simpl. unfold Ideal.decimal_value. simpl. do 2 f_equal. lra.
Qed.

Ltac eval_float m e :=
  unfold Ideal.py_float;
  replace (String.eqb _ "nan") with false by (vm_compute; reflexivity);
  match goal with
  | |- context [Ideal.parse_decimal ?s] =>
      replace (Ideal.parse_decimal s) with (Some (Ideal.mk_decimal false m e))
        by (vm_compute; reflexivity)
  end;
  simpl; unfold Ideal.decimal_value; simpl; do 2 f_equal; lra.

Lemma py_float_300 : Ideal.py_float "300" = Some (Ideal.Real 300).
Proof. eval_float 300%Z 0%Z. Qed.

Lemma py_float_3 : Ideal.py_float "3" = Some (Ideal.Real 3).
Proof. eval_float 3%Z 0%Z. Qed.

Lemma linspace_100_300_3 :
  Ideal.linspace (Ideal.Real 100) (Ideal.Real 300) 3 =
  Ok [Ideal.Real 100; Ideal.Real 200; Ideal.Real 300].
Proof.
  unfold Ideal.linspace. simpl. do 2 f_equal; [f_equal; lra|].
  f_equal. f_equal. lra.
Qed.



(** ** Tensors *)

Section TensorFacts.
Variable F : Type.
Variables zero one : F.
Variable mul : F -> F -> F.

#[local] Abbreviation cast_tensor := (cast_tensor F zero one mul).
#[local] Abbreviation diag := (diag F zero).

(** Row [i], column [j] of a matrix given by rows of equal length. *)
Lemma nth_flat_map_rows (A : Type) (row : nat -> list A) (n i j : nat) (d : A) (l : list nat) :
  (forall x, List.length (row x) = n) -> i < List.length l -> j < n ->
  nth (i * n + j) (flat_map row l) d = nth j (row (nth i l 0)) d.
Proof.
  intros Hrow. revert i. induction l as [|x l IH]; intros i Hi Hj; simpl in *; [lia|].
  destruct i as [|i].
  - simpl. rewrite app_nth1; [reflexivity | rewrite Hrow; exact Hj].
  - rewrite app_nth2; rewrite Hrow; [|lia].
    replace (S i * n + j - n) with (i * n + j) by lia.
    apply IH; lia.
Qed.

Lemma nth_matrix_items n item i j d :
  i < n -> j < n -> nth (i * n + j) (matrix_items F n item) d = item i j.
Proof.
  intros Hi Hj. unfold matrix_items.
  rewrite (nth_flat_map_rows F (fun i => map (item i) (seq 0 n)) n).
  - rewrite seq_nth by exact Hi. simpl.
    rewrite (nth_indep _ d (item i 0)) by (rewrite length_map, length_seq; exact Hj).
    rewrite map_nth, seq_nth by exact Hj. reflexivity.
  - intros x. rewrite length_map, length_seq. reflexivity.
  - rewrite length_seq. exact Hi.
  - exact Hj.
Qed.

Lemma diag_entries v i j :
  i < List.length v -> j < List.length v ->
  nth (i * List.length v + j) (data (diag v)) zero
  = if Nat.eqb i j then nth i v zero else zero.
Proof. intros Hi Hj. unfold util.diag. simpl. apply nth_matrix_items; assumption. Qed.

Lemma cast_tensor_1d a :
  List.length (shape a) = 1 -> cast_tensor (SArray a) = Ok (SArray (diag (data a))).
Proof. intros H. unfold util.cast_tensor. simpl. rewrite H. reflexivity. Qed.

Lemma cast_tensor_3x3 a :
  shape a = [3; 3] -> cast_tensor (SArray a) = Ok (SArray a).
Proof. intros H. unfold util.cast_tensor. simpl. rewrite H. reflexivity. Qed.

Lemma cast_tensor_other_shape a :
  List.length (shape a) <> 1 -> shape a <> [3; 3] ->
  cast_tensor (SArray a) = Raise (ValueError tensor_message).
Proof.
  intros H1 H2. unfold util.cast_tensor. simpl.
  destruct (Nat.eqb_spec (List.length (shape a)) 1) as [E|_]; [contradiction|].
  unfold shape_eqb. destruct (list_eq_dec Nat.eq_dec (shape a) [3; 3]); [contradiction|].
  reflexivity.
Qed.
End TensorFacts.

(** C4.  What [cast_tensor] returns: [x * I3] for a number [x]; the
    diagonal matrix of [v] for every one-dimensional [v], of whatever
    length [n] (an [n] by [n] matrix, 3 by 3 for three items), without a
    check of the length; a 3 by 3 input unchanged; the tensor shape error
    for every array of another rank or two-dimensional shape. *)
Theorem cast_tensor_shapes :
  forall (F : Type) (zero one : F) (mul : F -> F -> F),
    (forall x, cast_tensor F zero one mul (SNum x)
               = Ok (SArray (mk_ndarray [3; 3]
                      [mul one x; mul zero x; mul zero x;
                       mul zero x; mul one x; mul zero x;
                       mul zero x; mul zero x; mul one x])))
    /\ (forall v,
          cast_tensor F zero one mul (SList v) = Ok (SArray (diag F zero v))
          /\ shape (diag F zero v) = [List.length v; List.length v]
          /\ forall i j, i < List.length v -> j < List.length v ->
               nth (i * List.length v + j) (data (diag F zero v)) zero
               = if Nat.eqb i j then nth i v zero else zero)
    /\ (forall a b c,
          cast_tensor F zero one mul (SList [a; b; c])
          = Ok (SArray (mk_ndarray [3; 3] [a; zero; zero; zero; b; zero; zero; zero; c])))
    /\ (forall a, List.length (shape a) = 1 ->
          cast_tensor F zero one mul (SArray a) = Ok (SArray (diag F zero (data a))))
    /\ (forall a, shape a = [3; 3] ->
          cast_tensor F zero one mul (SArray a) = Ok (SArray a))
    /\ (forall a, List.length (shape a) <> 1 -> shape a <> [3; 3] ->
          cast_tensor F zero one mul (SArray a) = Raise (ValueError "Unsupported tensor shape.")).
Proof.
  intros F zero one mul. repeat apply conj.
  - reflexivity.
  - intros v. repeat apply conj; [reflexivity | reflexivity | apply diag_entries].
  - reflexivity.
  - apply cast_tensor_1d.
  - apply cast_tensor_3x3.
  - apply cast_tensor_other_shape.
Qed.

Lemma cast_tensor_two_vector :
  cast_tensor Z 0%Z 1%Z Z.mul (SList [1; 2]%Z)
  = Ok (SArray (mk_ndarray [2; 2] [1; 0; 0; 2]%Z)).
Proof. reflexivity. Qed.

(** ** Settings *)

Section DictFacts.
Variable V : Type.
Implicit Types (d : sdict V) (k : string) (v : V).

Lemma sget_In_keys d k : sget d k <> None <-> In k (keys d).
Proof.
  unfold sget. induction d as [|[k' v'] d IH]; simpl.
  - split; [congruence | tauto].
  - destruct (String.eqb_spec k k') as [->|n].
    + split; [auto | congruence].
    + rewrite IH. split; [auto|]. intros [E|H]; [congruence | exact H].
Qed.

Lemma shas_In_keys d k : shas d k = true <-> In k (keys d).
Proof.
  rewrite <- sget_In_keys. unfold shas, has_key, sget.
  destruct (getitem String.eqb d k); split; congruence.
Qed.

Lemma shas_not_In_keys d k : shas d k = false <-> ~ In k (keys d).
Proof.
  rewrite <- shas_In_keys. destruct (shas d k); split; congruence.
Qed.

Lemma keys_sset d k v :
  keys (sset d k v) = if shas d k then keys d else keys d ++ [k].
Proof.
  unfold sset, shas, has_key. induction d as [|[k' v'] d IH]; simpl; [reflexivity|].
  destruct (String.eqb k k'); simpl; [reflexivity|].
  rewrite IH. destruct (getitem String.eqb d k); reflexivity.
Qed.

Lemma keys_sset_present d k v v0 :
  lookup d k = Ok v0 -> keys (sset d k v) = keys d.
Proof.
  intros H. rewrite keys_sset.
  unfold lookup, shas, has_key, sget in *.
  destruct (getitem String.eqb d k); [reflexivity | discriminate].
Qed.

(** [d.update(other)] keeps the keys of [d] in place and appends new ones. *)
Lemma keys_update d other :
  exists extra,
    keys (update String.eqb d other) = keys d ++ extra /\
    (forall k, In k extra -> In k (keys other) /\ ~ In k (keys d)) /\
    (forall k, In k (keys other) -> In k (keys d ++ extra)).
Proof.
  unfold update. revert d. induction other as [|[k v] other IH]; intros d; simpl.
  - exists []. rewrite app_nil_r. repeat split; simpl; tauto.
  - destruct (IH (setitem String.eqb d k v)) as (extra & E & Hnew & Hall).
    fold (sset d k v) in *. rewrite keys_sset in *.
    destruct (shas d k) eqn:Ek.
    + exists extra. split; [exact E|]. split.
      * intros k0 H0. destruct (Hnew k0 H0). tauto.
      * intros k0 [<-|H0]; [|auto].
        apply in_or_app. left. apply shas_In_keys. exact Ek.
    + exists (k :: extra). rewrite <- app_assoc in *. simpl in *.
      split; [exact E|]. split.
      * intros k0 [<-|H0].
        -- split; [auto|]. apply shas_not_In_keys. exact Ek.
        -- destruct (Hnew k0 H0) as [H1 H2]. split; [auto|].
           intros H3. apply H2. apply in_or_app. auto.
      * intros k0 [<-|H0]; [apply in_or_app; simpl; auto|].
        specialize (Hall k0 H0). exact Hall.
Qed.
End DictFacts.

Section SettingsFacts.
Variable F : Type.
Variable py_float : string -> option F.
Variable py_int : F -> result Z.
Variable linspace geomspace : F -> F -> Z -> result (list F).
Variables zero one nan : F.
Variable mul : F -> F -> F.
Variable div2 : F -> F.
Variable from_voigt : ndarray F -> ndarray F.
Variable defaults : sdict (setting F).

#[local] Abbreviation normalise_settings :=
  (normalise_settings F py_float py_int linspace geomspace zero one nan mul div2 from_voigt defaults).
#[local] Abbreviation validate_settings :=
  (validate_settings F py_float py_int linspace geomspace zero one nan mul div2 from_voigt defaults).
#[local] Abbreviation check_settings := (check_settings F defaults).

Lemma bind_Ok A B (c : result A) (k : A -> result B) b :
  bind c k = Ok b -> exists a, c = Ok a /\ k a = Ok b.
Proof. destruct c as [a|e]; simpl; [eauto | discriminate]. Qed.

Lemma promote_entry_keys parse settings k s' :
  promote_entry F parse settings k = Ok s' -> keys s' = keys settings.
Proof.
  unfold promote_entry. intros H.
  apply bind_Ok in H. destruct H as (v & Hv & H).
  destruct v; try (injection H as <-; reflexivity).
  - injection H as <-. eapply keys_sset_present; eassumption.
  - apply bind_Ok in H. destruct H as (a & _ & H). injection H as <-.
    eapply keys_sset_present; eassumption.
Qed.

Lemma cast_entry_keys cast settings k s' :
  cast_entry F cast settings k = Ok s' -> keys s' = keys settings.
Proof.
  unfold cast_entry. intros H.
  apply bind_Ok in H. destruct H as (v & Hv & H).
  destruct v; try (injection H as <-; reflexivity);
    apply bind_Ok in H; destruct H as (t & _ & H); injection H as <-;
    eapply keys_sset_present; eassumption.
Qed.

Lemma normalise_settings_keys user s :
  normalise_settings user = Ok s ->
  keys s = keys (update String.eqb defaults user).
Proof.
  unfold util.normalise_settings. cbv zeta. intros H.
  apply bind_Ok in H. destruct H as (s1 & H1 & H). apply promote_entry_keys in H1.
  apply bind_Ok in H. destruct H as (s2 & H2 & H). apply promote_entry_keys in H2.
  apply bind_Ok in H. destruct H as (dp & Hdp & H).
  apply bind_Ok in H. destruct H as (s3 & H3 & H).
  assert (E3 : keys s3 = keys s2).
  { destruct dp; try (injection H3 as <-; reflexivity).
    - apply bind_Ok in H3. destruct H3 as (d & _ & H3). injection H3 as <-.
      eapply keys_sset_present; eassumption.
    - injection H3 as <-. eapply keys_sset_present; eassumption. }
  apply bind_Ok in H. destruct H as (s4 & H4 & H). apply cast_entry_keys in H4.
  apply bind_Ok in H. destruct H as (s5 & H5 & H). apply cast_entry_keys in H5.
  apply bind_Ok in H. destruct H as (s6 & H6 & H). apply cast_entry_keys in H6.
  apply bind_Ok in H. destruct H as (dop & Hdop & H).
  apply bind_Ok in H. destruct H as (dop' & _ & H).
  apply bind_Ok in H. destruct H as (tmp & Htmp & H).
  injection H as <-.
  erewrite keys_sset_present by eassumption.
  erewrite keys_sset_present by eassumption.
  congruence.
Qed.

Lemma check_settings_Ok ks :
  check_settings ks = Ok tt <-> forall k, In k ks -> In k (keys defaults).
Proof.
  induction ks as [|k ks IH]; simpl.
  - split; [intros _ k [] | reflexivity].
  - destruct (shas defaults k) eqn:E.
    + rewrite IH. apply shas_In_keys in E. split.
      * intros H k0 [<-|H0]; auto.
      * intros H k0 H0. apply H. auto.
    + apply shas_not_In_keys in E. split; [discriminate|].
      intros H. exfalso. apply E, H. auto.
Qed.

Lemma check_settings_Raise ks e :
  check_settings ks = Raise e ->
  exists k, In k ks /\ ~ In k (keys defaults) /\ e = ValueError (unrecognised_setting k).
Proof.
  induction ks as [|k ks IH]; simpl; [discriminate|].
  destruct (shas defaults k) eqn:E.
  - intros H. destruct (IH H) as (k0 & H0 & H1 & H2). exists k0. auto.
  - intros H. injection H as <-. apply shas_not_In_keys in E. exists k. auto.
Qed.

Lemma validate_settings_unfold user :
  validate_settings user =
  match normalise_settings user with
  | Ok s => match check_settings (keys s) with
            | Ok _ => Ok s
            | Raise e => Raise e
            end
  | Raise e => Raise e
  end.
Proof. reflexivity. Qed.

(** Keys of the merged settings that lie in the defaults leave the key
    list of the defaults as it is. *)
Lemma keys_update_within user :
  (forall k, In k (keys (update String.eqb defaults user)) -> In k (keys defaults)) ->
  keys (update String.eqb defaults user) = keys defaults.
Proof.
  intros H. destruct (keys_update _ defaults user) as (extra & E & Hnew & _).
  rewrite E in *. destruct extra as [|k extra]; [apply app_nil_r|].
  exfalso. destruct (Hnew k (or_introl eq_refl)) as [_ Hk].
  apply Hk, H, in_or_app. simpl. auto.
Qed.

Lemma validate_settings_keys user s :
  validate_settings user = Ok s ->
  keys s = keys defaults /\ forall k, In k (keys user) -> In k (keys defaults).
Proof.
  rewrite validate_settings_unfold.
  destruct (normalise_settings user) as [s'|e] eqn:En; [|discriminate].
  destruct (check_settings (keys s')) as [[]|e] eqn:Ec; [|discriminate].
  intros H. injection H as <-.
  apply normalise_settings_keys in En.
  pose proof (proj1 (check_settings_Ok _) Ec) as Hc. clear Ec. rename Hc into Ec.
  rewrite En in *. split.
  - apply keys_update_within. exact Ec.
  - intros k Hk. apply Ec.
    destruct (keys_update _ defaults user) as (extra & E & _ & Hall).
    rewrite E. apply Hall. exact Hk.
Qed.

Lemma validate_settings_within user s :
  normalise_settings user = Ok s ->
  (forall k, In k (keys user) -> In k (keys defaults)) ->
  validate_settings user = Ok s.
Proof.
  intros En Hsub. rewrite validate_settings_unfold, En.
  replace (check_settings (keys s)) with (Ok tt); [reflexivity|].
  symmetry. apply check_settings_Ok.
  rewrite (normalise_settings_keys _ _ En).
  destruct (keys_update _ defaults user) as (extra & E & Hnew & _).
  rewrite E. intros k Hk. apply in_app_or in Hk. destruct Hk as [Hk|Hk]; [exact Hk|].
  apply Hsub. apply Hnew. exact Hk.
Qed.

Lemma validate_settings_unknown user s :
  normalise_settings user = Ok s ->
  (exists k, In k (keys user) /\ ~ In k (keys defaults)) ->
  exists k, In k (keys user) /\ ~ In k (keys defaults) /\
            validate_settings user = Raise (ValueError (unrecognised_setting k)).
Proof.
  intros En (k & Hk & Hn). rewrite validate_settings_unfold, En.
  destruct (check_settings (keys s)) as [[]|e] eqn:Ec.
  - exfalso. apply Hn. apply (proj1 (check_settings_Ok _) Ec).
    rewrite (normalise_settings_keys _ _ En).
    destruct (keys_update _ defaults user) as (extra & E & _ & Hall).
    rewrite E. apply Hall. exact Hk.
  - apply check_settings_Raise in Ec. destruct Ec as (k0 & H0 & H1 & ->).
    exists k0. repeat split; [|exact H1].
    rewrite (normalise_settings_keys _ _ En) in H0.
    destruct (keys_update _ defaults user) as (extra & E & Hnew & _).
    rewrite E in H0. apply in_app_or in H0. destruct H0 as [H0|H0]; [contradiction|].
    apply Hnew. exact H0.
Qed.
End SettingsFacts.

(** C3, amended.  Whenever [validate_settings] returns a mapping, its keys
    are exactly the keys of the default schema and the user's keys all lie
    in the schema; it returns one for every user mapping with keys in the
    schema whose typed fields normalise without error.  A user mapping
    with a key outside the schema never gets a settings object back: the
    unrecognised-setting error is raised when the normalisation succeeds,
    and the error of the normalisation otherwise. *)
Theorem validate_settings_key_set :
  forall (F : Type) (py_float : string -> option F) (py_int : F -> result Z)
         (linspace geomspace : F -> F -> Z -> result (list F))
         (zero one nan : F) (mul : F -> F -> F) (div2 : F -> F)
         (from_voigt : ndarray F -> ndarray F) (defaults user_settings : sdict (setting F)),
    let validate :=
      validate_settings F py_float py_int linspace geomspace zero one nan mul div2
                        from_voigt defaults in
    let normalise :=
      normalise_settings F py_float py_int linspace geomspace zero one nan mul div2
                         from_voigt defaults in
    (forall s, validate user_settings = Ok s ->
       keys s = keys defaults /\
       forall k, In k (keys user_settings) -> In k (keys defaults))
    /\ (forall s, normalise user_settings = Ok s ->
          (forall k, In k (keys user_settings) -> In k (keys defaults)) ->
          validate user_settings = Ok s)
    /\ (forall s, normalise user_settings = Ok s ->
          (exists k, In k (keys user_settings) /\ ~ In k (keys defaults)) ->
          exists k, In k (keys user_settings) /\ ~ In k (keys defaults) /\
                    validate user_settings = Raise (ValueError (unrecognised_setting k)))
    /\ (forall e, normalise user_settings = Raise e -> validate user_settings = Raise e)
    /\ ((exists k, In k (keys user_settings) /\ ~ In k (keys defaults)) ->
        is_Ok (validate user_settings) = false).
Proof.
  intros. repeat apply conj.
  - apply validate_settings_keys.
  - apply validate_settings_within.
  - apply validate_settings_unknown.
  - intros e He. unfold validate. rewrite validate_settings_unfold.
    fold normalise. rewrite He. reflexivity.
  - intros (k & Hk & Hn). destruct (validate user_settings) as [s|e] eqn:E; [|reflexivity].
    exfalso. apply Hn. apply (validate_settings_keys _ _ _ _ _ _ _ _ _ _ _ _ _ _ E). exact Hk.
Qed.

Lemma validate_settings_normalises_first :
  Ideal.validate_settings Ideal.defaults [("doping", SStr "abc")]
  = Raise (ValueError "ERROR: Unrecognised doping format: abc")
  /\ Ideal.validate_settings Ideal.defaults
       [("unknown_key", SNum (Ideal.Real 1)); ("temperatures", SStr "abc")]
     = Raise (ValueError "ERROR: Unrecognised temperature format: abc")
  /\ Ideal.validate_settings Ideal.defaults [("unknown_key", SNum (Ideal.Real 1))]
     = Raise (ValueError "Unrecognised setting: unknown_key").
Proof. repeat apply conj; vm_compute; reflexivity. Qed.

(** ** Keys cast back to spins *)

Lemma key_eqb_eq a b : key_eqb a b = true <-> a = b.
Proof.
  destruct a as [s|s], b as [s'|s']; simpl; try (split; congruence).
  - rewrite String.eqb_eq. split; congruence.
  - destruct s, s'; simpl; split; congruence.
Qed.

Section CastDictFacts.
Variables L A O : Type.
Variable np_array : L -> A.

#[local] Abbreviation jdict := (list (key * jvalue L A O)).
#[local] Abbreviation cast_jvalue := (cast_jvalue L A O np_array).
#[local] Abbreviation cast_dict_ndarray := (cast_dict_ndarray L A O np_array).

Lemma In_keys_setitem (d : jdict) k v k' :
  In k' (keys (setitem key_eqb d k v)) <-> In k' (keys d) \/ k' = k.
Proof.
  induction d as [|[k0 v0] d IH]; simpl.
  - split; [intros [E|[]]; auto | intros [[]|E]; auto].
  - destruct (key_eqb k k0) eqn:E; simpl.
    + apply key_eqb_eq in E. subst k0. split; [tauto|].
      intros [[H|H]|H]; auto.
    + rewrite IH. tauto.
Qed.

Lemma In_keys_cast_fold (d acc : jdict) k :
  In k (keys (fold_left
                (fun new_d kv => setitem key_eqb new_d (cast_key (fst kv)) (cast_jvalue (snd kv)))
                d acc))
  <-> In k (keys acc) \/ exists k0, In k0 (keys d) /\ cast_key k0 = k.
Proof.
  revert acc. induction d as [|[k1 v1] d IH]; intros acc; simpl.
  - split; [auto | intros [H|(k0 & [] & _)]; exact H].
  - rewrite IH, In_keys_setitem. split.
    + intros [[H|H]|(k0 & H0 & H1)]; [auto | right | right].
      * exists k1. auto.
      * exists k0. auto.
    + intros [H|(k0 & [E|H0] & H1)]; [auto | subst; auto |].
      right. exists k0. auto.
Qed.

Lemma cast_key_up_down s :
  s = "up" \/ s = "down" -> cast_key (KStr s) = KSpin Spin.up.
Proof. intros [->| ->]; reflexivity. Qed.

Lemma cast_key_never_names k0 s :
  s = "up" \/ s = "down" -> cast_key k0 <> KStr s.
Proof.
  intros Hs. destruct k0 as [s0|s0]; simpl; [|discriminate].
  destruct (String.eqb_spec s0 "up") as [->|n1]; simpl; [discriminate|].
  destruct (String.eqb_spec s0 "down") as [->|n2]; simpl; [discriminate|].
  intros E. injection E as ->. destruct Hs; contradiction.
Qed.

Lemma cast_key_spin_down k0 : cast_key k0 = KSpin Spin.down -> k0 = KSpin Spin.down.
Proof.
  destruct k0 as [s0|s0]; simpl; [|auto].
  destruct (String.eqb s0 "up" || String.eqb s0 "down"); discriminate.
Qed.
End CastDictFacts.

(** C10.  [cast_dict_ndarray] sends both string keys ["up"] and ["down"]
    to [Spin.up]: the keys of the result are the images of the keys of the
    input, neither string survives as a key, a mapping keyed ["down"] comes
    back keyed [Spin.up], and [Spin.down] is a key of the result only if it
    was one of the input. *)
Theorem cast_dict_ndarray_both_names_to_up :
  forall (L A O : Type) (np_array : L -> A),
    (forall s, s = "up" \/ s = "down" -> cast_key (KStr s) = KSpin Spin.up)
    /\ (forall d : list (key * jvalue L A O),
          exists r,
            cast_dict_ndarray L A O np_array (Some d) = Some r
            /\ (forall k, In k (keys r) <-> exists k0, In k0 (keys d) /\ cast_key k0 = k)
            /\ (In (KStr "up") (keys d) \/ In (KStr "down") (keys d) ->
                In (KSpin Spin.up) (keys r))
            /\ ~ In (KStr "up") (keys r)
            /\ ~ In (KStr "down") (keys r)
            /\ (In (KSpin Spin.down) (keys r) -> In (KSpin Spin.down) (keys d)))
    /\ (forall v : jvalue L A O,
          cast_dict_ndarray L A O np_array (Some [(KStr "down", v)])
          = Some [(KSpin Spin.up, cast_jvalue L A O np_array v)]).
Proof.
  intros L A O np_array. split; [|split].
  - apply cast_key_up_down.
  - intros d. eexists. split; [reflexivity|].
    assert (Hk : forall k,
               In k (keys (fold_left
                  (fun new_d kv => setitem key_eqb new_d (cast_key (fst kv))
                                     (cast_jvalue L A O np_array (snd kv))) d []))
               <-> exists k0, In k0 (keys d) /\ cast_key k0 = k).
    { intros k. rewrite In_keys_cast_fold. simpl. tauto. }
    split; [exact Hk|]. split; [|split; [|split]].
    + intros [H|H]; apply Hk; eexists; (split; [exact H | reflexivity]).
    + intros H. apply Hk in H. destruct H as (k0 & _ & H).
      revert H. apply cast_key_never_names. auto.
    + intros H. apply Hk in H. destruct H as (k0 & _ & H).
      revert H. apply cast_key_never_names. auto.
    + intros H. apply Hk in H. destruct H as (k0 & H0 & H).
      apply cast_key_spin_down in H. subst k0. exact H0.
  - reflexivity.
Qed.

(** ** The container codec *)

Section DictFacts2.
Variable V : Type.
Implicit Types (d m : sdict V) (k : string) (v : V).

Lemma sget_sset_same m k v : sget (sset m k v) k = Some v.
Proof.
  unfold sget, sset. induction m as [|[k' v'] m IH]; simpl.
  - rewrite String.eqb_refl. reflexivity.
  - destruct (String.eqb k k') eqn:E; simpl; rewrite E; [reflexivity | exact IH].
Qed.

Lemma sget_sset_other m k k' v : k <> k' -> sget (sset m k' v) k = sget m k.
Proof.
  intros Hk. unfold sget, sset. induction m as [|[k0 v0] m IH]; simpl.
  - destruct (String.eqb_spec k k'); [contradiction | reflexivity].
  - destruct (String.eqb_spec k' k0) as [->|n]; simpl.
    + destruct (String.eqb_spec k k0); [contradiction | reflexivity].
    + rewrite IH. reflexivity.
Qed.

Lemma sset_fresh m k v : shas m k = false -> sset m k v = m ++ [(k, v)].
Proof.
  unfold shas, has_key, sset. induction m as [|[k' v'] m IH]; simpl; [reflexivity|].
  destruct (String.eqb k k'); [discriminate|]. intros H. rewrite IH by exact H. reflexivity.
Qed.

Lemma sget_fresh m k v : shas m k = false -> sget (m ++ [(k, v)]) k = Some v.
Proof.
  intros H. rewrite <- sset_fresh by exact H. apply sget_sset_same.
Qed.

Lemma sset_last m k v0 v : shas m k = false -> sset (m ++ [(k, v0)]) k v = m ++ [(k, v)].
Proof.
  unfold shas, has_key, sset. induction m as [|[k' v'] m IH]; simpl.
  - rewrite String.eqb_refl. reflexivity.
  - destruct (String.eqb k k'); [discriminate|]. intros H. rewrite IH by exact H. reflexivity.
Qed.

Lemma keys_app m m' : keys (m ++ m') = keys m ++ keys m'.
Proof. apply map_app. Qed.
End DictFacts2.

Section MeshFacts.
Variables F Structure : Type.
Variable to_json : Structure -> string.
Variable has_h5_type : ndarray F -> bool.
Variable from_str : string -> result Structure.
Variable astype_U13_other : value F Structure -> result (value F Structure).
Variable decode_other : value F Structure -> result string.

#[local] Abbreviation value := (value F Structure).
#[local] Abbreviation dataset := (dataset F).
#[local] Abbreviation h5file := (h5file F).
#[local] Abbreviation add_data := (add_data F Structure to_json has_h5_type).
#[local] Abbreviation write_spins := (write_spins F Structure to_json has_h5_type).
#[local] Abbreviation write_items := (write_items F Structure to_json has_h5_type).
#[local] Abbreviation write_entry := (write_entry F Structure to_json has_h5_type).
#[local] Abbreviation write_mesh_data := (write_mesh_data F Structure to_json has_h5_type).
#[local] Abbreviation read_data := (read_data F Structure from_str astype_U13_other decode_other).
#[local] Abbreviation load_items := (load_items F Structure from_str astype_U13_other decode_other).
#[local] Abbreviation load_mesh_data := (load_mesh_data F Structure from_str astype_U13_other decode_other).
#[local] Abbreviation supported := (supported F Structure to_json has_h5_type from_str).
#[local] Abbreviation storable := (storable F Structure has_h5_type).
#[local] Abbreviation encoded := (encoded F Structure to_json).
#[local] Abbreviation decoded := (@decoded F Structure).
#[local] Abbreviation entry_on_disk := (entry_on_disk F Structure to_json).
#[local] Abbreviation entry_read_back := (@entry_read_back F Structure).
#[local] Abbreviation same_content := (@same_content F Structure).
#[local] Abbreviation same_mapping := (@same_mapping F Structure).
#[local] Abbreviation h5_get := (@h5_get F Structure).
#[local] Abbreviation is_not_False := (@is_not_False F Structure).

Lemma plain_name_spec k :
  plain_name k = true ->
  k <> "structure" /\ k <> "scattering_labels" /\
  contains "_up" k = false /\ contains "_down" k = false.
Proof.
  unfold plain_name. intros H.
  apply andb_prop in H. destruct H as [H Hd].
  apply andb_prop in H. destruct H as [H Hu].
  apply andb_prop in H. destruct H as [H _].
  apply andb_prop in H. destruct H as [H Hl].
  apply andb_prop in H. destruct H as [_ Hs].
  apply negb_true_iff in Hs, Hl, Hu, Hd.
  apply String.eqb_neq in Hs, Hl. auto.
Qed.

Lemma entry_name_nonempty k : entry_name k = true -> k <> "".
Proof. intros H ->. discriminate H. Qed.

Lemma plain_name_entry k :
  plain_name k = true -> entry_name k = true /\ k <> "" /\ k <> "vb_idx".
Proof.
  unfold plain_name. intros H.
  apply andb_prop in H. destruct H as [H _].
  apply andb_prop in H. destruct H as [H _].
  apply andb_prop in H. destruct H as [H Hv].
  apply andb_prop in H. destruct H as [H _].
  apply andb_prop in H. destruct H as [He _].
  apply negb_true_iff, String.eqb_neq in Hv.
  split; [exact He | split; [apply entry_name_nonempty; exact He | exact Hv]].
Qed.

Lemma append_nonempty s t : t <> "" -> (s ++ t)%string <> "".
Proof. destruct s; [auto | discriminate]. Qed.

Lemma spin_name_nonempty k spin : (k ++ "_" ++ Spin.name spin)%string <> "".
Proof. apply append_nonempty. discriminate. Qed.

Lemma shape_eqb_nonscalar (sh : list nat) : sh <> [] -> shape_eqb sh [] = false.
Proof. intros H. unfold shape_eqb. destruct (list_eq_dec Nat.eq_dec sh []); congruence. Qed.

Lemma is_not_False_h5_get (d : dataset) : is_not_False (h5_get d) = true.
Proof. destruct d; reflexivity. Qed.

(** Any name but ["structure"] and ["scattering_labels"] is decoded as it
    is stored: what the container hands back is never Python's [False]. *)
Lemma read_data_unreserved k (d : dataset) :
  k <> "structure" -> k <> "scattering_labels" -> read_data k d = Ok (h5_get d).
Proof.
  intros Hs Hl. unfold util.read_data.
  apply String.eqb_neq in Hs, Hl. rewrite Hs, Hl.
  destruct (String.eqb k "vb_idx"); [|reflexivity].
  cbv zeta. rewrite is_not_False_h5_get. reflexivity.
Qed.

(** Under a plain name an entry is decoded as it is stored. *)
Lemma read_data_plain k (d : dataset) :
  plain_name k = true -> read_data k d = Ok (h5_get d).
Proof.
  intros H. apply plain_name_spec in H. destruct H as (Hs & Hl & _ & _).
  apply read_data_unreserved; assumption.
Qed.

Lemma h5_get_encoded v : storable v -> h5_get (encoded v) = decoded v.
Proof. intros []; reflexivity. Qed.

(** A dataset of accepted data under a new, non-empty name is created. *)
Lemma create_dataset_Ok (f : h5file) name (d : dataset) :
  h5_accepts F has_h5_type d = true -> name <> "" -> shas f name = false ->
  create_dataset F has_h5_type f name d = Ok (f ++ [(name, d)]).
Proof.
  intros Hd Hn Hf. unfold create_dataset.
  apply String.eqb_neq in Hn. rewrite Hd, Hn, Hf. reflexivity.
Qed.

Lemma h5_accepts_encoded v : storable v -> h5_accepts F has_h5_type (encoded v) = true.
Proof.
  intros [a Hs Ht | x Ht | b | x l Ht]; cbn [util.encoded h5_accepts].
  - rewrite Ht, (shape_eqb_nonscalar _ Hs). reflexivity.
  - exact Ht.
  - reflexivity.
  - rewrite Ht. reflexivity.
Qed.

Lemma add_data_storable (f : h5file) name v :
  storable v -> name <> "" -> shas f name = false ->
  add_data f name v = Ok (f ++ [(name, encoded v)]).
Proof.
  intros Hv Hn Hf.
  rewrite <- (create_dataset_Ok f name (encoded v) (h5_accepts_encoded v Hv) Hn Hf).
  destruct Hv; reflexivity.
Qed.

Lemma take_all n s : String.length s <= n -> take n s = s.
Proof.
  revert n. induction s as [|c s IH]; intros n H; destruct n; simpl in *;
    try reflexivity; try lia.
  rewrite IH by lia. reflexivity.
Qed.

Lemma labels_facts (l : list string) :
  Forall label_ok l ->
  forallb is_ascii l = true /\ map rstrip_nul l = l /\ map (take 13) l = l.
Proof.
  induction 1 as [|s l (Ha & Hl & Hn) _ (IH1 & IH2 & IH3)]; cbn [map forallb]; [auto|].
  rewrite Ha, IH1, Hn, IH2, IH3, take_all by exact Hl. auto.
Qed.

Lemma write_items_cons f e rest :
  write_items f (e :: rest) = bind (write_entry f e) (fun f' => write_items f' rest).
Proof. destruct e as [k v]. simpl. destruct v; reflexivity. Qed.

Lemma write_entry_supported f e :
  supported (fst e) (snd e) -> shas f (fst (entry_on_disk e)) = false ->
  write_entry f e = Ok (f ++ [entry_on_disk e]).
Proof.
  destruct e as [k v]. simpl. intros Hs.
  unfold util.write_entry, util.entry_on_disk. simpl.
  destruct Hs as [k v Hk Hv | k spin v Hk Hv | s Ha Hc | x l Hl]; simpl.
  - intros Hf. destruct (plain_name_entry k Hk) as (_ & Hne & _).
    pose proof (h5_accepts_encoded v Hv) as Ha.
    destruct Hv; cbn [util.encoded] in Ha; simpl in Hf |- *;
      apply create_dataset_Ok; assumption.
  - intros Hf. rewrite add_data_storable;
      [reflexivity | exact Hv | apply spin_name_nonempty | exact Hf].
  - intros Hf. rewrite Ha. unfold set_entry. rewrite Hf. reflexivity.
  - intros Hf. destruct (labels_facts _ Hl) as (H1 & H2 & _).
    simpl in H1. rewrite H1.
    rewrite create_dataset_Ok; [reflexivity | reflexivity | discriminate | exact Hf].
Qed.

Lemma shas_false_not_In (V : Type) (f : sdict V) k : ~ In k (keys f) -> shas f k = false.
Proof. apply shas_not_In_keys. Qed.

Lemma write_items_supported xs : forall f,
  (forall e, In e xs -> supported (fst e) (snd e)) ->
  NoDup (keys f ++ map (fun e => fst (entry_on_disk e)) xs) ->
  write_items f xs = Ok (f ++ map entry_on_disk xs).
Proof.
  induction xs as [|e xs IH]; intros f Hs Hn.
  - simpl. rewrite app_nil_r. reflexivity.
  - rewrite write_items_cons, write_entry_supported.
    + simpl. rewrite IH.
      * rewrite <- app_assoc. reflexivity.
      * intros e' He'. apply Hs. right. exact He'.
      * rewrite keys_app. simpl. rewrite <- app_assoc. exact Hn.
    + apply Hs. left. reflexivity.
    + apply shas_false_not_In. intros Hin.
      apply NoDup_remove_2 in Hn. apply Hn. apply in_or_app. left. exact Hin.
Qed.

Lemma load_items_unmarked m k (d : dataset) rest :
  marked k = false ->
  load_items m ((k, d) :: rest)
  = bind (read_data k d) (fun v => load_items (sset m k v) rest).
Proof. unfold marked. intros H. cbn [util.load_items]. rewrite H. reflexivity. Qed.

Lemma read_data_labels (d : dataset) :
  read_data "scattering_labels" d = astype_U13 F Structure astype_U13_other (h5_get d).
Proof. reflexivity. Qed.

Lemma read_data_structure (d : dataset) :
  read_data "structure" d
  = bind (decode F Structure decode_other (h5_get d))
         (fun data_str => bind (from_str data_str) (fun s => Ok (VStructure s))).
Proof. reflexivity. Qed.

Lemma astype_U13_labels (l : list string) :
  Forall label_ok l ->
  astype_U13 F Structure astype_U13_other (VBytesArray (array1 l))
  = Ok (VTextArray (array1 l)).
Proof.
  intros Hl. destruct (labels_facts _ Hl) as (H1 & _ & H3).
  unfold astype_U13, array1. cbn [data shape]. rewrite H1, H3. reflexivity.
Qed.

(** Reading back one entry. *)
Lemma load_items_supported_entry m e rest :
  supported (fst e) (snd e) -> shas m (fst e) = false ->
  load_items m (entry_on_disk e :: rest) = load_items (m ++ [entry_read_back e]) rest.
Proof.
  destruct e as [k v]. cbn [fst snd]. intros Hs Hm.
  unfold util.entry_on_disk, util.entry_read_back. cbn [fst snd].
  destruct Hs as [k v Hk Hv | k spin v Hk Hv | s Ha Hf | x l Hl].
  - destruct (plain_name_spec k Hk) as (_ & _ & Hu & Hd).
    destruct Hv; cbn [util.encoded util.decoded];
      rewrite load_items_unmarked by (unfold marked; rewrite Hu, Hd; reflexivity);
      rewrite read_data_plain by exact Hk; cbn [bind util.h5_get];
      rewrite sset_fresh by exact Hm; reflexivity.
  - cbn [util.load_items String.append].
    rewrite contains_spin_name, last_part_spin, str_to_spin_name. simpl bind.
    destruct (plain_name_spec k Hk) as (_ & _ & Hu & Hd).
    rewrite replace_spin_name by assumption. rewrite Hm.
    rewrite sset_fresh by exact Hm.
    rewrite read_data_plain by exact Hk. simpl bind.
    rewrite h5_get_encoded by exact Hv.
    unfold set_spin. rewrite sget_fresh by exact Hm. simpl bind.
    rewrite sset_last by exact Hm. reflexivity.
  - rewrite load_items_unmarked by reflexivity.
    rewrite read_data_structure. cbn [util.encoded util.h5_get decode].
    rewrite Ha. cbn [bind]. rewrite Hf. cbn [bind].
    rewrite sset_fresh by exact Hm. reflexivity.
  - rewrite load_items_unmarked by reflexivity.
    rewrite read_data_labels. cbn [util.encoded util.h5_get].
    destruct (labels_facts _ Hl) as (_ & H2 & _). rewrite H2.
    rewrite astype_U13_labels by exact Hl. cbn [bind].
    rewrite sset_fresh by exact Hm. reflexivity.
Qed.

Lemma fst_entry_read_back e : fst (entry_read_back e) = fst e.
Proof.
  destruct e as [k v]. unfold util.entry_read_back. simpl.
  destruct v as [| | | | | | | | | | |[|[s p] [|? ?]]]; reflexivity.
Qed.

Lemma load_items_supported xs : forall m,
  (forall e, In e xs -> supported (fst e) (snd e)) ->
  NoDup (keys m ++ keys xs) ->
  load_items m (map entry_on_disk xs) = Ok (m ++ map entry_read_back xs).
Proof.
  induction xs as [|e xs IH]; intros m Hs Hn.
  - simpl. rewrite app_nil_r. reflexivity.
  - cbn [map]. rewrite load_items_supported_entry.
    + rewrite IH.
      * rewrite <- app_assoc. reflexivity.
      * intros e' He'. apply Hs. right. exact He'.
      * rewrite keys_app. simpl. rewrite fst_entry_read_back, <- app_assoc. exact Hn.
    + apply Hs. left. reflexivity.
    + apply shas_false_not_In. intros Hin.
      apply NoDup_remove_2 in Hn. apply Hn. apply in_or_app. left. exact Hin.
Qed.
End MeshFacts.

Section RoundTrip.
Variables F Structure : Type.
Variable to_json : Structure -> string.
Variable has_h5_type : ndarray F -> bool.
Variable from_str : string -> result Structure.
Variable astype_U13_other : value F Structure -> result (value F Structure).
Variable decode_other : value F Structure -> result string.

#[local] Abbreviation value := (value F Structure).
#[local] Abbreviation dataset := (dataset F).
#[local] Abbreviation h5file := (h5file F).
#[local] Abbreviation write_mesh_data := (write_mesh_data F Structure to_json has_h5_type).
#[local] Abbreviation load_items := (load_items F Structure from_str astype_U13_other decode_other).
#[local] Abbreviation load_mesh_data := (load_mesh_data F Structure from_str astype_U13_other decode_other).
#[local] Abbreviation supported := (supported F Structure to_json has_h5_type from_str).
#[local] Abbreviation storable := (storable F Structure has_h5_type).
#[local] Abbreviation encoded := (encoded F Structure to_json).
#[local] Abbreviation decoded := (@decoded F Structure).
#[local] Abbreviation entry_on_disk := (entry_on_disk F Structure to_json).
#[local] Abbreviation entry_read_back := (@entry_read_back F Structure).
#[local] Abbreviation same_content := (@same_content F Structure).
#[local] Abbreviation same_mapping := (@same_mapping F Structure).
#[local] Abbreviation same_entry :=
  (fun e e' : string * value => fst e = fst e' /\ same_content (snd e) (snd e')).

Lemma disk_name_cases e :
  supported (fst e) (snd e) ->
  (fst (entry_on_disk e) = fst e /\ marked (fst e) = false)
  \/ (exists spin, fst (entry_on_disk e) = (fst e ++ String "_" (Spin.name spin))%string
                   /\ plain_name (fst e) = true).
Proof.
  destruct e as [k v]. cbn [fst snd]. intros Hs.
  unfold util.entry_on_disk. cbn [fst snd].
  destruct Hs as [k v Hk Hv | k spin v Hk Hv | s Ha Hf | x l Hl].
  - left. destruct (plain_name_spec k Hk) as (_ & _ & Hu & Hd).
    split; [destruct Hv; reflexivity | unfold marked; rewrite Hu, Hd; reflexivity].
  - right. exists spin. auto.
  - left. split; reflexivity.
  - left. split; reflexivity.
Qed.

Lemma marked_spin_name k spin : marked (k ++ String "_" (Spin.name spin)) = true.
Proof. apply contains_spin_name. Qed.

Lemma spin_name_inj k k' spin spin' :
  plain_name k = true -> plain_name k' = true ->
  (k ++ String "_" (Spin.name spin))%string = (k' ++ String "_" (Spin.name spin'))%string ->
  k = k'.
Proof.
  intros Hk Hk' E.
  assert (En : Spin.name spin = Spin.name spin').
  { rewrite <- (last_part_spin k spin), <- (last_part_spin k' spin'), E. reflexivity. }
  destruct (plain_name_spec k Hk) as (_ & _ & Hu & Hd).
  destruct (plain_name_spec k' Hk') as (_ & _ & Hu' & Hd').
  rewrite <- (replace_spin_name k spin Hu Hd), <- (replace_spin_name k' spin' Hu' Hd').
  rewrite E, En. reflexivity.
Qed.

Lemma disk_name_inj e e' :
  supported (fst e) (snd e) -> supported (fst e') (snd e') ->
  fst (entry_on_disk e) = fst (entry_on_disk e') -> fst e = fst e'.
Proof.
  intros Hs Hs' E.
  destruct (disk_name_cases e Hs) as [[E1 M1]|(spin & E1 & P1)];
    destruct (disk_name_cases e' Hs') as [[E2 M2]|(spin' & E2 & P2)];
    rewrite E1, E2 in E.
  - exact E.
  - rewrite E, marked_spin_name in M1. discriminate.
  - rewrite <- E, marked_spin_name in M2. discriminate.
  - eapply spin_name_inj; eassumption.
Qed.

Lemma disk_names_NoDup (x : sdict value) :
  NoDup (keys x) -> (forall e, In e x -> supported (fst e) (snd e)) ->
  NoDup (map (fun e => fst (entry_on_disk e)) x).
Proof.
  induction x as [|e x IH]; intros Hn Hs; simpl; [constructor|].
  inversion Hn as [|? ? Hin Hn']; subst.
  constructor.
  - intros H. apply in_map_iff in H. destruct H as (e' & E & He').
    apply Hin. apply in_map_iff. exists e'. split; [|exact He'].
    apply disk_name_inj; [apply Hs; right; exact He' | apply Hs; left; reflexivity | exact E].
  - apply IH; [exact Hn' | intros e' He'; apply Hs; right; exact He'].
Qed.

Lemma insert_by_name_perm (e : string * dataset) l :
  Permutation (e :: l) (insert_by_name F e l).
Proof.
  induction l as [|e' l IH]; simpl; [reflexivity|].
  destruct (String.leb (fst e) (fst e')); [reflexivity|].
  rewrite perm_swap. constructor. exact IH.
Qed.

Lemma h5_items_perm (f : h5file) : Permutation f (h5_items F f).
Proof.
  induction f as [|e f IH]; simpl; [reflexivity|].
  rewrite <- insert_by_name_perm. constructor. exact IH.
Qed.

Lemma same_content_decoded v : storable v -> same_content v (decoded v).
Proof. intros []; constructor. Qed.

Lemma same_entry_read_back e :
  supported (fst e) (snd e) -> same_entry e (entry_read_back e).
Proof.
  destruct e as [k v]. cbn [fst snd]. intros Hs.
  unfold util.entry_read_back. cbn [fst snd].
  destruct Hs as [k v Hk Hv | k spin v Hk Hv | s Ha Hf | x l Hl].
  - destruct Hv; split; (reflexivity || constructor).
  - split; [reflexivity|]. cbn [snd]. apply same_dict.
    constructor; [|constructor]. split; [reflexivity | apply same_content_decoded; exact Hv].
  - split; [reflexivity | constructor].
  - split; [reflexivity | constructor].
Qed.

Lemma same_entries_read_back (x : sdict value) :
  (forall e, In e x -> supported (fst e) (snd e)) ->
  Forall2 same_entry x (map entry_read_back x).
Proof.
  induction x as [|e x IH]; intros Hs; simpl; constructor.
  - apply same_entry_read_back. apply Hs. left. reflexivity.
  - apply IH. intros e' He'. apply Hs. right. exact He'.
Qed.

Lemma write_mesh_data_supported (x : sdict value) :
  NoDup (keys x) -> (forall e, In e x -> supported (fst e) (snd e)) ->
  write_mesh_data x = Ok (map entry_on_disk x).
Proof.
  intros Hn Hs. unfold util.write_mesh_data.
  rewrite (write_items_supported F Structure to_json has_h5_type from_str x []); [reflexivity | exact Hs |].
  simpl. apply disk_names_NoDup; assumption.
Qed.

Lemma load_items_any_order (x : sdict value) entries :
  NoDup (keys x) -> (forall e, In e x -> supported (fst e) (snd e)) ->
  Permutation (map entry_on_disk x) entries ->
  exists y, load_items [] entries = Ok y /\ same_mapping x y.
Proof.
  intros Hn Hs Hp. symmetry in Hp.
  apply Permutation_map_inv in Hp. destruct Hp as (x' & -> & Hx).
  assert (Hs' : forall e, In e x' -> supported (fst e) (snd e)).
  { intros e He. apply Hs. eapply Permutation_in; [symmetry; exact Hx | exact He]. }
  assert (Hn' : NoDup (keys x')).
  { eapply Permutation_NoDup; [apply Permutation_map; exact Hx | exact Hn]. }
  exists (map entry_read_back x'). split.
  - rewrite (load_items_supported F Structure to_json has_h5_type from_str astype_U13_other decode_other x' []);
      [reflexivity | exact Hs' | exact Hn'].
  - exists x'. split; [exact Hx | apply same_entries_read_back; exact Hs'].
Qed.
End RoundTrip.


Lemma append_inj_r k s t : (k ++ s)%string = (k ++ t)%string -> s = t.
Proof. induction k as [|c k IH]; simpl; intros H; [exact H|]. injection H as H. auto. Qed.

Lemma append_neq_longer s t : t <> "" -> (s ++ t)%string <> s.
Proof.
  intros Ht E. apply (f_equal String.length) in E. rewrite length_append in E.
  destruct t; [congruence|]. simpl in E. lia.
Qed.

Section MeshClaims.
Variables F Structure : Type.
Variable to_json : Structure -> string.
Variable has_h5_type : ndarray F -> bool.
Variable from_str : string -> result Structure.
Variable astype_U13_other : value F Structure -> result (value F Structure).
Variable decode_other : value F Structure -> result string.

#[local] Abbreviation value := (value F Structure).
#[local] Abbreviation dataset := (dataset F).
#[local] Abbreviation h5file := (h5file F).
#[local] Abbreviation add_data := (add_data F Structure to_json has_h5_type).
#[local] Abbreviation write_spins := (write_spins F Structure to_json has_h5_type).
#[local] Abbreviation write_items := (write_items F Structure to_json has_h5_type).
#[local] Abbreviation write_mesh_data := (write_mesh_data F Structure to_json has_h5_type).
#[local] Abbreviation read_data := (read_data F Structure from_str astype_U13_other decode_other).
#[local] Abbreviation load_items := (load_items F Structure from_str astype_U13_other decode_other).
#[local] Abbreviation load_mesh_data := (load_mesh_data F Structure from_str astype_U13_other decode_other).
#[local] Abbreviation storable := (storable F Structure has_h5_type).
#[local] Abbreviation encoded := (encoded F Structure to_json).
#[local] Abbreviation h5_get := (@h5_get F Structure).

(** The names the writer gives the two entries of a spin mapping. *)
Lemma write_two_spins k s1 s2 v1 v2 :
  storable v1 -> storable v2 ->
  write_mesh_data [(k, VDict [(s1, v1); (s2, v2)])]
  = Ok [((k ++ "_" ++ Spin.name s1)%string, encoded v1);
        (((k ++ "_" ++ Spin.name s1) ++ "_" ++ Spin.name s2)%string, encoded v2)].
Proof.
  intros H1 H2. unfold util.write_mesh_data. cbn [util.write_items util.write_spins].
  rewrite add_data_storable by (exact H1 || apply spin_name_nonempty || reflexivity).
  cbn [bind app].
  rewrite add_data_storable; [reflexivity | exact H2 | apply spin_name_nonempty |].
  unfold shas, has_key, sget. cbn [getitem].
  destruct (String.eqb_spec ((k ++ "_" ++ Spin.name s1) ++ "_" ++ Spin.name s2)
                            (k ++ "_" ++ Spin.name s1)) as [E|_]; [|reflexivity].
  exfalso. revert E. apply append_neq_longer. discriminate.
Qed.

(** Writers only append: what is in the container stays. *)
Lemma add_data_extends (f f' : h5file) name v :
  add_data f name v = Ok f' -> exists e, f' = f ++ [e].
Proof.
  unfold util.add_data, create_dataset, set_entry.
  destruct v as [| | | | | | [|? ?] | [|? ?] | | | |];
    repeat match goal with
           | |- context [if ?c then _ else _] => destruct c
           end; intros H; try discriminate; injection H as <-; eauto.
Qed.

Lemma add_data_None (f f' : h5file) name :
  add_data f name VNone = Ok f' -> f' = f ++ [(name, DBool false)].
Proof.
  unfold util.add_data, create_dataset. cbn [h5_accepts negb].
  destruct (String.eqb name ""); [discriminate|].
  destruct (shas f name); [discriminate|].
  intros H. injection H as <-. reflexivity.
Qed.

Lemma write_spins_extends items : forall (f f' : h5file) k,
  write_spins f k items = Ok f' -> forall e, In e f -> In e f'.
Proof.
  induction items as [|[spin v] items IH]; intros f f' k H e He; simpl in H.
  - injection H as <-. exact He.
  - apply bind_Ok in H. destruct H as (f1 & H1 & H).
    apply add_data_extends in H1. destruct H1 as [e1 ->].
    eapply IH; [exact H|]. apply in_or_app. left. exact He.
Qed.

Lemma write_entry_extends (f f' : h5file) e0 :
  write_entry F Structure to_json has_h5_type f e0 = Ok f' -> forall e, In e f -> In e f'.
Proof.
  unfold util.write_entry. intros H e He.
  destruct (snd e0) eqn:Ev;
    try (apply add_data_extends in H; destruct H as [e1 ->]; apply in_or_app; left; exact He).
  eapply write_spins_extends; eassumption.
Qed.

Lemma write_items_extends items : forall (f f' : h5file),
  write_items f items = Ok f' -> forall e, In e f -> In e f'.
Proof.
  induction items as [|e0 items IH]; intros f f' H e He.
  - simpl in H. injection H as <-. exact He.
  - rewrite write_items_cons in H. apply bind_Ok in H. destruct H as (f1 & H1 & H).
    eapply IH; [exact H|]. eapply write_entry_extends; eassumption.
Qed.

Lemma write_items_None items : forall (f f' : h5file) k,
  write_items f items = Ok f' -> In (k, VNone) items -> In (k, DBool false) f'.
Proof.
  induction items as [|e0 items IH]; intros f f' k H Hin; [destruct Hin|].
  rewrite write_items_cons in H. apply bind_Ok in H. destruct H as (f1 & H1 & H).
  destruct Hin as [->|Hin].
  - unfold util.write_entry in H1. cbn [fst snd] in H1. apply add_data_None in H1. subst f1.
    eapply write_items_extends; [exact H|]. apply in_or_app. right. left. reflexivity.
  - eapply IH; eassumption.
Qed.

(** Once a plain name holds a boolean scalar, a later entry either leaves
    it alone or makes the load fail. *)
Lemma load_items_keeps entries : forall (m y : sdict value) k b,
  load_items m entries = Ok y ->
  sget m k = Some (VNpBool b) -> ~ In k (keys entries) ->
  sget y k = Some (VNpBool b).
Proof.
  induction entries as [|[name d] entries IH]; intros m y k b H Hm Hk.
  - simpl in H. injection H as <-. exact Hm.
  - cbn [util.load_items] in H.
    assert (Hne : k <> name) by (intros ->; apply Hk; left; reflexivity).
    assert (Hk' : ~ In k (keys entries)) by (intros Hin; apply Hk; right; exact Hin).
    destruct (contains "_up" name || contains "_down" name).
    + apply bind_Ok in H. destruct H as (spin & _ & H).
      apply bind_Ok in H. destruct H as (v & _ & H).
      apply bind_Ok in H. destruct H as (m' & Hset & H).
      eapply IH; [exact H | | exact Hk'].
      set (key := replace ("_" ++ Spin.name spin) "" name) in *.
      unfold set_spin in Hset.
      destruct (String.eqb_spec k key) as [->|Hkey].
      * assert (Hh : shas m key = true).
        { unfold shas, has_key. fold (sget m key). rewrite Hm. reflexivity. }
        rewrite Hh, Hm in Hset. discriminate.
      * destruct (sget (if shas m key then m else sset m key (VDict [])) key)
          as [[| | | | | | | | | | |dd]|]; try discriminate.
        injection Hset as <-. rewrite sget_sset_other by exact Hkey.
        destruct (shas m key); [exact Hm|].
        rewrite sget_sset_other by exact Hkey. exact Hm.
    + apply bind_Ok in H. destruct H as (v & _ & H).
      eapply IH; [exact H | | exact Hk'].
      rewrite sget_sset_other by exact Hne. exact Hm.
Qed.

Lemma load_items_None entries : forall (m y : sdict value) k,
  plain_name k = true ->
  NoDup (keys entries) -> In (k, DBool false) entries ->
  load_items m entries = Ok y ->
  sget y k = Some (VNpBool false).
Proof.
  induction entries as [|[name d] entries IH]; intros m y k Hk Hn Hin H; [destruct Hin|].
  inversion Hn as [|? ? Hnotin Hn']; subst.
  destruct Hin as [E|Hin].
  - injection E as -> ->.
    destruct (plain_name_spec k Hk) as (_ & _ & Hu & Hd).
    rewrite load_items_unmarked in H by (unfold marked; rewrite Hu, Hd; reflexivity).
    rewrite read_data_plain in H by exact Hk. cbn [bind util.h5_get] in H.
    eapply load_items_keeps; [exact H | apply sget_sset_same | exact Hnotin].
  - cbn [util.load_items] in H.
    destruct (contains "_up" name || contains "_down" name).
    + apply bind_Ok in H. destruct H as (spin & _ & H).
      apply bind_Ok in H. destruct H as (v & _ & H).
      apply bind_Ok in H. destruct H as (m' & _ & H).
      eapply IH; eassumption.
    + apply bind_Ok in H. destruct H as (v & _ & H).
      eapply IH; eassumption.
Qed.
End MeshClaims.

(** C2.  What [write_mesh_data] stores for a spin mapping with both
    entries under the key [k], two arrays of at least one dimension and of
    a type the container stores: the entries [k_up] and [k_up_down] (or
    [k_down] and [k_down_up], following the order of the mapping), because
    the loop formats the name from the name of the turn before; no entry
    [k_down] is stored beside [k_up]. *)
Theorem write_mesh_data_spin_pair_names :
  forall (F Structure : Type) (to_json : Structure -> string)
         (has_h5_type : ndarray F -> bool)
         (k : string) (a b : ndarray F),
    shape a <> [] -> shape b <> [] ->
    has_h5_type a = true -> has_h5_type b = true ->
    write_mesh_data F Structure to_json has_h5_type
      [(k, VDict [(Spin.up, VArray a); (Spin.down, VArray b)])]
    = Ok [((k ++ "_up")%string, DArray a true); ((k ++ "_up_down")%string, DArray b true)]
    /\ write_mesh_data F Structure to_json has_h5_type
         [(k, VDict [(Spin.down, VArray b); (Spin.up, VArray a)])]
       = Ok [((k ++ "_down")%string, DArray b true); ((k ++ "_down_up")%string, DArray a true)]
    /\ sget [((k ++ "_up")%string, DArray a true); ((k ++ "_up_down")%string, DArray b true)]
            (k ++ "_down")%string = None.
Proof.
  intros F Structure to_json has_h5_type k a b Ha Hb Hta Htb. split; [|split].
  - rewrite write_two_spins by (constructor; assumption).
    cbn [Spin.name String.append util.encoded].
    rewrite append_assoc. reflexivity.
  - rewrite write_two_spins by (constructor; assumption).
    cbn [Spin.name String.append util.encoded].
    rewrite append_assoc. reflexivity.
  - unfold sget. cbn [getitem].
    destruct (String.eqb_spec (k ++ "_down") (k ++ "_up")) as [E|_];
      [apply append_inj_r in E; discriminate|].
    destruct (String.eqb_spec (k ++ "_down") (k ++ "_up_down")) as [E|_];
      [apply append_inj_r in E; discriminate|].
    reflexivity.
Qed.

Lemma write_mesh_data_spin_pair_names_witness :
  Sample.write_mesh_data
    [("energies", VDict [(Spin.up, VArray (mk_ndarray [2] [5; 7]%Z));
                         (Spin.down, VArray (mk_ndarray [2] [6; 8]%Z))])]
  = Ok [("energies_up", DArray (mk_ndarray [2] [5; 7]%Z) true);
        ("energies_up_down", DArray (mk_ndarray [2] [6; 8]%Z) true)].
Proof.
  apply (write_mesh_data_spin_pair_names Z string Sample.to_json Sample.has_h5_type
           "energies" (mk_ndarray [2] [5; 7]%Z) (mk_ndarray [2] [6; 8]%Z));
    (discriminate || reflexivity).
Defined.

(** C7.  Writing [{"vb_idx": None}] stores the boolean false, and reading
    it back gives numpy's false, not [None]: whatever the entry ["vb_idx"]
    holds is returned as read, since a value read from the container is
    never Python's own [False] object. *)
Theorem vb_idx_None_reads_back_as_numpy_false :
  forall (F Structure : Type) (to_json : Structure -> string)
         (has_h5_type : ndarray F -> bool)
         (from_str : string -> result Structure)
         (astype_U13_other : value F Structure -> result (value F Structure))
         (decode_other : value F Structure -> result string),
    write_mesh_data F Structure to_json has_h5_type [("vb_idx", VNone)] = Ok [("vb_idx", DBool false)]
    /\ load_mesh_data F Structure from_str astype_U13_other decode_other
         [("vb_idx", DBool false)]
       = Ok [("vb_idx", VNpBool false)]
    /\ (forall data : dataset F,
          read_data F Structure from_str astype_U13_other decode_other "vb_idx" data
          = Ok (h5_get F Structure data)
          /\ h5_get F Structure data <> VNone).
Proof.
  intros. split; [reflexivity | split; [reflexivity|]].
  intros data. split.
  - apply read_data_unreserved; discriminate.
  - destruct data; discriminate.
Qed.

(** C9, amended.  For every plain name [k] (the name of a root entry, other
    than ["vb_idx"], ["structure"] and ["scattering_labels"], free of
    ["_up"] and ["_down"]): a top-level [None] under [k] is stored as the
    boolean false under [k]; every load that succeeds on a container
    holding that entry returns numpy's false under [k]; and an entry under
    [k] is decoded as it is stored. *)
Theorem None_under_plain_name_reads_back_false :
  forall (F Structure : Type) (to_json : Structure -> string)
         (has_h5_type : ndarray F -> bool)
         (from_str : string -> result Structure)
         (astype_U13_other : value F Structure -> result (value F Structure))
         (decode_other : value F Structure -> result string)
         (k : string),
    plain_name k = true ->
    (forall mesh_data f,
        write_mesh_data F Structure to_json has_h5_type mesh_data = Ok f ->
        In (k, VNone) mesh_data -> In (k, DBool false) f)
    /\ (forall entries y,
          NoDup (keys entries) -> In (k, DBool false) entries ->
          load_items F Structure from_str astype_U13_other decode_other [] entries = Ok y ->
          sget y k = Some (VNpBool false))
    /\ write_mesh_data F Structure to_json has_h5_type [(k, VNone)] = Ok [(k, DBool false)]
    /\ load_mesh_data F Structure from_str astype_U13_other decode_other [(k, DBool false)]
       = Ok [(k, VNpBool false)]
    /\ (forall data : dataset F,
          read_data F Structure from_str astype_U13_other decode_other k data
          = Ok (h5_get F Structure data)).
Proof.
  intros F Structure to_json has_h5_type from_str astype_U13_other decode_other k Hk.
  split; [|split; [|split; [|split]]].
  - intros mesh_data f. apply write_items_None.
  - intros entries y Hn Hin H. eapply load_items_None; eassumption.
  - destruct (plain_name_entry k Hk) as (_ & Hne & _).
    unfold write_mesh_data. cbn [write_items add_data].
    rewrite create_dataset_Ok by (reflexivity || assumption). reflexivity.
  - unfold load_mesh_data. cbn [h5_items fold_right insert_by_name].
    destruct (plain_name_spec k Hk) as (_ & _ & Hu & Hd).
    rewrite load_items_unmarked by (unfold marked; rewrite Hu, Hd; reflexivity).
    rewrite read_data_plain by exact Hk. reflexivity.
  - intros data. apply read_data_plain. exact Hk.
Qed.

Lemma None_under_plain_name_witness :
  plain_name "efermi" = true
  /\ Sample.write_mesh_data [("efermi", VNone)] = Ok [("efermi", DBool false)]
  /\ Sample.load_mesh_data [("efermi", DBool false)] = Ok [("efermi", VNpBool false)].
Proof.
  split; [reflexivity|].
  pose proof (None_under_plain_name_reads_back_false
                Z string Sample.to_json Sample.has_h5_type Sample.from_str Sample.astype_U13_other
                Sample.decode_other "efermi" eq_refl) as H.
  split; [apply H | apply H].
Defined.

Lemma None_under_spin_marked_name :
  Sample.write_mesh_data [("x_up", VNone)] = Ok [("x_up", DBool false)]
  /\ Sample.load_mesh_data [("x_up", DBool false)]
     = Ok [("x", VDict [(Spin.up, VNpBool false)])]
  /\ sget [("x", VDict [(Spin.up, @VNpBool Z string false)])] "x_up" = None.
Proof. repeat apply conj; vm_compute; reflexivity. Qed.



(** ** The examples of the specification, in exact arithmetic *)

Lemma nth_map_in (A B : Type) (f : A -> B) l i d d' :
  (i < List.length l)%nat -> nth i (map f l) d = f (nth i l d').
Proof.
  intros H. rewrite (nth_indep _ d (f d')) by (rewrite length_map; exact H).
  apply map_nth.
Qed.

Lemma nth_arange num i :
  (i < Z.to_nat num)%nat -> nth i (Ideal.arange num) 0%Z = Z.of_nat i.
Proof.
  intros H. unfold Ideal.arange.
  change 0%Z with (Z.of_nat 0). rewrite map_nth, seq_nth by exact H. reflexivity.
Qed.

Lemma length_arange num : List.length (Ideal.arange num) = Z.to_nat num.
Proof. unfold Ideal.arange. rewrite length_map, length_seq. reflexivity. Qed.

(** The exact [linspace]: [num] points, the [i]-th at [i/(num-1)] of the way. *)
Lemma linspace_real a b num :
  (2 <= num)%Z ->
  exists l,
    Ideal.linspace (Ideal.Real a) (Ideal.Real b) num = Ok l
    /\ List.length l = Z.to_nat num
    /\ forall i, (i < Z.to_nat num)%nat ->
         nth i l Ideal.NaN = Ideal.Real (a + INR i * ((b - a) / IZR (num - 1))).
Proof.
  intros Hn. unfold Ideal.linspace.
  destruct (Z.ltb_spec num 0) as [H|_]; [lia|].
  eexists. split; [reflexivity|]. split.
  - rewrite length_map. apply length_arange.
  - intros i Hi.
    assert (Hd : IZR (num - 1) <> 0%R) by (apply not_0_IZR; lia).
    rewrite (nth_map_in _ _ _ _ _ _ 0%Z) by (rewrite length_arange; exact Hi).
    rewrite nth_arange by exact Hi.
    destruct (Z.ltb_spec 1 num) as [_|H]; [|lia].
    destruct (Z.ltb_spec 0 (num - 1)) as [_|H]; [|lia].
    rewrite INR_IZR_INZ.
    destruct (Z.eqb_spec (Z.of_nat i) (num - 1)) as [E|_]; simpl.
    + rewrite E. f_equal. field. exact Hd.
    + f_equal. lra.
Qed.

Lemma pow10_geometric a b t :
  (0 < a)%R -> (0 < b)%R ->
  Rpower 10 (ln a / ln 10 + t * (ln b / ln 10 - ln a / ln 10))
  = (a * Rpower (b / a) t)%R.
Proof.
  intros Ha Hb. unfold Rpower.
  assert (H10 : ln 10 <> 0%R) by (apply ln_neq_0; lra).
  assert (Hdiv : ln (b / a) = (ln b - ln a)%R).
  { unfold Rdiv. rewrite ln_mult, ln_Rinv by (assumption || apply Rinv_0_lt_compat; assumption).
    reflexivity. }
  rewrite Hdiv.
  replace ((ln a / ln 10 + t * (ln b / ln 10 - ln a / ln 10)) * ln 10)%R
    with (ln a + t * (ln b - ln a))%R by (field; exact H10).
  rewrite exp_plus, exp_ln by exact Ha. reflexivity.
Qed.

(** The exact [geomspace] between positive endpoints: [num] points, the
    [i]-th being [start * (stop / start) ^ (i / (num - 1))]. *)
Lemma geomspace_real a b num :
  (0 < a)%R -> (0 < b)%R -> (2 <= num)%Z ->
  exists l,
    Ideal.geomspace (Ideal.Real a) (Ideal.Real b) num = Ok l
    /\ List.length l = Z.to_nat num
    /\ forall i, (i < Z.to_nat num)%nat ->
         nth i l Ideal.NaN = Ideal.Real (a * Rpower (b / a) (INR i / IZR (num - 1))).
Proof.
  intros Ha Hb Hn. unfold Ideal.geomspace, Ideal.is_zero, Ideal.is_negative.
  destruct (Req_dec_T a 0) as [E|_]; [lra|].
  destruct (Req_dec_T b 0) as [E|_]; [lra|].
  destruct (Rlt_dec a 0) as [E|_]; [lra|].
  cbn [orb andb]. unfold Ideal.log10.
  destruct (Rlt_dec 0 a) as [_|E]; [|contradiction].
  destruct (Rlt_dec 0 b) as [_|E]; [|contradiction].
  destruct (linspace_real (ln a / ln 10) (ln b / ln 10) num Hn) as (pts & E & Hlen & Hnth).
  rewrite E. cbn [bind].
  eexists. split; [reflexivity|]. split.
  - rewrite length_map, length_combine, length_arange, Hlen. apply Nat.min_id.
  - intros i Hi.
    assert (Hd : IZR (num - 1) <> 0%R) by (apply not_0_IZR; lia).
    rewrite (nth_map_in _ _ _ _ _ _ (0%Z, Ideal.NaN))
      by (rewrite length_combine, length_arange, Hlen, Nat.min_id; exact Hi).
    rewrite combine_nth by (rewrite length_arange, Hlen; reflexivity).
    rewrite nth_arange, Hnth by exact Hi.
    destruct (Z.eqb_spec (Z.of_nat i) 0) as [E0|N0].
    + assert (i = 0)%nat by lia. subst i. simpl INR.
      unfold Rdiv at 2. rewrite Rmult_0_l, Rpower_O by (apply Rdiv_lt_0_compat; assumption).
      f_equal. lra.
    + destruct (Z.ltb_spec 1 num) as [_|H]; [|lia]. cbn [andb].
      destruct (Z.eqb_spec (Z.of_nat i) (num - 1)) as [E1|N1].
      * rewrite INR_IZR_INZ, E1.
        unfold Rdiv at 2. rewrite Rinv_r by exact Hd.
        rewrite Rpower_1 by (apply Rdiv_lt_0_compat; assumption).
        f_equal. field. lra.
      * unfold Ideal.mul, Ideal.lift2, Ideal.pow10. f_equal.
        replace (INR i * ((ln b / ln 10 - ln a / ln 10) / IZR (num - 1)))%R
          with ((INR i / IZR (num - 1)) * (ln b / ln 10 - ln a / ln 10))%R
          by (field; split; [apply ln_neq_0; lra | exact Hd]).
        rewrite pow10_geometric by assumption. lra.
Qed.

(** [float] at the exact instance, on a literal whose mantissa and
    exponent are given. *)
Ltac eval_literal m e :=
  unfold Ideal.py_float;
  replace (String.eqb _ "nan") with false by (vm_compute; reflexivity);
  match goal with
  | |- context [Ideal.parse_decimal ?s] =>
      replace (Ideal.parse_decimal s) with (Some (Ideal.mk_decimal false m e))
        by (vm_compute; reflexivity)
  end;
  cbn [option_map]; unfold Ideal.decimal_value;
  cbn [Ideal.negative Ideal.mantissa Ideal.exponent Z.leb Z.compare];
  do 2 f_equal; try lra.

Lemma py_float_1e18 : Ideal.py_float "1e18" = Some (Ideal.Real 1e18).
Proof. eval_literal 1%Z 18%Z. Qed.

Lemma py_float_2e18 : Ideal.py_float "2e18" = Some (Ideal.Real 2e18).
Proof. eval_literal 2%Z 18%Z. Qed.

Lemma py_float_3e18 : Ideal.py_float "3e18" = Some (Ideal.Real 3e18).
Proof. eval_literal 3%Z 18%Z. Qed.

Lemma py_float_1e20 : Ideal.py_float "1e20" = Some (Ideal.Real 1e20).
Proof. eval_literal 1%Z 20%Z. Qed.

Lemma py_float_5 : Ideal.py_float "5" = Some (Ideal.Real 5).
Proof. eval_literal 5%Z 0%Z. Qed.

(** X4.  The deformation-potential grammar: a string with ["h5"] in it is
    returned as it is; otherwise one numeric token gives a number, two give
    the pair, and any other count raises the format error. *)
Theorem parse_deformation_potential_grammar :
  forall (F : Type) (py_float : string -> option F) (s : string),
    (contains "h5" s = true ->
     parse_deformation_potential F py_float s = Ok (DefFile s))
    /\ (contains "h5" s = false ->
        (forall a x, split ","%char (clean s) = [a] -> py_float a = Some x ->
           parse_deformation_potential F py_float s = Ok (DefScalar x))
        /\ (forall a b x y, split ","%char (clean s) = [a; b] ->
              py_float a = Some x -> py_float b = Some y ->
              parse_deformation_potential F py_float s = Ok (DefPair x y))
        /\ (List.length (split ","%char (clean s)) <> 1 ->
            List.length (split ","%char (clean s)) <> 2 ->
            parse_deformation_potential F py_float s
            = Raise (ValueError (deformation_message (clean s))))).
Proof.
  intros F py_float s. split.
  - intros H. unfold parse_deformation_potential. rewrite H. reflexivity.
  - intros H. split; [|split].
    + intros a x Es Ea. unfold parse_deformation_potential. rewrite H. cbv zeta.
      rewrite Es. cbn [map_float]. unfold float. rewrite Ea. reflexivity.
    + intros a b x y Es Ea Eb. unfold parse_deformation_potential. rewrite H. cbv zeta.
      rewrite Es. cbn [map_float]. unfold float. rewrite Ea, Eb. reflexivity.
    + apply parse_deformation_potential_wrong_count. exact H.
Qed.

(** ** The elastic tensor *)

Lemma shape_eqb_eq s1 s2 : shape_eqb s1 s2 = true <-> s1 = s2.
Proof.
  unfold shape_eqb. destruct (list_eq_dec Nat.eq_dec s1 s2); split; congruence.
Qed.

Lemma shape_eqb_refl s : shape_eqb s s = true.
Proof. apply shape_eqb_eq. reflexivity. Qed.

Lemma shape_eqb_neq s1 s2 : s1 <> s2 -> shape_eqb s1 s2 = false.
Proof.
  intros H. destruct (shape_eqb s1 s2) eqn:E; [|reflexivity].
  apply shape_eqb_eq in E. contradiction.
Qed.

(** X6.  [cast_elastic_tensor]: a rank-4 (3,3,3,3) input is returned unchanged; a
    6 x 6 input goes through [Tensor.from_voigt]; a number [x] is first
    made the 6 x 6 matrix [x * I6] with its three shear entries halved; any
    other shape raises the elastic tensor shape error. *)
Theorem cast_elastic_tensor_shapes :
  forall (F : Type) (zero one : F) (mul : F -> F -> F) (div2 : F -> F)
         (from_voigt : ndarray F -> ndarray F),
    let cast := cast_elastic_tensor F zero one mul div2 from_voigt in
    (forall a, shape a = [3; 3; 3; 3] -> cast (SArray a) = Ok (SArray a))
    /\ (forall a, shape a = [6; 6] ->
          cast (SArray a)
          = if shape_eqb (shape (from_voigt a)) [3; 3; 3; 3]
            then Ok (SArray (from_voigt a))
            else Raise (ValueError elastic_message))
    /\ (forall x,
          cast (SNum x) = cast (SArray (voigt_of_number F zero one mul div2 x))
          /\ shape (voigt_of_number F zero one mul div2 x) = [6; 6]
          /\ forall i j, (i < 6)%nat -> (j < 6)%nat ->
               nth (i * 6 + j) (data (voigt_of_number F zero one mul div2 x)) zero
               = if Nat.eqb i j
                 then (if Nat.leb 3 i then div2 (mul one x) else mul one x)
                 else mul zero x)
    /\ (forall a, shape a <> [6; 6] -> shape a <> [3; 3; 3; 3] ->
          cast (SArray a) = Raise (ValueError elastic_message)).
Proof.
  intros F zero one mul div2 from_voigt cast. unfold cast, cast_elastic_tensor.
  split; [|split; [|split]].
  - intros a H. cbn [np_asarray].
    rewrite (shape_eqb_neq (shape a) [6; 6]) by (rewrite H; discriminate).
    cbn [shape_of]. rewrite H. reflexivity.
  - intros a H. cbn [np_asarray].
    rewrite (proj2 (shape_eqb_eq (shape a) [6; 6]) H).
    cbn [shape_of]. destruct (shape_eqb (shape (from_voigt a)) [3; 3; 3; 3]); reflexivity.
  - intros x. split; [reflexivity | split; [reflexivity|]].
    intros i j Hi Hj. unfold voigt_of_number. cbn [data].
    rewrite nth_matrix_items by assumption.
    destruct (Nat.eqb i j); [|reflexivity]. cbn [andb]. reflexivity.
  - intros a H6 H3. cbn [np_asarray].
    rewrite (shape_eqb_neq _ _ H6). cbn [shape_of]. rewrite (shape_eqb_neq _ _ H3). reflexivity.
Qed.

(** ** Spaces in the strings of the grammars *)

Lemma remove_space_cons c s :
  replace " " "" (String c s)
  = if Ascii.eqb c " " then replace " " "" s else String c (replace " " "" s).
Proof.
  unfold replace. cbn [replace_from prefix].
  destruct (ascii_dec " " c) as [<-|n].
  - rewrite prefix_empty. reflexivity.
  - destruct (Ascii.eqb_spec c " "%char) as [->|_]; [contradiction | reflexivity].
Qed.

Lemma remove_space_app s t :
  replace " " "" (s ++ t) = (replace " " "" s ++ replace " " "" t)%string.
Proof.
  induction s as [|c s IH]; [reflexivity|].
  change (String c s ++ t)%string with (String c (s ++ t)).
  rewrite !remove_space_cons, IH. destruct (Ascii.eqb c " "); reflexivity.
Qed.

Lemma remove_space_idem s : replace " " "" (replace " " "" s) = replace " " "" s.
Proof.
  induction s as [|c s IH]; [reflexivity|].
  rewrite remove_space_cons. destruct (Ascii.eqb c " ") eqn:E; [exact IH|].
  rewrite remove_space_cons, E, IH. reflexivity.
Qed.

Lemma is_space_of_space c : Ascii.eqb c " " = true -> is_space c = true.
Proof. intros H. apply Ascii.eqb_eq in H. subst c. reflexivity. Qed.

Lemma lstrip_remove_space s :
  lstrip (replace " " "" s) = replace " " "" (lstrip s).
Proof.
  induction s as [|c s IH]; [reflexivity|].
  rewrite remove_space_cons. cbn [lstrip].
  destruct (Ascii.eqb c " ") eqn:E.
  - rewrite (is_space_of_space c E). exact IH.
  - cbn [lstrip]. destruct (is_space c); [exact IH|].
    rewrite remove_space_cons, E. reflexivity.
Qed.

Lemma rstrip_nonempty_remove_space s :
  rstrip s <> "" -> replace " " "" (rstrip s) <> "".
Proof.
  induction s as [|c s IH]; [intros H; exact H|].
  cbn [rstrip]. destruct (rstrip s) as [|c' r] eqn:E.
  - destruct (is_space c) eqn:Ec; [congruence|]. intros _.
    rewrite remove_space_cons.
    destruct (Ascii.eqb c " ") eqn:E'; [|discriminate].
    rewrite (is_space_of_space c E') in Ec. discriminate.
  - intros _. rewrite remove_space_cons.
    destruct (Ascii.eqb c " "); [apply IH; discriminate | discriminate].
Qed.

Lemma rstrip_remove_space s :
  rstrip (replace " " "" s) = replace " " "" (rstrip s).
Proof.
  induction s as [|c s IH]; [reflexivity|].
  rewrite remove_space_cons. cbn [rstrip].
  destruct (Ascii.eqb c " ") eqn:E.
  - rewrite IH. destruct (rstrip s) as [|c' r] eqn:Er.
    + rewrite (is_space_of_space c E). reflexivity.
    + rewrite (remove_space_cons c), E. reflexivity.
  - cbn [rstrip]. rewrite IH.
    destruct (rstrip s) as [|c' r] eqn:Er.
    + cbn [replace replace_from]. destruct (is_space c); [reflexivity|].
      rewrite remove_space_cons, E. reflexivity.
    + pose proof (rstrip_nonempty_remove_space s) as Hne. rewrite Er in Hne.
      destruct (replace " " "" (String c' r)) as [|c'' r'] eqn:Er';
        [exfalso; apply Hne; [discriminate | reflexivity]|].
      rewrite (remove_space_cons c), E, Er'. reflexivity.
Qed.

(** Removing the spaces first and stripping afterwards comes to the same. *)
Lemma clean_alt s : clean s = strip (replace " " "" s).
Proof.
  unfold clean, strip. rewrite lstrip_remove_space, rstrip_remove_space. reflexivity.
Qed.

Lemma lstrip_idem s : lstrip (lstrip s) = lstrip s.
Proof.
  induction s as [|c s IH]; [reflexivity|].
  cbn [lstrip]. destruct (is_space c) eqn:E; [exact IH|].
  cbn [lstrip]. rewrite E. reflexivity.
Qed.

Lemma rstrip_idem s : rstrip (rstrip s) = rstrip s.
Proof.
  induction s as [|c s IH]; [reflexivity|].
  cbn [rstrip]. destruct (rstrip s) as [|c' r] eqn:E.
  - destruct (is_space c) eqn:Ec; [reflexivity|]. cbn [rstrip]. rewrite Ec. reflexivity.
  - cbn [rstrip]. cbn [rstrip] in IH. rewrite IH. reflexivity.
Qed.

Lemma lstrip_rstrip s : lstrip (rstrip s) = rstrip (lstrip s).
Proof.
  induction s as [|c s IH]; [reflexivity|].
  cbn [rstrip lstrip]. destruct (is_space c) eqn:Ec.
  - destruct (rstrip s) as [|c' r] eqn:E.
    + rewrite <- IH. reflexivity.
    + cbn [lstrip]. rewrite Ec, <- IH. reflexivity.
  - cbn [rstrip]. destruct (rstrip s) as [|c' r]; cbn [lstrip]; rewrite Ec; reflexivity.
Qed.

Lemma strip_idem s : strip (strip s) = strip s.
Proof.
  unfold strip. rewrite lstrip_rstrip, lstrip_idem, rstrip_idem. reflexivity.
Qed.

Lemma clean_idem s : clean (clean s) = clean s.
Proof.
  rewrite (clean_alt (clean s)). unfold clean at 1.
  rewrite remove_space_idem. fold (clean s).
  rewrite clean_alt, strip_idem. reflexivity.
Qed.

Lemma clean_space s1 s2 : clean (s1 ++ " " ++ s2) = clean (s1 ++ s2).
Proof.
  rewrite !clean_alt, !remove_space_app.
  change (" " ++ s2)%string with (String " " s2).
  rewrite remove_space_cons. reflexivity.
Qed.

(** X8.  Spaces are not significant in a doping or temperature string: one more
    space anywhere changes nothing, and neither does cleaning the string
    beforehand. *)
Theorem parsers_ignore_spaces :
  forall (F : Type) (py_float : string -> option F) (py_int : F -> result Z)
         (linspace geomspace : F -> F -> Z -> result (list F)) (s1 s2 : string),
    clean (s1 ++ " " ++ s2) = clean (s1 ++ s2)
    /\ clean (clean s1) = clean s1
    /\ parse_doping F py_float py_int geomspace (s1 ++ " " ++ s2)
       = parse_doping F py_float py_int geomspace (s1 ++ s2)
    /\ parse_temperatures F py_float py_int linspace (s1 ++ " " ++ s2)
       = parse_temperatures F py_float py_int linspace (s1 ++ s2)
    /\ parse_doping F py_float py_int geomspace (clean s1)
       = parse_doping F py_float py_int geomspace s1
    /\ parse_temperatures F py_float py_int linspace (clean s1)
       = parse_temperatures F py_float py_int linspace s1.
Proof.
  intros F py_float py_int linspace geomspace s1 s2.
  split; [apply clean_space|]. split; [apply clean_idem|].
  unfold parse_doping, parse_temperatures. cbv zeta.
  rewrite clean_space, clean_idem. repeat split; reflexivity.
Qed.

(** X2.  A string without a colon is a comma list: [parse_doping] returns
    numbers exactly when [float] reads every token, and they are the
    numbers read, token by token. *)
Theorem parse_doping_comma_list :
  forall (F : Type) (py_float : string -> option F) (py_int : F -> result Z)
         (geomspace : F -> F -> Z -> result (list F)) (s : string) (xs : list F),
    contains ":" (clean s) = false ->
    (parse_doping F py_float py_int geomspace s = Ok xs
     <-> map py_float (split ","%char (clean s)) = map Some xs)
    /\ (parse_doping F py_float py_int geomspace s = Ok xs ->
        List.length xs = List.length (split ","%char (clean s))).
Proof.
  intros F py_float py_int geomspace s xs H. split.
  - apply parse_doping_list. exact H.
  - intros E. apply (parse_doping_list F py_float py_int geomspace s xs H) in E.
    apply (f_equal (@List.length _)) in E. rewrite !length_map in E. congruence.
Qed.

(** X9.  Which errors of a range are reported as format errors: a ValueError
    of [int] or of numpy is (a NaN count, a zero endpoint, a negative
    count); any other error leaves as it is (the OverflowError of an
    infinite count). *)
Theorem range_errors_reported :
  forall (F : Type) (py_float : string -> option F) (py_int : F -> result Z)
         (linspace geomspace : F -> F -> Z -> result (list F))
         (s : string) (lo hi x : F),
    contains ":" (clean s) = true ->
    map py_float (split ":"%char (clean s)) = [Some lo; Some hi; Some x] ->
    (forall m, py_int x = Raise (ValueError m) ->
       parse_doping F py_float py_int geomspace s
       = Raise (ValueError (doping_message (clean s)))
       /\ parse_temperatures F py_float py_int linspace s
          = Raise (ValueError (temperature_message (clean s))))
    /\ (forall e, py_int x = Raise e -> (forall m, e <> ValueError m) ->
          parse_doping F py_float py_int geomspace s = Raise e
          /\ parse_temperatures F py_float py_int linspace s = Raise e)
    /\ (forall num m, py_int x = Ok num ->
          (geomspace lo hi num = Raise (ValueError m) ->
           parse_doping F py_float py_int geomspace s
           = Raise (ValueError (doping_message (clean s))))
          /\ (linspace lo hi num = Raise (ValueError m) ->
              parse_temperatures F py_float py_int linspace s
              = Raise (ValueError (temperature_message (clean s)))))
    /\ (forall num e, py_int x = Ok num -> (forall m, e <> ValueError m) ->
          (geomspace lo hi num = Raise e ->
           parse_doping F py_float py_int geomspace s = Raise e)
          /\ (linspace lo hi num = Raise e ->
              parse_temperatures F py_float py_int linspace s = Raise e)).
Proof.
  intros F py_float py_int linspace geomspace s lo hi x Hc Hm.
  assert (Hd : forall r : result Z,
             py_int x = r ->
             parse_doping F py_float py_int geomspace s
             = except_ValueError (bind r (fun num => geomspace lo hi num))
                 (Raise (ValueError (doping_message (clean s))))).
  { intros r <-. unfold parse_doping. cbv zeta. rewrite Hc.
    destruct (split ":"%char (clean s)) as [|a [|b [|n [|? ?]]]]; try discriminate Hm.
    injection Hm as Ha Hb Hx. cbn [map_float]. unfold float. rewrite Ha, Hb, Hx.
    reflexivity. }
  assert (Ht : forall r : result Z,
             py_int x = r ->
             parse_temperatures F py_float py_int linspace s
             = except_ValueError (bind r (fun num => linspace lo hi num))
                 (Raise (ValueError (temperature_message (clean s))))).
  { intros r <-. unfold parse_temperatures. cbv zeta. rewrite Hc.
    destruct (split ":"%char (clean s)) as [|a [|b [|n [|? ?]]]]; try discriminate Hm.
    injection Hm as Ha Hb Hx. cbn [map_float]. unfold float. rewrite Ha, Hb, Hx.
    reflexivity. }
  split; [|split; [|split]].
  - intros m E. rewrite (Hd _ E), (Ht _ E). split; reflexivity.
  - intros e E Hne. rewrite (Hd _ E), (Ht _ E).
    destruct e as [m| |]; [destruct (Hne m eq_refl) | |]; split; reflexivity.
  - intros num m E. rewrite (Hd _ E), (Ht _ E). cbn [bind].
    split; intros ->; reflexivity.
  - intros num e E Hne. rewrite (Hd _ E), (Ht _ E). cbn [bind].
    destruct e as [m| |]; [destruct (Hne m eq_refl) | |]; split; intros ->; reflexivity.
Qed.

(** ** The two casts between arrays and lists *)

Lemma jvalue_nested_ind (L A O : Type) (P : jvalue L A O -> Prop) :
  (forall l, P (JList l)) -> (forall a, P (JArray a)) -> (forall o, P (JOther o)) ->
  (forall d, Forall (fun kv => P (snd kv)) d -> P (JMap d)) ->
  forall v, P v.
Proof.
  intros Hl Ha Ho Hm. fix IH 1. intros [l|a|d|o]; [apply Hl | apply Ha | | apply Ho].
  apply Hm. induction d as [|[k v] d IHd]; constructor; [apply IH | exact IHd].
Qed.

Section FoldSetitem.
Variables V W : Type.
Variable fk : key -> key.
Variable fv : V -> W.

#[local] Abbreviation cast_step := (cast_step V W fk fv).
#[local] Abbreviation cast_pair := (cast_pair V W fk fv).

Lemma setitem_fresh (d : list (key * W)) k v :
  ~ In k (keys d) -> setitem key_eqb d k v = d ++ [(k, v)].
Proof.
  induction d as [|[k0 v0] d IH]; simpl; intros H; [reflexivity|].
  destruct (key_eqb k k0) eqn:E.
  - apply key_eqb_eq in E. exfalso. apply H. auto.
  - rewrite IH by (intros Hin; apply H; auto). reflexivity.
Qed.

Lemma In_setitem (d : list (key * W)) k v e :
  In e (setitem key_eqb d k v) -> In e d \/ e = (k, v).
Proof.
  induction d as [|[k0 v0] d IH]; simpl.
  - intros [<-|[]]. auto.
  - destruct (key_eqb k k0) eqn:E; simpl.
    + apply key_eqb_eq in E. subst k0. intros [<-|H]; auto.
    + intros [<-|H]; [auto|]. destruct (IH H); auto.
Qed.

Lemma keys_setitem (d : list (key * W)) k v :
  keys (setitem key_eqb d k v) = if has_key key_eqb d k then keys d else keys d ++ [k].
Proof.
  unfold has_key. induction d as [|[k0 v0] d IH]; simpl; [reflexivity|].
  destruct (key_eqb k k0); simpl; [reflexivity|].
  rewrite IH. destruct (getitem key_eqb d k); reflexivity.
Qed.

Lemma has_key_In (d : list (key * W)) k : has_key key_eqb d k = true <-> In k (keys d).
Proof.
  unfold has_key. induction d as [|[k0 v0] d IH]; simpl.
  - split; [discriminate | tauto].
  - destruct (key_eqb k k0) eqn:E.
    + apply key_eqb_eq in E. split; auto.
    + rewrite IH. split; [auto|]. intros [H|H]; [|exact H].
      subst k0. assert (key_eqb k k = true) by (apply key_eqb_eq; reflexivity). congruence.
Qed.

Lemma setitem_NoDup (d : list (key * W)) k v :
  NoDup (keys d) -> NoDup (keys (setitem key_eqb d k v)).
Proof.
  intros H. rewrite keys_setitem. destruct (has_key key_eqb d k) eqn:E; [exact H|].
  apply NoDup_app; [exact H | constructor; [tauto | constructor] |].
  intros x Hx [<-|[]]. apply has_key_In in Hx. congruence.
Qed.

Lemma fold_cast_NoDup d acc :
  NoDup (keys acc) -> NoDup (keys (fold_left cast_step d acc)).
Proof.
  revert acc. induction d as [|kv d IH]; intros acc H; simpl; [exact H|].
  apply IH. apply setitem_NoDup. exact H.
Qed.

Lemma In_fold_cast d acc e :
  In e (fold_left cast_step d acc) -> In e acc \/ exists kv, In kv d /\ e = cast_pair kv.
Proof.
  revert acc. induction d as [|kv d IH]; intros acc; simpl; [auto|].
  intros H. apply IH in H. destruct H as [H|(kv' & H1 & H2)].
  - apply In_setitem in H. destruct H as [H|H]; [auto|].
    right. exists kv. auto.
  - right. exists kv'. auto.
Qed.

Lemma fold_cast_fresh d acc :
  NoDup (keys acc ++ map fk (keys d)) ->
  fold_left cast_step d acc = acc ++ map cast_pair d.
Proof.
  revert acc. induction d as [|kv d IH]; intros acc H; simpl.
  - rewrite app_nil_r. reflexivity.
  - simpl in H. unfold cast_step at 2.
    rewrite setitem_fresh.
    + rewrite IH.
      * rewrite <- app_assoc. reflexivity.
      * unfold keys in *. rewrite map_app, <- app_assoc. exact H.
    + intros Hin. apply NoDup_remove_2 in H. apply H. apply in_or_app. auto.
Qed.
End FoldSetitem.

Lemma fold_cast_id (V : Type) (fk : key -> key) (fv : V -> V) (r : list (key * V)) :
  NoDup (keys r) ->
  (forall e, In e r -> fk (fst e) = fst e /\ fv (snd e) = snd e) ->
  fold_left (cast_step V V fk fv) r [] = r.
Proof.
  intros Hn He. rewrite fold_cast_fresh.
  - simpl. rewrite <- (map_id r) at 2. apply map_ext_in.
    intros [k v] Hin. destruct (He _ Hin) as [E1 E2]. unfold cast_pair.
    simpl in *. congruence.
  - simpl. replace (map fk (keys r)) with (keys r); [exact Hn|].
    unfold keys. rewrite map_map. apply map_ext_in.
    intros e Hin. symmetry. apply He. exact Hin.
Qed.

Lemma cast_key_idem k : cast_key (cast_key k) = cast_key k.
Proof.
  destruct k as [s|s]; [|reflexivity]. simpl.
  destruct (String.eqb s "up" || String.eqb s "down") eqn:E; [reflexivity|].
  simpl. rewrite E. reflexivity.
Qed.

Lemma name_key_idem k : name_key (name_key k) = name_key k.
Proof. destruct k; reflexivity. Qed.

Section CastIdem.
Variables L A T O : Type.
Variable np_array : L -> A.
Variable tolist : A -> L + O.
Variable list_of_tuple : T -> L.

Lemma cast_jvalue_idem (X : Type) (v : jvalue L A X) :
  cast_jvalue L A X np_array (cast_jvalue L A X np_array v) = cast_jvalue L A X np_array v.
Proof.
  induction v as [l|a|o|d IH] using jvalue_nested_ind; try reflexivity.
  cbn [cast_jvalue]. f_equal.
  change (fun new_d kv => setitem key_eqb new_d (cast_key (fst kv)) (cast_jvalue L A X np_array (snd kv)))
    with (cast_step _ _ cast_key (cast_jvalue L A X np_array)).
  apply fold_cast_id.
  - apply fold_cast_NoDup. constructor.
  - intros e He. apply In_fold_cast in He. destruct He as [[]|(kv & Hkv & ->)].
    unfold cast_pair. cbn [fst snd]. split; [apply cast_key_idem|].
    rewrite Forall_forall in IH. apply IH. exact Hkv.
Qed.

Lemma list_jvalue_idem (v : jvalue L A (obj T O)) :
  list_jvalue L A T O tolist list_of_tuple (list_jvalue L A T O tolist list_of_tuple v)
  = list_jvalue L A T O tolist list_of_tuple v.
Proof.
  induction v as [l|a|o|d IH] using jvalue_nested_ind.
  - reflexivity.
  - cbn [list_jvalue]. destruct (tolist a); reflexivity.
  - destruct o; reflexivity.
  - cbn [list_jvalue]. f_equal.
    change (fun new_d kv => setitem key_eqb new_d (name_key (fst kv))
                              (list_jvalue L A T O tolist list_of_tuple (snd kv)))
      with (cast_step _ _ name_key (list_jvalue L A T O tolist list_of_tuple)).
    apply fold_cast_id.
    + apply fold_cast_NoDup. constructor.
    + intros e He. apply In_fold_cast in He. destruct He as [[]|(kv & Hkv & ->)].
      unfold cast_pair. cbn [fst snd]. split; [apply name_key_idem|].
      rewrite Forall_forall in IH. apply IH. exact Hkv.
Qed.
End CastIdem.

(** X12.  Both casts are idempotent: applied to its own result, each changes
    nothing. *)
Theorem cast_dict_idempotent :
  forall (L A T O : Type) (np_array : L -> A) (tolist : A -> L + O)
         (list_of_tuple : T -> L) (d : option (list (key * jvalue L A (obj T O)))),
    cast_dict_ndarray L A (obj T O) np_array (cast_dict_ndarray L A (obj T O) np_array d)
    = cast_dict_ndarray L A (obj T O) np_array d
    /\ cast_dict_list L A T O tolist list_of_tuple (cast_dict_list L A T O tolist list_of_tuple d)
       = cast_dict_list L A T O tolist list_of_tuple d.
Proof.
  intros L A T O np_array tolist list_of_tuple [d|]; [|split; reflexivity]. split.
  - pose proof (cast_jvalue_idem L A np_array (obj T O) (JMap d)) as H.
    cbn [cast_jvalue] in H. injection H as H.
    unfold cast_dict_ndarray. f_equal. exact H.
  - pose proof (list_jvalue_idem L A T O tolist list_of_tuple (JMap d)) as H.
    cbn [list_jvalue] in H. injection H as H.
    unfold cast_dict_list. f_equal. exact H.
Qed.

Section CastFacts2.
Variables L A T O : Type.
Variable np_array : L -> A.
Variable tolist : A -> L + O.
Variable list_of_tuple : T -> L.

#[local] Abbreviation jv := (jvalue L A (obj T O)).
#[local] Abbreviation to_list := (list_jvalue L A T O tolist list_of_tuple).
#[local] Abbreviation to_array := (cast_jvalue L A (obj T O) np_array).
#[local] Abbreviation plain_data := (@plain_data L A T O).
#[local] Abbreviation key_inside := (@key_inside L A T O).

Lemma list_jvalue_plain (v : jv) : plain_data (to_list v) = true.
Proof.
  induction v as [l|a|o|d IH] using jvalue_nested_ind.
  - reflexivity.
  - cbn [list_jvalue]. destruct (tolist a); reflexivity.
  - destruct o; reflexivity.
  - cbn [list_jvalue util.plain_data].
    change (fun new_d kv => setitem key_eqb new_d (name_key (fst kv)) (to_list (snd kv)))
      with (cast_step jv jv name_key to_list).
    apply forallb_forall. intros e He.
    apply In_fold_cast in He. destruct He as [[]|(kv & Hkv & ->)].
    unfold cast_pair. cbn [fst snd].
    rewrite Forall_forall in IH. rewrite (IH kv Hkv).
    destruct (fst kv); reflexivity.
Qed.

(** No key of a plain value is cast to [Spin.down], and neither spin name
    is left as a key. *)
Lemma cast_jvalue_plain_keys (v : jv) k :
  plain_data v = true ->
  k = KSpin Spin.down \/ k = KStr "up" \/ k = KStr "down" ->
  key_inside k (to_array v) = false.
Proof.
  intros Hp Hk. revert Hp.
  induction v as [l|a|o|d IH] using jvalue_nested_ind; intros Hp; try reflexivity.
  cbn [cast_jvalue util.key_inside].
  change (fun new_d kv => setitem key_eqb new_d (cast_key (fst kv)) (to_array (snd kv)))
    with (cast_step jv jv cast_key to_array).
  destruct (existsb _ _) eqn:E; [|reflexivity]. exfalso.
  apply existsb_exists in E. destruct E as (e & He & E).
  apply In_fold_cast in He. destruct He as [[]|(kv & Hkv & ->)].
  unfold cast_pair in E. cbn [fst snd] in E.
  cbn [util.plain_data] in Hp. rewrite forallb_forall in Hp.
  specialize (Hp kv Hkv). apply andb_prop in Hp. destruct Hp as [Hn Hp].
  rewrite Forall_forall in IH. rewrite (IH kv Hkv Hp), orb_false_r in E.
  apply key_eqb_eq in E.
  destruct Hk as [->|[->| ->]].
  - symmetry in E. apply cast_key_spin_down in E. rewrite E in Hn. discriminate.
  - symmetry in E. revert E. apply cast_key_never_names. auto.
  - symmetry in E. revert E. apply cast_key_never_names. auto.
Qed.

Lemma restorable_round_trip (v : jv) :
  restorable L A T O tolist np_array v -> to_array (to_list v) = v.
Proof.
  induction v as [l|a|o|d IH] using jvalue_nested_ind; intros Hr.
  - inversion Hr.
  - inversion Hr as [a' l' Hl Ha| |]; subst. cbn [list_jvalue]. rewrite Hl. reflexivity.
  - inversion Hr; subst. reflexivity.
  - inversion Hr as [| |d' Hn Hall]; subst.
    cbn [list_jvalue].
    change (fun new_d kv => setitem key_eqb new_d (name_key (fst kv)) (to_list (snd kv)))
      with (cast_step jv jv name_key to_list).
    assert (Hk1 : map name_key (keys d) = keys d).
    { rewrite <- (map_id (keys d)) at 2. unfold keys. rewrite !map_map.
      apply map_ext_in. intros kv Hkv. rewrite Forall_forall in Hall.
      destruct (Hall kv Hkv) as [(s & -> & _) _]. reflexivity. }
    rewrite fold_cast_fresh by (simpl; rewrite Hk1; exact Hn).
    cbn [app cast_jvalue].
    change (fun new_d kv => setitem key_eqb new_d (cast_key (fst kv)) (to_array (snd kv)))
      with (cast_step jv jv cast_key to_array).
    assert (Hk2 : map cast_key (keys (map (cast_pair jv jv name_key to_list) d)) = keys d).
    { rewrite <- (map_id (keys d)). unfold keys. rewrite !map_map.
      apply map_ext_in. intros kv Hkv. rewrite Forall_forall in Hall.
      destruct (Hall kv Hkv) as [(s & E & Hu & Hd) _].
      unfold cast_pair. cbn [fst]. rewrite E. cbn [name_key cast_key].
      apply String.eqb_neq in Hu, Hd. rewrite Hu, Hd. reflexivity. }
    rewrite fold_cast_fresh by (simpl; rewrite Hk2; exact Hn).
    cbn [app]. f_equal. rewrite map_map. rewrite <- (map_id d) at 2.
    apply map_ext_in. intros [k v] Hkv.
    rewrite Forall_forall in Hall, IH.
    destruct (Hall _ Hkv) as [(s & E & Hu & Hd) Hv].
    cbn [fst snd] in E, Hv. subst k.
    unfold cast_pair. cbn [fst snd name_key cast_key].
    apply String.eqb_neq in Hu, Hd. rewrite Hu, Hd. cbn [orb].
    pose proof (IH _ Hkv Hv) as E'. cbn [snd] in E'. rewrite E'. reflexivity.
Qed.
End CastFacts2.

(** X13.  What [cast_dict_list] returns is plain data: the keys of the result
    and of every mapping inside it are strings (a spin has become its
    name), and no value of these mappings is an array or a tuple.  The
    elements of lists are left as they were. *)
Theorem cast_dict_list_plain :
  forall (L A T O : Type) (tolist : A -> L + O) (list_of_tuple : T -> L)
         (d : list (key * jvalue L A (obj T O))),
    exists r,
      cast_dict_list L A T O tolist list_of_tuple (Some d) = Some r
      /\ plain_data L A T O (JMap r) = true
      /\ forall s, ~ In (KSpin s) (keys r).
Proof.
  intros L A T O tolist list_of_tuple d. eexists. split; [reflexivity|].
  pose proof (list_jvalue_plain L A T O tolist list_of_tuple (JMap d)) as H.
  cbn [list_jvalue] in H. split; [exact H|].
  intros s Hin. cbn [plain_data] in H. rewrite forallb_forall in H.
  apply in_map_iff in Hin. destruct Hin as (e & E & He).
  specialize (H e He). rewrite E in H. discriminate.
Qed.

(** X14.  Through [cast_dict_list] and back through [cast_dict_ndarray] the
    spin-down channel is lost: the mapping that comes back has no key
    [Spin.down] at any depth, and a mapping with both spins comes back with
    the one key [Spin.up], holding what was stored under [Spin.down]. *)
Theorem cast_round_trip_loses_spin_down :
  forall (L A T O : Type) (np_array : L -> A) (tolist : A -> L + O)
         (list_of_tuple : T -> L),
    let to_list := cast_dict_list L A T O tolist list_of_tuple in
    let to_array := cast_dict_ndarray L A (obj T O) np_array in
    (forall d, exists r,
        to_array (to_list (Some d)) = Some r
        /\ key_inside L A T O (KSpin Spin.down) (JMap r) = false
        /\ key_inside L A T O (KStr "up") (JMap r) = false
        /\ key_inside L A T O (KStr "down") (JMap r) = false)
    /\ (forall x y,
          to_array (to_list (Some [(KSpin Spin.up, x); (KSpin Spin.down, y)]))
          = Some [(KSpin Spin.up,
                   cast_jvalue L A (obj T O) np_array
                     (list_jvalue L A T O tolist list_of_tuple y))]).
Proof.
  intros L A T O np_array tolist list_of_tuple to_list to_array. split.
  - intros d. eexists. split; [reflexivity|].
    pose proof (list_jvalue_plain L A T O tolist list_of_tuple (JMap d)) as Hp.
    pose proof (fun k => cast_jvalue_plain_keys L A T O np_array
                           (list_jvalue L A T O tolist list_of_tuple (JMap d)) k Hp) as H.
    cbn [list_jvalue cast_jvalue] in H.
    repeat split; apply H; auto.
  - intros x y. reflexivity.
Qed.

(** X15.  Mappings of arrays under ordinary string keys survive the two casts:
    [cast_dict_ndarray (cast_dict_list d)] is [d] again. *)
Theorem cast_round_trip_restorable :
  forall (L A T O : Type) (np_array : L -> A) (tolist : A -> L + O)
         (list_of_tuple : T -> L) (d : list (key * jvalue L A (obj T O))),
    restorable L A T O tolist np_array (JMap d) ->
    cast_dict_ndarray L A (obj T O) np_array
      (cast_dict_list L A T O tolist list_of_tuple (Some d))
    = Some d.
Proof.
  intros L A T O np_array tolist list_of_tuple d Hr.
  pose proof (restorable_round_trip L A T O np_array tolist list_of_tuple (JMap d) Hr) as H.
  cbn [list_jvalue cast_jvalue] in H. injection H as H.
  unfold cast_dict_list, cast_dict_ndarray. f_equal. exact H.
Qed.

(** ** The ranges of the two grammars, in exact arithmetic *)

(** The exact [geomspace] between negative endpoints. *)
Lemma geomspace_real_negative a b num :
  (a < 0)%R -> (b < 0)%R -> (2 <= num)%Z ->
  exists l,
    Ideal.geomspace (Ideal.Real a) (Ideal.Real b) num = Ok l
    /\ List.length l = Z.to_nat num
    /\ forall i, (i < Z.to_nat num)%nat ->
         nth i l Ideal.NaN = Ideal.Real (a * Rpower (b / a) (INR i / IZR (num - 1))).
Proof.
  intros Ha Hb Hn. unfold Ideal.geomspace, Ideal.is_zero, Ideal.is_negative.
  destruct (Req_dec_T a 0) as [E|_]; [lra|].
  destruct (Req_dec_T b 0) as [E|_]; [lra|].
  destruct (Rlt_dec a 0) as [_|E]; [|contradiction].
  destruct (Rlt_dec b 0) as [_|E]; [|contradiction].
  cbn [orb andb]. unfold Ideal.neg, Ideal.sub, Ideal.lift2, Ideal.log10.
  destruct (Rlt_dec 0 (0 - a)) as [_|E]; [|lra].
  destruct (Rlt_dec 0 (0 - b)) as [_|E]; [|lra].
  destruct (linspace_real (ln (0 - a) / ln 10) (ln (0 - b) / ln 10) num Hn)
    as (pts & E & Hlen & Hnth).
  rewrite E. cbn [bind].
  eexists. split; [reflexivity|]. split.
  - rewrite length_map, length_combine, length_arange, Hlen. apply Nat.min_id.
  - intros i Hi.
    assert (Hd : IZR (num - 1) <> 0%R) by (apply not_0_IZR; lia).
    assert (Hq : (0 < b / a)%R).
    { replace (b / a)%R with ((- b) / (- a))%R by (field; lra).
      apply Rdiv_lt_0_compat; lra. }
    rewrite (nth_map_in _ _ _ _ _ _ (0%Z, Ideal.NaN))
      by (rewrite length_combine, length_arange, Hlen, Nat.min_id; exact Hi).
    rewrite combine_nth by (rewrite length_arange, Hlen; reflexivity).
    rewrite nth_arange, Hnth by exact Hi.
    destruct (Z.eqb_spec (Z.of_nat i) 0) as [E0|N0].
    + assert (i = 0)%nat by lia. subst i. simpl INR.
      unfold Rdiv at 2. rewrite Rmult_0_l, Rpower_O by exact Hq.
      f_equal. lra.
    + destruct (Z.ltb_spec 1 num) as [_|H]; [|lia]. cbn [andb].
      destruct (Z.eqb_spec (Z.of_nat i) (num - 1)) as [E1|N1].
      * rewrite INR_IZR_INZ, E1.
        unfold Rdiv at 2. rewrite Rinv_r by exact Hd.
        rewrite Rpower_1 by exact Hq.
        f_equal. field. lra.
      * unfold Ideal.mul, Ideal.lift2, Ideal.pow10. f_equal.
        replace (INR i * ((ln (0 - b) / ln 10 - ln (0 - a) / ln 10) / IZR (num - 1)))%R
          with ((INR i / IZR (num - 1)) * (ln (0 - b) / ln 10 - ln (0 - a) / ln 10))%R
          by (field; split; [apply ln_neq_0; lra | exact Hd]).
        rewrite pow10_geometric by lra.
        replace ((0 - b) / (0 - a))%R with (b / a)%R by (field; lra).
        lra.
Qed.

(** The exact [geomspace] between endpoints of one sign: [num] points, the
    first [start], the last [stop], each the one before times the same
    ratio. *)
Lemma geomspace_same_sign a b num :
  (0 < a * b)%R -> (2 <= num)%Z ->
  exists l,
    Ideal.geomspace (Ideal.Real a) (Ideal.Real b) num = Ok l
    /\ List.length l = Z.to_nat num
    /\ forall i, (i < Z.to_nat num)%nat ->
         nth i l Ideal.NaN = Ideal.Real (a * Rpower (b / a) (INR i / IZR (num - 1))).
Proof.
  intros Hab Hn. destruct (Rtotal_order a 0) as [Ha|[->|Ha]].
  - apply geomspace_real_negative; [exact Ha | | exact Hn].
    destruct (Rle_dec 0 b) as [Hb|Hb]; [|lra].
    pose proof (Rmult_le_compat_neg_l a 0 b (Rlt_le _ _ Ha) Hb) as H.
    rewrite Rmult_0_r in H. lra.
  - rewrite Rmult_0_l in Hab. lra.
  - apply geomspace_real; [exact Ha | | exact Hn].
    destruct (Rle_dec b 0) as [Hb|Hb]; [|lra].
    pose proof (Rmult_le_compat_l a b 0 (Rlt_le _ _ Ha) Hb) as H.
    rewrite Rmult_0_r in H. lra.
Qed.

(** One point: the start alone. *)
Lemma linspace_one a b : Ideal.linspace (Ideal.Real a) (Ideal.Real b) 1 = Ok [Ideal.Real a].
Proof.
  unfold Ideal.linspace, Ideal.arange.
  change (Z.to_nat 1) with 1%nat. cbn. do 3 f_equal. lra.
Qed.

Lemma geomspace_one a b :
  a <> 0%R -> b <> 0%R ->
  Ideal.geomspace (Ideal.Real a) (Ideal.Real b) 1 = Ok [Ideal.Real a].
Proof.
  intros Ha Hb. unfold Ideal.geomspace, Ideal.is_zero.
  destruct (Req_dec_T a 0) as [E|_]; [contradiction|].
  destruct (Req_dec_T b 0) as [E|_]; [contradiction|].
  cbn [orb].
  destruct (Ideal.linspace _ _ 1) as [pts|e] eqn:E.
  - unfold Ideal.linspace, Ideal.arange in E. change (Z.to_nat 1) with 1%nat in E.
    cbn in E. injection E as <-. reflexivity.
  - unfold Ideal.linspace in E. cbn in E. discriminate.
Qed.

Lemma py_float_1 : Ideal.py_float "1" = Some (Ideal.Real 1).
Proof. eval_literal 1%Z 0%Z. Qed.

(** The ends of a sequence given by a closed form. *)
Lemma last_index num : (2 <= num)%Z -> INR (Z.to_nat num - 1) = IZR (num - 1).
Proof.
  intros H. rewrite INR_IZR_INZ. f_equal. lia.
Qed.

(** C5, amended.  For every input string of [parse_doping] that contains a
    colon.  Whatever [float], [int] and [np.geomspace] are: with a number
    of colon-separated parts other than three the call raises the doping
    format error, and a result comes from three numeric parts [lo:hi:n]
    and from them only, as [np.geomspace(lo, hi, int(n))].  In exact
    arithmetic:
    for [lo] and [hi] of one sign and a count of at least two the result
    has [n] points, the first [lo], the last [hi], the [i]-th being
    [lo * (hi / lo) ^ (i / (n - 1))], so that each point is the one before
    times the same ratio; with a count of one the result is [lo] alone. *)
Theorem parse_doping_range_points :
  forall s : string,
    contains ":" s = true ->
    (forall (F : Type) (py_float : string -> option F) (py_int : F -> result Z)
            (geomspace : F -> F -> Z -> result (list F)),
        (List.length (split ":"%char (clean s)) <> 3 ->
         parse_doping F py_float py_int geomspace s
         = Raise (ValueError (doping_message (clean s))))
        /\ (forall arr, parse_doping F py_float py_int geomspace s = Ok arr ->
              exists lo hi num,
                range_parts F py_float py_int (clean s) lo hi num
                /\ geomspace lo hi num = Ok arr)
        /\ (forall lo hi num arr,
              range_parts F py_float py_int (clean s) lo hi num ->
              geomspace lo hi num = Ok arr ->
              parse_doping F py_float py_int geomspace s = Ok arr))
    /\ (forall (lo hi : R) (num : Z),
          range_parts Ideal.num Ideal.py_float Ideal.py_int (clean s)
                      (Ideal.Real lo) (Ideal.Real hi) num ->
          (0 < lo * hi)%R ->
          ((2 <= num)%Z ->
           exists l,
             Ideal.parse_doping s = Ok l
             /\ List.length l = Z.to_nat num
             /\ nth 0 l Ideal.NaN = Ideal.Real lo
             /\ nth (Z.to_nat num - 1) l Ideal.NaN = Ideal.Real hi
             /\ (forall i, (i < Z.to_nat num)%nat ->
                   nth i l Ideal.NaN
                   = Ideal.Real (lo * Rpower (hi / lo) (INR i / IZR (num - 1))))
             /\ (forall i, (S i < Z.to_nat num)%nat ->
                   nth (S i) l Ideal.NaN
                   = Ideal.mul (nth i l Ideal.NaN)
                               (Ideal.Real (Rpower (hi / lo) (1 / IZR (num - 1))))))
          /\ (num = 1%Z -> Ideal.parse_doping s = Ok [Ideal.Real lo])).
Proof.
  intros s H.
  apply (contains_char_clean ":"%char) in H; [|reflexivity].
  split.
  - intros F py_float py_int geomspace. split; [|split].
    + apply parse_doping_wrong_count. exact H.
    + intros arr. apply parse_doping_range_sound. exact H.
    + intros lo hi num arr Hr Hg.
      rewrite (parse_doping_range_complete _ _ _ _ _ _ _ _ H Hr), Hg. reflexivity.
  - intros lo hi num Hr Hs. split.
    + intros Hn.
      destruct (geomspace_same_sign lo hi num Hs Hn) as (l & E & Hlen & Hnth).
      assert (Hq : (0 < hi / lo)%R).
      { destruct (Rtotal_order lo 0) as [Hlo|[->|Hlo]].
        - replace (hi / lo)%R with ((- hi) / (- lo))%R by (field; lra).
          apply Rdiv_lt_0_compat; [|lra].
          destruct (Rle_dec 0 hi) as [Hh|Hh]; [|lra].
          pose proof (Rmult_le_compat_neg_l lo 0 hi (Rlt_le _ _ Hlo) Hh) as Hm.
          rewrite Rmult_0_r in Hm. lra.
        - rewrite Rmult_0_l in Hs. lra.
        - apply Rdiv_lt_0_compat; [|exact Hlo].
          destruct (Rle_dec hi 0) as [Hh|Hh]; [|lra].
          pose proof (Rmult_le_compat_l lo hi 0 (Rlt_le _ _ Hlo) Hh) as Hm.
          rewrite Rmult_0_r in Hm. lra. }
      assert (Hd : IZR (num - 1) <> 0%R) by (apply not_0_IZR; lia).
      exists l. split; [|split; [exact Hlen|split; [|split; [|split; [exact Hnth|]]]]].
      * unfold Ideal.parse_doping.
        rewrite (parse_doping_range_complete _ _ _ _ _ _ _ _ H Hr), E. reflexivity.
      * rewrite Hnth by lia. simpl INR. unfold Rdiv at 2.
        rewrite Rmult_0_l, Rpower_O by exact Hq. f_equal. lra.
      * rewrite Hnth by lia. rewrite last_index by exact Hn.
        unfold Rdiv at 2. rewrite Rinv_r by exact Hd.
        rewrite Rpower_1 by exact Hq. f_equal. field.
        intros ->. rewrite Rmult_0_l in Hs. lra.
      * intros i Hi. rewrite (Hnth (S i)) by exact Hi. rewrite (Hnth i) by lia.
        cbn [Ideal.mul Ideal.lift2]. f_equal.
        rewrite Rmult_assoc, <- Rpower_plus. do 2 f_equal.
        rewrite S_INR. field. exact Hd.
    + intros ->. unfold Ideal.parse_doping.
      rewrite (parse_doping_range_complete _ _ _ _ _ _ _ _ H Hr).
      rewrite geomspace_one; [reflexivity | |]; intros ->;
        [rewrite Rmult_0_l in Hs | rewrite Rmult_0_r in Hs]; lra.
Qed.

Lemma parse_doping_range_points_witness :
  (exists l,
      Ideal.parse_doping "1e18:1e20:5" = Ok l
      /\ List.length l = 5
      /\ nth 0 l Ideal.NaN = Ideal.Real 1e18
      /\ nth 4 l Ideal.NaN = Ideal.Real 1e20
      /\ forall i, (i < 5)%nat ->
           nth i l Ideal.NaN = Ideal.Real (1e18 * Rpower (1e20 / 1e18) (INR i / IZR (5 - 1))))
  /\ Ideal.parse_doping "1:2:3:4"
     = Raise (ValueError "ERROR: Unrecognised doping format: 1:2:3:4").
Proof.
  split.
  - destruct (parse_doping_range_points "1e18:1e20:5" eq_refl) as [_ H].
    destruct (H 1e18%R 1e20%R 5%Z) as [H2 _].
    + exists "1e18", "1e20", "5", (Ideal.Real 5).
      repeat split; auto using py_float_1e18, py_float_1e20, py_float_5.
      simpl. f_equal. apply (trunc_IZR 5).
    + lra.
    + destruct (H2 ltac:(lia)) as (l & E & Hlen & H0 & Hlast & Hnth & _).
      exists l. repeat split; assumption.
  - destruct (parse_doping_range_points "1:2:3:4" eq_refl) as [H _].
    apply (H Ideal.num Ideal.py_float Ideal.py_int Ideal.geomspace).
    vm_compute. discriminate.
Defined.

(** C5: with a count of one the result is the first endpoint alone, and the
    second is not among the points. *)
Lemma parse_doping_one_point :
  Ideal.parse_doping "1:100:1" = Ok [Ideal.Real 1]
  /\ ~ In (Ideal.Real 100) [Ideal.Real 1].
Proof.
  split.
  - unfold Ideal.parse_doping.
    rewrite (parse_doping_range_complete _ _ _ _ _ (Ideal.Real 1) (Ideal.Real 100) 1%Z).
    + rewrite geomspace_one by lra. reflexivity.
    + reflexivity.
    + exists "1", "100", "1", (Ideal.Real 1).
      repeat split; auto using py_float_1, py_float_100.
      simpl. f_equal. apply (trunc_IZR 1).
  - intros [E|[]]. injection E as E. lra.
Qed.

(** C6, amended.  [parse_temperatures], for every input string.  Whatever
    [float], [int] and [np.linspace] are: a string with a colon gives a
    result from three numeric parts [lo:hi:n] and from them only, as
    [np.linspace(lo, hi, int(n))], and raises the temperature format error
    with any other number of parts; a string without a colon is read as a
    comma-separated list of floats; a token that is not a number raises
    the temperature format error, and every ValueError the function raises
    is that error.  In exact arithmetic: for a count of at least two the
    result has [n] points, the first [lo], the last [hi], the [i]-th being
    [lo + i * (hi - lo) / (n - 1)], so that each point is the one before
    plus the same step; with a count of one the result is [lo] alone.
    ["100:300:3"] gives [[100, 200, 300]]. *)
Theorem parse_temperatures_grammar :
  (forall s : string,
      (forall (F : Type) (py_float : string -> option F) (py_int : F -> result Z)
              (linspace : F -> F -> Z -> result (list F)),
          (contains ":" (clean s) = true ->
           (List.length (split ":"%char (clean s)) <> 3 ->
            parse_temperatures F py_float py_int linspace s
            = Raise (ValueError (temperature_message (clean s))))
           /\ (forall arr, parse_temperatures F py_float py_int linspace s = Ok arr ->
                 exists lo hi num,
                   range_parts F py_float py_int (clean s) lo hi num
                   /\ linspace lo hi num = Ok arr)
           /\ (forall lo hi num arr,
                 range_parts F py_float py_int (clean s) lo hi num ->
                 linspace lo hi num = Ok arr ->
                 parse_temperatures F py_float py_int linspace s = Ok arr))
          /\ (contains ":" (clean s) = false ->
              forall xs, parse_temperatures F py_float py_int linspace s = Ok xs <->
                         map py_float (split ","%char (clean s)) = map Some xs)
          /\ (forall p, In p (tokens (clean s)) -> py_float p = None ->
                parse_temperatures F py_float py_int linspace s
                = Raise (ValueError (temperature_message (clean s))))
          /\ (forall m,
                parse_temperatures F py_float py_int linspace s = Raise (ValueError m) ->
                m = temperature_message (clean s)))
      /\ (forall (lo hi : R) (num : Z),
            contains ":" (clean s) = true ->
            range_parts Ideal.num Ideal.py_float Ideal.py_int (clean s)
                        (Ideal.Real lo) (Ideal.Real hi) num ->
            ((2 <= num)%Z ->
             exists l,
               Ideal.parse_temperatures s = Ok l
               /\ List.length l = Z.to_nat num
               /\ nth 0 l Ideal.NaN = Ideal.Real lo
               /\ nth (Z.to_nat num - 1) l Ideal.NaN = Ideal.Real hi
               /\ (forall i, (i < Z.to_nat num)%nat ->
                     nth i l Ideal.NaN
                     = Ideal.Real (lo + INR i * ((hi - lo) / IZR (num - 1))))
               /\ (forall i, (S i < Z.to_nat num)%nat ->
                     nth (S i) l Ideal.NaN
                     = Ideal.add (nth i l Ideal.NaN)
                                 (Ideal.Real ((hi - lo) / IZR (num - 1)))))
            /\ (num = 1%Z -> Ideal.parse_temperatures s = Ok [Ideal.Real lo])))
  /\ Ideal.parse_temperatures "100:300:3"
     = Ok [Ideal.Real 100; Ideal.Real 200; Ideal.Real 300].
Proof.
  split.
  - intros s. split.
    + intros F py_float py_int linspace. split; [|split; [|split]].
      * intros H. split; [|split].
        -- apply parse_temperatures_wrong_count. exact H.
        -- intros arr. apply parse_temperatures_range_sound. exact H.
        -- intros lo hi num arr Hr Hl.
           rewrite (parse_temperatures_range_complete _ _ _ _ _ _ _ _ H Hr), Hl.
           reflexivity.
      * intros H xs. apply parse_temperatures_list. exact H.
      * apply parse_temperatures_bad_token.
      * apply parse_temperatures_message.
    + intros lo hi num H Hr. split.
      * intros Hn.
        destruct (linspace_real lo hi num Hn) as (l & E & Hlen & Hnth).
        assert (Hd : IZR (num - 1) <> 0%R) by (apply not_0_IZR; lia).
        exists l. split; [|split; [exact Hlen|split; [|split; [|split; [exact Hnth|]]]]].
        -- unfold Ideal.parse_temperatures.
           rewrite (parse_temperatures_range_complete _ _ _ _ _ _ _ _ H Hr), E. reflexivity.
        -- rewrite Hnth by lia. simpl INR. f_equal. lra.
        -- rewrite Hnth by lia. rewrite last_index by exact Hn. f_equal. field. exact Hd.
        -- intros i Hi. rewrite (Hnth (S i)) by exact Hi. rewrite (Hnth i) by lia.
           cbn [Ideal.add Ideal.lift2]. f_equal. rewrite S_INR. lra.
      * intros ->. unfold Ideal.parse_temperatures.
        rewrite (parse_temperatures_range_complete _ _ _ _ _ _ _ _ H Hr), linspace_one.
        reflexivity.
  - unfold Ideal.parse_temperatures.
    rewrite (parse_temperatures_range_complete _ _ _ _ _ (Ideal.Real 100) (Ideal.Real 300) 3%Z).
    + rewrite linspace_100_300_3. reflexivity.
    + reflexivity.
    + exists "100", "300", "3", (Ideal.Real 3).
      repeat split; auto using py_float_100, py_float_300, py_float_3.
      simpl. f_equal. apply (trunc_IZR 3).
Qed.

Lemma parse_temperatures_grammar_witness :
  (exists l,
      Ideal.parse_temperatures "100:300:3" = Ok l
      /\ List.length l = 3
      /\ nth 0 l Ideal.NaN = Ideal.Real 100
      /\ nth 2 l Ideal.NaN = Ideal.Real 300
      /\ forall i, (S i < 3)%nat ->
           nth (S i) l Ideal.NaN
           = Ideal.add (nth i l Ideal.NaN) (Ideal.Real ((300 - 100) / IZR (3 - 1))))
  /\ Ideal.parse_temperatures "1:2:3:4"
     = Raise (ValueError "ERROR: Unrecognised temperature format: 1:2:3:4").
Proof.
  destruct parse_temperatures_grammar as [H _]. split.
  - destruct (H "100:300:3") as [_ Hr].
    destruct (Hr 100%R 300%R 3%Z eq_refl) as [H2 _].
    + exists "100", "300", "3", (Ideal.Real 3).
      repeat split; auto using py_float_100, py_float_300, py_float_3.
      simpl. f_equal. apply (trunc_IZR 3).
    + destruct (H2 ltac:(lia)) as (l & E & Hlen & H0 & Hlast & _ & Hstep).
      exists l. repeat split; assumption.
  - destruct (H "1:2:3:4") as [Hg _].
    destruct (Hg Ideal.num Ideal.py_float Ideal.py_int Ideal.linspace) as [Hc _].
    apply (Hc eq_refl). vm_compute. discriminate.
Defined.

(** C6: with a count of one the result is the first endpoint alone, and the
    second is not among the points. *)
Lemma parse_temperatures_one_point :
  Ideal.parse_temperatures "100:300:1" = Ok [Ideal.Real 100]
  /\ ~ In (Ideal.Real 300) [Ideal.Real 100].
Proof.
  split.
  - unfold Ideal.parse_temperatures.
    rewrite (parse_temperatures_range_complete _ _ _ _ _ (Ideal.Real 100) (Ideal.Real 300) 1%Z).
    + rewrite linspace_one. reflexivity.
    + reflexivity.
    + exists "100", "300", "1", (Ideal.Real 1).
      repeat split; auto using py_float_1, py_float_100, py_float_300.
      simpl. f_equal. apply (trunc_IZR 1).
  - intros [E|[]]. injection E as E. lra.
Qed.

(** ** Ranges: the closed forms and the examples *)

(** X1.  A doping range between positive endpoints with at least two points,
    at the exact instance: [num] points, geometrically spaced, the [i]-th
    being [lo * (hi / lo) ^ (i / (num - 1))]. *)
Theorem parse_doping_geometric :
  forall (s : string) (lo hi : R) (num : Z),
    contains ":" (clean s) = true ->
    range_parts Ideal.num Ideal.py_float Ideal.py_int (clean s)
                (Ideal.Real lo) (Ideal.Real hi) num ->
    (0 < lo)%R -> (0 < hi)%R -> (2 <= num)%Z ->
    exists l,
      Ideal.parse_doping s = Ok l
      /\ List.length l = Z.to_nat num
      /\ forall i, (i < Z.to_nat num)%nat ->
           nth i l Ideal.NaN
           = Ideal.Real (lo * Rpower (hi / lo) (INR i / IZR (num - 1))).
Proof.
  intros s lo hi num Hc Hr Hlo Hhi Hn.
  destruct (geomspace_real lo hi num Hlo Hhi Hn) as (l & E & Hlen & Hnth).
  exists l. split; [|split; assumption].
  unfold Ideal.parse_doping.
  rewrite (parse_doping_range_complete _ _ _ _ _ _ _ _ Hc Hr), E. reflexivity.
Qed.

Lemma parse_doping_geometric_witness :
  exists l,
    Ideal.parse_doping "1e18:1e20:5" = Ok l
    /\ List.length l = 5
    /\ forall i, (i < 5)%nat ->
         nth i l Ideal.NaN = Ideal.Real (1e18 * Rpower (1e20 / 1e18) (INR i / IZR (5 - 1))).
Proof.
  apply (parse_doping_geometric "1e18:1e20:5" 1e18 1e20 5).
  - reflexivity.
  - exists "1e18", "1e20", "5", (Ideal.Real 5).
    repeat split; auto using py_float_1e18, py_float_1e20, py_float_5.
    simpl. f_equal. apply (trunc_IZR 5).
  - lra.
  - lra.
  - lia.
Defined.

(** X7.  A temperature range with at least two points, at the exact instance:
    [num] points, evenly spaced, the [i]-th being
    [lo + i * (hi - lo) / (num - 1)]. *)
Theorem parse_temperatures_linear :
  forall (s : string) (lo hi : R) (num : Z),
    contains ":" (clean s) = true ->
    range_parts Ideal.num Ideal.py_float Ideal.py_int (clean s)
                (Ideal.Real lo) (Ideal.Real hi) num ->
    (2 <= num)%Z ->
    exists l,
      Ideal.parse_temperatures s = Ok l
      /\ List.length l = Z.to_nat num
      /\ forall i, (i < Z.to_nat num)%nat ->
           nth i l Ideal.NaN
           = Ideal.Real (lo + INR i * ((hi - lo) / IZR (num - 1))).
Proof.
  intros s lo hi num Hc Hr Hn.
  destruct (linspace_real lo hi num Hn) as (l & E & Hlen & Hnth).
  exists l. split; [|split; assumption].
  unfold Ideal.parse_temperatures.
  rewrite (parse_temperatures_range_complete _ _ _ _ _ _ _ _ Hc Hr), E. reflexivity.
Qed.

Lemma parse_temperatures_linear_witness :
  exists l,
    Ideal.parse_temperatures "100:300:3" = Ok l
    /\ List.length l = 3
    /\ forall i, (i < 3)%nat ->
         nth i l Ideal.NaN = Ideal.Real (100 + INR i * ((300 - 100) / IZR (3 - 1))).
Proof.
  apply (parse_temperatures_linear "100:300:3" 100 300 3).
  - reflexivity.
  - exists "100", "300", "3", (Ideal.Real 3).
    repeat split; auto using py_float_100, py_float_300, py_float_3.
    simpl. f_equal. apply (trunc_IZR 3).
  - lia.
Defined.

Lemma parse_doping_comma_list_witness :
  Ideal.parse_doping "1e18,2e18,3e18"
  = Ok [Ideal.Real 1e18; Ideal.Real 2e18; Ideal.Real 3e18].
Proof.
  apply (proj1 (parse_doping_comma_list Ideal.num Ideal.py_float Ideal.py_int Ideal.geomspace
                  "1e18,2e18,3e18" [Ideal.Real 1e18; Ideal.Real 2e18; Ideal.Real 3e18]
                  eq_refl)).
  replace (split ","%char (clean "1e18,2e18,3e18")) with ["1e18"; "2e18"; "3e18"]
    by (vm_compute; reflexivity).
  cbn [map]. rewrite py_float_1e18, py_float_2e18, py_float_3e18. reflexivity.
Defined.

Lemma range_errors_reported_witness :
  Ideal.parse_doping "1:2:nan"
  = Raise (ValueError "ERROR: Unrecognised doping format: 1:2:nan")
  /\ Ideal.parse_temperatures "1:2:nan"
     = Raise (ValueError "ERROR: Unrecognised temperature format: 1:2:nan").
Proof.
  eapply (proj1 (range_errors_reported Ideal.num Ideal.py_float Ideal.py_int
                   Ideal.linspace Ideal.geomspace "1:2:nan" _ _ Ideal.NaN eq_refl eq_refl)).
  reflexivity.
Defined.

(** ** The label of a progress bar *)

(** X19.  [get_progress_bar]: the description handed to tqdm is the given one,
    behind the pipe prefix if asked for, followed by a colon and padded
    with spaces on the right up to [min_desc_width]; it is never cut.  A
    bar needs an iterable or a total; with neither the call raises. *)
Theorem get_progress_bar_label :
  forall (I : Type) (output_width : Z) (iterable : option I) (total : option Z)
         (desc : text) (min_desc_width : Z) (prepend_pipe : bool),
    let label := ((if prepend_pipe then pipe_prefix else []) ++ desc ++ [58%N]) in
    let padded :=
      label ++ repeat 32%N (Z.to_nat (min_desc_width - Z.of_nat (List.length label))) in
    get_progress_bar I output_width iterable total desc min_desc_width prepend_pipe
    = match iterable, total with
      | None, None => Raise (ValueError progress_message)
      | _, _ => Ok (mk_tqdm iterable total output_width padded _bar_format)
      end
    /\ Z.of_nat (List.length padded) = Z.max min_desc_width (Z.of_nat (List.length label))
    /\ List.length label
       = (if prepend_pipe then 8 else 0) + List.length desc + 1.
Proof.
  intros I output_width iterable total desc min_desc_width prepend_pipe label padded.
  assert (El : (if prepend_pipe then pipe_prefix ++ desc else desc) ++ [58%N] = label).
  { unfold label. destruct prepend_pipe; [rewrite app_assoc|]; reflexivity. }
  split; [|split].
  - unfold get_progress_bar. cbv zeta. rewrite El.
    assert (Ep : (if (Z.of_nat (List.length label) <? min_desc_width)%Z
                  then label ++ repeat 32%N
                                  (Z.to_nat (min_desc_width - Z.of_nat (List.length label)))
                  else label) = padded).
    { unfold padded. destruct (Z.ltb_spec (Z.of_nat (List.length label)) min_desc_width);
        [reflexivity|].
      replace (Z.to_nat (min_desc_width - Z.of_nat (List.length label))) with 0%nat by lia.
      simpl. rewrite app_nil_r. reflexivity. }
    rewrite Ep. destruct iterable, total; reflexivity.
  - unfold padded. rewrite length_app, repeat_length. lia.
  - unfold label. rewrite !length_app. destruct prepend_pipe; simpl; lia.
Qed.

(** ** The band-count check *)

Section NbandsFacts.
Variable F : Type.

Lemma nbands_equal_Ok interp (data : amset_data F) ss bs :
  nbands_equal F interp data ss = Ok bs ->
  Forall2 (fun s b =>
             exists e n rest nb,
               getitem Spin.eqb (energies data) s = Some e /\ shape e = n :: rest
               /\ getitem Spin.eqb (nbands interp) s = Some nb
               /\ b = (Z.of_nat n =? nb)%Z) ss bs.
Proof.
  revert bs. induction ss as [|s ss IH]; intros bs H.
  - simpl in H. injection H as <-. constructor.
  - cbn [nbands_equal] in H.
    apply bind_Ok in H. destruct H as (e & He & H).
    apply bind_Ok in H. destruct H as (n & Hn & H).
    apply bind_Ok in H. destruct H as (nb & Hnb & H).
    apply bind_Ok in H. destruct H as (bs' & Hbs & H). injection H as <-.
    constructor; [|apply IH; exact Hbs].
    unfold spin_item in He, Hnb. unfold shape0 in Hn.
    destruct (getitem Spin.eqb (energies data) s) as [e'|]; [|discriminate].
    injection He as ->.
    destruct (getitem Spin.eqb (nbands interp) s) as [nb'|]; [|discriminate].
    injection Hnb as ->.
    destruct (shape e) as [|n' rest] eqn:Es; [discriminate|]. injection Hn as ->.
    exists e, n, rest, nb. auto.
Qed.

Lemma nbands_equal_Raise interp (data : amset_data F) ss s :
  In s ss ->
  getitem Spin.eqb (energies data) s = None
  \/ getitem Spin.eqb (nbands interp) s = None
  \/ (exists e, getitem Spin.eqb (energies data) s = Some e /\ shape e = []) ->
  is_Ok (nbands_equal F interp data ss) = false.
Proof.
  intros Hin Hbad. induction ss as [|s0 ss IH]; [destruct Hin|].
  cbn [nbands_equal].
  destruct (spin_item (energies data) s0) as [e|] eqn:He; [|reflexivity]. cbn [bind].
  destruct (shape0 F e) as [n|] eqn:Hn; [|reflexivity]. cbn [bind].
  destruct (spin_item (nbands interp) s0) as [nb|] eqn:Hnb; [|reflexivity]. cbn [bind].
  destruct Hin as [->|Hin].
  - exfalso. unfold spin_item in He, Hnb. unfold shape0 in Hn.
    destruct Hbad as [Hb|[Hb|(e' & Hb & Hs)]].
    + rewrite Hb in He. discriminate.
    + rewrite Hb in Hnb. discriminate.
    + rewrite Hb in He. injection He as <-. rewrite Hs in Hn. discriminate.
  - specialize (IH Hin).
    destruct (nbands_equal F interp data ss); [discriminate | reflexivity].
Qed.
End NbandsFacts.

(** X20.  [check_nbands_equal] holds exactly when, for every spin the data
    lists, the energies have as many bands (rows) as the interpolator has
    for that spin; without spins it holds.  Every spin is looked at: one
    that has no energies, no band count, or energies without a first axis
    makes the call raise, whatever the other spins give. *)
Theorem check_nbands_equal_spec :
  forall (F : Type) (interp : interpolator) (data : amset_data F),
    (check_nbands_equal F interp data = Ok true
     <-> forall s, In s (spins data) ->
           exists e n rest,
             getitem Spin.eqb (energies data) s = Some e /\ shape e = n :: rest
             /\ getitem Spin.eqb (nbands interp) s = Some (Z.of_nat n))
    /\ (forall s, In s (spins data) ->
          getitem Spin.eqb (energies data) s = None
          \/ getitem Spin.eqb (nbands interp) s = None
          \/ (exists e, getitem Spin.eqb (energies data) s = Some e /\ shape e = []) ->
          is_Ok (check_nbands_equal F interp data) = false)
    /\ (spins data = [] -> check_nbands_equal F interp data = Ok true).
Proof.
  intros F interp data. split; [|split].
  - unfold check_nbands_equal. split.
    + intros H. apply bind_Ok in H. destruct H as (bs & Hbs & H).
      injection H as H. apply nbands_equal_Ok in Hbs.
      induction Hbs as [|s b ss bs (e & n & rest & nb & He & Hs & Hnb & ->) _ IH];
        intros s' Hin; [destruct Hin|].
      cbn [forallb] in H. apply andb_prop in H. destruct H as [Hb H].
      destruct Hin as [<-|Hin]; [|apply IH; assumption].
      apply Z.eqb_eq in Hb. subst nb. exists e, n, rest. auto.
    + intros H. induction (spins data) as [|s ss IH]; [reflexivity|].
      cbn [nbands_equal].
      destruct (H s (or_introl eq_refl)) as (e & n & rest & He & Hs & Hnb).
      unfold spin_item, shape0. rewrite He. cbn [bind]. rewrite Hs. cbn [bind].
      rewrite Hnb. cbn [bind].
      specialize (IH (fun s' Hin => H s' (or_intror Hin))).
      destruct (nbands_equal F interp data ss) as [bs|]; [|discriminate].
      cbn [bind] in IH |- *. injection IH as IH.
      cbn [forallb]. rewrite Z.eqb_refl, IH. reflexivity.
  - intros s Hin Hbad. unfold check_nbands_equal.
    pose proof (nbands_equal_Raise F interp data (spins data) s Hin Hbad) as H.
    destruct (nbands_equal F interp data (spins data)); [discriminate | reflexivity].
  - intros E. unfold check_nbands_equal. rewrite E. reflexivity.
Qed.

(** ** Witness of the round trip of the two casts *)

Lemma cast_round_trip_restorable_witness :
  cast_dict_ndarray (list Z) (list Z) (obj unit unit) (fun l => l)
    (cast_dict_list (list Z) (list Z) unit unit (fun a => inl a) (fun _ => [])
       (Some [(KStr "kpoints", JArray [1; 2]%Z);
              (KStr "mesh", JMap [(KStr "weights", JArray [3]%Z)]);
              (KStr "soc", JOther (OObj tt))]))
  = Some [(KStr "kpoints", JArray [1; 2]%Z);
          (KStr "mesh", JMap [(KStr "weights", JArray [3]%Z)]);
          (KStr "soc", JOther (OObj tt))].
Proof.
  apply cast_round_trip_restorable.
  assert (Hk : forall s, s <> "up" -> s <> "down" -> ordinary_key (KStr s))
    by (intros s H1 H2; exists s; auto).
  assert (Ha : forall a : list Z,
             restorable (list Z) (list Z) unit unit (fun a => inl a) (fun l => l) (JArray a))
    by (intros a; apply (restorable_array _ _ _ _ _ _ a a); reflexivity).
  apply restorable_map.
  - cbn [keys map fst]. repeat constructor; cbn [In]; intuition discriminate.
  - constructor; [split; [apply Hk; discriminate | apply Ha]|].
    constructor; [split; [apply Hk; discriminate|]|].
    + apply restorable_map.
      * cbn [keys map fst]. repeat constructor. cbn [In]. tauto.
      * constructor; [split; [apply Hk; discriminate | apply Ha] | constructor].
    + constructor; [split; [apply Hk; discriminate | apply restorable_obj] | constructor].
Defined.

(** ** The validation, key by key *)

Lemma sget_sset (V : Type) (m : sdict V) k0 v k :
  sget (sset m k0 v) k = if String.eqb k k0 then Some v else sget m k.
Proof.
  destruct (String.eqb_spec k k0) as [->|n];
    [apply sget_sset_same | apply sget_sset_other; exact n].
Qed.

Lemma sget_unchanged (V : Type) (m : sdict V) k0 v k :
  sget m k0 = Some v -> sget m k = if String.eqb k k0 then Some v else sget m k.
Proof. intros H. destruct (String.eqb_spec k k0) as [->|n]; [exact H | reflexivity]. Qed.

Lemma lookup_Ok (V : Type) (m : sdict V) k v : lookup m k = Ok v -> sget m k = Some v.
Proof. unfold lookup. destruct (sget m k); intros H; [congruence | discriminate]. Qed.

(** [d.update(other)] for a mapping [other]: its entries win. *)
Lemma sget_update (V : Type) (other : sdict V) : forall (d : sdict V) k,
  NoDup (keys other) ->
  sget (update String.eqb d other) k
  = match sget other k with
    | Some v => Some v
    | None => sget d k
    end.
Proof.
  unfold update. induction other as [|[k0 v0] other IH]; intros d k Hn; [reflexivity|].
  inversion Hn as [|? ? Hnot Hn']; subst.
  cbn [fold_left fst snd]. fold (sset d k0 v0). rewrite IH by exact Hn'.
  change (sget ((k0, v0) :: other) k)
    with (if String.eqb k k0 then Some v0 else sget other k).
  destruct (String.eqb_spec k k0) as [->|n].
  - assert (E : sget other k0 = None).
    { destruct (sget other k0) eqn:E; [|reflexivity].
      exfalso. apply Hnot. apply sget_In_keys. congruence. }
    rewrite E. apply sget_sset_same.
  - rewrite sget_sset_other by exact n. reflexivity.
Qed.

(** The concrete names compared by the validation. *)
Ltac eval_names :=
  repeat match goal with
         | |- context [String.eqb ?a ?b] =>
             let r := eval vm_compute in (String.eqb a b) in
             match r with
             | true => change (String.eqb a b) with true
             | false => change (String.eqb a b) with false
             end
         end.

Ltac eval_names_in H :=
  repeat match type of H with
         | context [String.eqb ?a ?b] =>
             let r := eval vm_compute in (String.eqb a b) in
             match r with
             | true => change (String.eqb a b) with true in H
             | false => change (String.eqb a b) with false in H
             end
         end.

Section SettingsValues.
Variable F : Type.
Variable py_float : string -> option F.
Variable py_int : F -> result Z.
Variable linspace geomspace : F -> F -> Z -> result (list F).
Variables zero one nan : F.
Variable mul : F -> F -> F.
Variable div2 : F -> F.
Variable from_voigt : ndarray F -> ndarray F.
Variable defaults : sdict (setting F).

#[local] Abbreviation normalise_settings :=
  (normalise_settings F py_float py_int linspace geomspace zero one nan mul div2 from_voigt defaults).
#[local] Abbreviation validate_settings :=
  (validate_settings F py_float py_int linspace geomspace zero one nan mul div2 from_voigt defaults).
#[local] Abbreviation normalised_value :=
  (normalised_value F py_float py_int linspace geomspace zero one nan mul div2 from_voigt).
#[local] Abbreviation cast_tensor := (cast_tensor F zero one mul).
#[local] Abbreviation cast_elastic_tensor := (cast_elastic_tensor F zero one mul div2 from_voigt).
#[local] Abbreviation np_asarray_float := (np_asarray_float F py_float nan).

Lemma promote_entry_spec parse (m m' : sdict (setting F)) k0 :
  promote_entry F parse m k0 = Ok m' ->
  exists v v', sget m k0 = Some v /\ promote_value F parse v = Ok v'
               /\ forall k, sget m' k = if String.eqb k k0 then Some v' else sget m k.
Proof.
  unfold promote_entry. intros H. apply bind_Ok in H. destruct H as (v & Hv & H).
  apply lookup_Ok in Hv. exists v.
  destruct v as [|x|str|l|l|a|i]; cbn [promote_value];
    try (injection H as <-; eexists; split; [exact Hv|]; split; [reflexivity|];
         intros k; first [apply sget_sset | apply sget_unchanged; exact Hv]).
  apply bind_Ok in H. destruct H as (a & Ha & H). injection H as <-.
  rewrite Ha. cbn [bind]. eexists. split; [exact Hv|]. split; [reflexivity|].
  intros k. apply sget_sset.
Qed.

Lemma cast_entry_spec cast (m m' : sdict (setting F)) k0 :
  cast_entry F cast m k0 = Ok m' ->
  exists v v', sget m k0 = Some v
               /\ match v with SNone => Ok v | _ => cast v end = Ok v'
               /\ forall k, sget m' k = if String.eqb k k0 then Some v' else sget m k.
Proof.
  unfold cast_entry. intros H. apply bind_Ok in H. destruct H as (v & Hv & H).
  apply lookup_Ok in Hv. exists v.
  destruct v as [|x|str|l|l|a|i];
    try (apply bind_Ok in H; destruct H as (t & Ht & H); injection H as <-;
         exists t; split; [exact Hv|]; split; [exact Ht|]; intros k; apply sget_sset).
  injection H as <-. exists SNone. split; [exact Hv|]. split; [reflexivity|].
  intros k. apply sget_unchanged. exact Hv.
Qed.

(** Every statement of the validation reads and writes one key; the value
    left under a key is the normalised value of the one the merged
    settings hold there, and the six typed keys are all read. *)
Lemma normalise_settings_values user s :
  normalise_settings user = Ok s ->
  (forall k v, sget (update String.eqb defaults user) k = Some v ->
     exists v', normalised_value k v = Ok v' /\ sget s k = Some v')
  /\ (forall k, In k typed_keys -> sget (update String.eqb defaults user) k <> None)
  /\ (forall k, ~ In k typed_keys -> sget s k = sget (update String.eqb defaults user) k).
Proof.
  unfold util.normalise_settings. cbv zeta.
  set (m := update String.eqb defaults user).
  intros H.
  apply bind_Ok in H. destruct H as (s1 & H1 & H).
  apply promote_entry_spec in H1. destruct H1 as (d0 & d1 & Ld0 & Pd & E1).
  apply bind_Ok in H. destruct H as (s2 & H2 & H).
  apply promote_entry_spec in H2. destruct H2 as (t0 & t1 & Lt0 & Pt & E2).
  apply bind_Ok in H. destruct H as (p0 & Lp0 & H). apply lookup_Ok in Lp0.
  apply bind_Ok in H. destruct H as (s3 & H3 & H).
  assert (E3 : exists p1,
             match p0 with
             | SStr str => bind (parse_deformation_potential F py_float str)
                             (fun d => Ok (setting_of_deformation F d))
             | SList l => Ok (STuple l)
             | _ => Ok p0
             end = Ok p1
             /\ forall k, sget s3 k
                          = if String.eqb k "deformation_potential" then Some p1 else sget s2 k).
  { destruct p0 as [|x|str|l|l|a|i];
      try (injection H3 as <-; eexists; split; [reflexivity|];
           intros k; first [apply sget_sset | apply sget_unchanged; exact Lp0]).
    apply bind_Ok in H3. destruct H3 as (d & Hd & H3). injection H3 as <-.
    rewrite Hd. cbn [bind]. eexists. split; [reflexivity|]. intros k. apply sget_sset. }
  clear H3. destruct E3 as (p1 & Pp & E3).
  apply bind_Ok in H. destruct H as (s4 & H4 & H).
  apply cast_entry_spec in H4. destruct H4 as (sd0 & sd1 & Lsd & Psd & E4).
  apply bind_Ok in H. destruct H as (s5 & H5 & H).
  apply cast_entry_spec in H5. destruct H5 as (hf0 & hf1 & Lhf & Phf & E5).
  apply bind_Ok in H. destruct H as (s6 & H6 & H).
  apply cast_entry_spec in H6. destruct H6 as (ec0 & ec1 & Lec & Pec & E6).
  apply bind_Ok in H. destruct H as (d2 & Ld2 & H). apply lookup_Ok in Ld2.
  apply bind_Ok in H. destruct H as (d3 & Pd3 & H).
  apply bind_Ok in H. destruct H as (t2 & Lt2 & H). apply lookup_Ok in Lt2.
  injection H as <-.
  (* the values read at each step, in terms of the merged settings *)
  rewrite E1 in Lt0. eval_names_in Lt0.
  rewrite E2, E1 in Lp0. eval_names_in Lp0.
  rewrite E3, E2, E1 in Lsd. eval_names_in Lsd.
  rewrite E4, E3, E2, E1 in Lhf. eval_names_in Lhf.
  rewrite E5, E4, E3, E2, E1 in Lec. eval_names_in Lec.
  rewrite E6, E5, E4, E3, E2, E1 in Ld2. eval_names_in Ld2. injection Ld2 as <-.
  rewrite sget_sset, E6, E5, E4, E3, E2 in Lt2. eval_names_in Lt2. injection Lt2 as <-.
  assert (Es : forall k,
             sget (sset (sset s6 "doping" d3) "temperatures" (np_asarray F t1)) k
             = if String.eqb k "temperatures" then Some (np_asarray F t1)
               else if String.eqb k "doping" then Some d3
               else if String.eqb k "elastic_constant" then Some ec1
               else if String.eqb k "high_frequency_dielectric" then Some hf1
               else if String.eqb k "static_dielectric" then Some sd1
               else if String.eqb k "deformation_potential" then Some p1
               else sget m k).
  { intros k. rewrite !sget_sset, E6, E5, E4, E3, E2, E1.
    destruct (String.eqb k "temperatures"); [reflexivity|].
    destruct (String.eqb k "doping"); reflexivity. }
  split; [|split].
  - intros k v Hv. rewrite Es. unfold util.normalised_value.
    destruct (String.eqb_spec k "temperatures") as [->|n1].
    { eval_names. rewrite Lt0 in Hv. injection Hv as <-.
      rewrite Pt. cbn [bind]. eauto. }
    destruct (String.eqb_spec k "doping") as [->|n2].
    { rewrite Ld0 in Hv. injection Hv as <-.
      rewrite Pd. cbn [bind]. rewrite Pd3. eauto. }
    destruct (String.eqb_spec k "elastic_constant") as [->|n3].
    { eval_names. cbn [orb]. rewrite Lec in Hv. injection Hv as <-. eauto. }
    destruct (String.eqb_spec k "high_frequency_dielectric") as [->|n4].
    { eval_names. cbn [orb]. rewrite Lhf in Hv. injection Hv as <-. eauto. }
    destruct (String.eqb_spec k "static_dielectric") as [->|n5].
    { eval_names. cbn [orb]. rewrite Lsd in Hv. injection Hv as <-. eauto. }
    destruct (String.eqb_spec k "deformation_potential") as [->|n6].
    { rewrite Lp0 in Hv. injection Hv as <-. eauto. }
    cbn [orb]. eauto.
  - intros k Hk. unfold typed_keys in Hk. cbn [In] in Hk.
    destruct Hk as [<-|[<-|[<-|[<-|[<-|[<-|[]]]]]]]; congruence.
  - intros k Hk. rewrite Es. unfold typed_keys in Hk. cbn [In] in Hk.
    destruct (String.eqb_spec k "temperatures") as [->|n1]; [exfalso; apply Hk; auto 10|].
    destruct (String.eqb_spec k "doping") as [->|n2]; [exfalso; apply Hk; auto 10|].
    destruct (String.eqb_spec k "elastic_constant") as [->|n3]; [exfalso; apply Hk; auto 10|].
    destruct (String.eqb_spec k "high_frequency_dielectric") as [->|n4];
      [exfalso; apply Hk; auto 10|].
    destruct (String.eqb_spec k "static_dielectric") as [->|n5]; [exfalso; apply Hk; auto 10|].
    destruct (String.eqb_spec k "deformation_potential") as [->|n6];
      [exfalso; apply Hk; auto 10|].
    reflexivity.
Qed.

Lemma validate_settings_normalised user s :
  validate_settings user = Ok s -> normalise_settings user = Ok s.
Proof.
  rewrite validate_settings_unfold.
  destruct (normalise_settings user) as [s'|e]; [|discriminate].
  destruct (check_settings F defaults (keys s')) as [[]|e]; [|discriminate].
  intros H. exact H.
Qed.

Lemma np_asarray_float_array v v' :
  np_asarray_float v = Ok v' -> exists a, v' = SArray a.
Proof.
  induction v as [|x|str|l|l|a|i IH]; cbn [util.np_asarray_float]; intros H;
    try (injection H as <-; eauto).
  - apply bind_Ok in H. destruct H as (y & _ & H). injection H as <-. eauto.
  - apply IH. exact H.
Qed.

Lemma np_asarray_idem (v : setting F) : np_asarray F (np_asarray F v) = np_asarray F v.
Proof. destruct v; reflexivity. Qed.

Lemma cast_tensor_square v v' :
  cast_tensor v = Ok v' -> exists a n, v' = SArray a /\ shape a = [n; n].
Proof.
  unfold util.cast_tensor. intros H.
  assert (Hn : forall t : setting F,
             match np_asarray F t with
             | SArray a =>
                 if Nat.eqb (List.length (shape a)) 1 then Ok (SArray (diag F zero (data a)))
                 else if negb (shape_eqb (shape a) [3; 3])
                      then Raise (ValueError tensor_message)
                      else Ok (np_asarray F t)
             | _ => Raise (ValueError tensor_message)
             end = Ok v' -> exists a n, v' = SArray a /\ shape a = [n; n]).
  { intros t Ht. destruct (np_asarray F t) as [|x|str|l|l|a|i]; try discriminate Ht.
    destruct (Nat.eqb (List.length (shape a)) 1).
    - injection Ht as <-. eexists. eexists. split; reflexivity.
    - destruct (shape_eqb (shape a) [3; 3]) eqn:E; [|discriminate Ht].
      injection Ht as <-. apply shape_eqb_eq in E. eauto. }
  destruct v as [|x|str|l|l|a|i]; try (apply Hn in H; exact H).
  injection H as <-. eexists. eexists. split; reflexivity.
Qed.

Lemma cast_elastic_tensor_rank4 v v' :
  cast_elastic_tensor v = Ok v' -> exists a, v' = SArray a /\ shape a = [3; 3; 3; 3].
Proof.
  unfold util.cast_elastic_tensor. cbv zeta.
  match goal with
  | |- (if negb (shape_eqb (shape_of F ?t) _) then _ else _) = _ -> _ => set (r := t)
  end.
  destruct (shape_eqb (shape_of F r) [3; 3; 3; 3]) eqn:E; [|discriminate].
  intros H. injection H as <-. apply shape_eqb_eq in E.
  destruct r as [|x|str|l|l|a|i]; try discriminate E. eauto.
Qed.

Lemma parse_deformation_potential_file str d :
  parse_deformation_potential F py_float str = Ok d ->
  forall path, d = DefFile path -> contains "h5" path = true.
Proof.
  unfold parse_deformation_potential. destruct (contains "h5" str) eqn:E.
  - intros H path ->. injection H as <-. exact E.
  - cbv zeta. intros H path ->.
    apply except_ValueError_Ok in H. destruct H as [H|H]; [discriminate|].
    apply bind_Ok in H. destruct H as (parts & _ & H).
    destruct parts as [|? [|? [|? ?]]]; discriminate.
Qed.
End SettingsValues.

(** *** When the validation succeeds, and what it does to its own result *)

Section SettingsComplete.
Variable F : Type.
Variable py_float : string -> option F.
Variable py_int : F -> result Z.
Variable linspace geomspace : F -> F -> Z -> result (list F).
Variables zero one nan : F.
Variable mul : F -> F -> F.
Variable div2 : F -> F.
Variable from_voigt : ndarray F -> ndarray F.
Variable defaults : sdict (setting F).

#[local] Abbreviation normalise_settings :=
  (normalise_settings F py_float py_int linspace geomspace zero one nan mul div2 from_voigt defaults).
#[local] Abbreviation validate_settings :=
  (validate_settings F py_float py_int linspace geomspace zero one nan mul div2 from_voigt defaults).
#[local] Abbreviation normalised_value :=
  (normalised_value F py_float py_int linspace geomspace zero one nan mul div2 from_voigt).
#[local] Abbreviation cast_tensor := (cast_tensor F zero one mul).
#[local] Abbreviation cast_elastic_tensor := (cast_elastic_tensor F zero one mul div2 from_voigt).
#[local] Abbreviation np_asarray_float := (np_asarray_float F py_float nan).

Lemma sget_lookup (m : sdict (setting F)) k v : sget m k = Some v -> lookup m k = Ok v.
Proof. unfold lookup. intros ->. reflexivity. Qed.

Lemma promote_entry_complete parse (m : sdict (setting F)) k0 v v' :
  sget m k0 = Some v -> promote_value F parse v = Ok v' ->
  exists m', promote_entry F parse m k0 = Ok m'
             /\ forall k, sget m' k = if String.eqb k k0 then Some v' else sget m k.
Proof.
  intros Hv Hp. unfold promote_entry. rewrite (sget_lookup _ _ _ Hv). cbn [bind].
  destruct v as [|x|str|l|l|a|i]; cbn [promote_value] in Hp;
    try (injection Hp as <-; eexists; split; [reflexivity|];
         intros k; first [apply sget_sset | apply sget_unchanged; exact Hv]).
  apply bind_Ok in Hp. destruct Hp as (a & Ha & Hp). injection Hp as <-.
  rewrite Ha. cbn [bind]. eexists. split; [reflexivity|]. intros k. apply sget_sset.
Qed.

Lemma cast_entry_complete cast (m : sdict (setting F)) k0 v v' :
  sget m k0 = Some v ->
  match v with SNone => Ok v | _ => cast v end = Ok v' ->
  exists m', cast_entry F cast m k0 = Ok m'
             /\ forall k, sget m' k = if String.eqb k k0 then Some v' else sget m k.
Proof.
  intros Hv Hc. unfold cast_entry. rewrite (sget_lookup _ _ _ Hv). cbn [bind].
  destruct v as [|x|str|l|l|a|i];
    try (rewrite Hc; cbn [bind]; eexists; split; [reflexivity|]; intros k; apply sget_sset).
  injection Hc as <-. eexists. split; [reflexivity|].
  intros k. apply sget_unchanged. exact Hv.
Qed.

(** The normalisation succeeds as soon as each typed key holds a value
    that normalises. *)
Lemma normalise_settings_complete user :
  (forall k, In k typed_keys ->
     exists v v', sget (update String.eqb defaults user) k = Some v
                  /\ normalised_value k v = Ok v') ->
  exists s, normalise_settings user = Ok s.
Proof.
  intros H. unfold util.normalise_settings. cbv zeta.
  set (m := update String.eqb defaults user) in *.
  assert (Hin : forall k, In k typed_keys -> In k typed_keys) by auto.
  destruct (H "doping") as (d0 & d3 & Ld & Nd); [unfold typed_keys; simpl; auto 10|].
  destruct (H "temperatures") as (t0 & t3 & Lt & Nt); [unfold typed_keys; simpl; auto 10|].
  destruct (H "deformation_potential") as (p0 & p1 & Lp & Np);
    [unfold typed_keys; simpl; auto 10|].
  destruct (H "static_dielectric") as (sd0 & sd1 & Lsd & Nsd);
    [unfold typed_keys; simpl; auto 10|].
  destruct (H "high_frequency_dielectric") as (hf0 & hf1 & Lhf & Nhf);
    [unfold typed_keys; simpl; auto 10|].
  destruct (H "elastic_constant") as (ec0 & ec1 & Lec & Nec);
    [unfold typed_keys; simpl; auto 10|].
  clear H Hin.
  unfold util.normalised_value in Nd, Nt, Np, Nsd, Nhf, Nec.
  eval_names_in Nd. eval_names_in Nt. eval_names_in Np.
  eval_names_in Nsd. eval_names_in Nhf. eval_names_in Nec.
  cbn [orb] in Nsd, Nhf, Nec.
  apply bind_Ok in Nd. destruct Nd as (d1 & Pd & Nd).
  apply bind_Ok in Nt. destruct Nt as (t1 & Pt & Nt).
  destruct (promote_entry_complete _ m "doping" d0 d1 Ld Pd) as (s1 & -> & E1).
  cbn [bind].
  assert (Lt1 : sget s1 "temperatures" = Some t0) by (rewrite E1; eval_names; exact Lt).
  destruct (promote_entry_complete _ s1 "temperatures" t0 t1 Lt1 Pt) as (s2 & -> & E2).
  cbn [bind].
  assert (Lp2 : sget s2 "deformation_potential" = Some p0)
    by (rewrite E2, E1; eval_names; exact Lp).
  rewrite (sget_lookup _ _ _ Lp2). cbn [bind].
  assert (E3 : exists s3,
             match p0 with
             | SStr str =>
                 bind (parse_deformation_potential F py_float str)
                   (fun d => Ok (sset s2 "deformation_potential" (setting_of_deformation F d)))
             | SList l => Ok (sset s2 "deformation_potential" (STuple l))
             | _ => Ok s2
             end = Ok s3
             /\ forall k, sget s3 k
                          = if String.eqb k "deformation_potential" then Some p1 else sget s2 k).
  { destruct p0 as [|x|str|l|l|a|i];
      try (injection Np as <-; eexists; split; [reflexivity|];
           intros k; first [apply sget_sset | apply sget_unchanged; exact Lp2]).
    apply bind_Ok in Np. destruct Np as (d & Hd & Np). injection Np as <-.
    rewrite Hd. cbn [bind]. eexists. split; [reflexivity|]. intros k. apply sget_sset. }
  destruct E3 as (s3 & -> & E3). cbn [bind].
  assert (Lsd3 : sget s3 "static_dielectric" = Some sd0)
    by (rewrite E3, E2, E1; eval_names; exact Lsd).
  destruct (cast_entry_complete cast_tensor s3 "static_dielectric" sd0 sd1 Lsd3 Nsd)
    as (s4 & -> & E4).
  cbn [bind].
  assert (Lhf4 : sget s4 "high_frequency_dielectric" = Some hf0)
    by (rewrite E4, E3, E2, E1; eval_names; exact Lhf).
  destruct (cast_entry_complete cast_tensor s4 "high_frequency_dielectric" hf0 hf1 Lhf4 Nhf)
    as (s5 & -> & E5).
  cbn [bind].
  assert (Lec5 : sget s5 "elastic_constant" = Some ec0)
    by (rewrite E5, E4, E3, E2, E1; eval_names; exact Lec).
  destruct (cast_entry_complete cast_elastic_tensor s5 "elastic_constant" ec0 ec1 Lec5 Nec)
    as (s6 & -> & E6).
  cbn [bind].
  assert (Ld6 : sget s6 "doping" = Some d1)
    by (rewrite E6, E5, E4, E3, E2, E1; eval_names; reflexivity).
  rewrite (sget_lookup _ _ _ Ld6). cbn [bind]. rewrite Nd. cbn [bind].
  assert (Lt7 : sget (sset s6 "doping" d3) "temperatures" = Some t1)
    by (rewrite sget_sset, E6, E5, E4, E3, E2; eval_names; reflexivity).
  rewrite (sget_lookup _ _ _ Lt7). cbn [bind]. eauto.
Qed.

(** What the typed keys of validated settings hold. *)
Lemma validated_types user s :
  normalise_settings user = Ok s ->
  (exists a, sget s "doping" = Some (SArray a))
  /\ (exists v, sget s "temperatures" = Some v /\ np_asarray F v = v)
  /\ (forall k, k = "static_dielectric" \/ k = "high_frequency_dielectric" ->
        exists v, sget s k = Some v
                  /\ (v = SNone \/ exists a n, v = SArray a /\ shape a = [n; n]))
  /\ (exists v, sget s "elastic_constant" = Some v
                /\ (v = SNone \/ exists a, v = SArray a /\ shape a = [3; 3; 3; 3]))
  /\ (exists v, sget s "deformation_potential" = Some v
                /\ (forall l, v <> SList l)
                /\ (forall str, v = SStr str -> contains "h5" str = true)).
Proof.
  intros H.
  apply normalise_settings_values in H. destruct H as (H1 & H2 & _).
  assert (Hk : forall k, In k typed_keys ->
             exists v v', sget (update String.eqb defaults user) k = Some v
                          /\ normalised_value k v = Ok v'
                          /\ sget s k = Some v').
  { intros k Hin. specialize (H2 k Hin).
    destruct (sget (update String.eqb defaults user) k) as [v|] eqn:E; [|congruence].
    destruct (H1 k v E) as (v' & Hn & Hs). eauto. }
  split; [|split; [|split; [|split]]].
  - destruct (Hk "doping") as (v & v' & _ & Hn & Hs); [unfold typed_keys; simpl; auto 10|].
    unfold util.normalised_value in Hn. eval_names_in Hn.
    apply bind_Ok in Hn. destruct Hn as (v1 & _ & Hn).
    apply np_asarray_float_array in Hn. destruct Hn as [a ->]. eauto.
  - destruct (Hk "temperatures") as (v & v' & _ & Hn & Hs); [unfold typed_keys; simpl; auto 10|].
    unfold util.normalised_value in Hn. eval_names_in Hn.
    apply bind_Ok in Hn. destruct Hn as (v1 & _ & Hn). injection Hn as <-.
    eexists. split; [exact Hs | apply np_asarray_idem].
  - intros k [->| ->].
    + destruct (Hk "static_dielectric") as (v & v' & _ & Hn & Hs);
        [unfold typed_keys; simpl; auto 10|].
      unfold util.normalised_value in Hn. eval_names_in Hn. cbn [orb] in Hn.
      exists v'. split; [exact Hs|].
      destruct v; try (right; eapply cast_tensor_square; exact Hn).
      injection Hn as <-. left. reflexivity.
    + destruct (Hk "high_frequency_dielectric") as (v & v' & _ & Hn & Hs);
        [unfold typed_keys; simpl; auto 10|].
      unfold util.normalised_value in Hn. eval_names_in Hn. cbn [orb] in Hn.
      exists v'. split; [exact Hs|].
      destruct v; try (right; eapply cast_tensor_square; exact Hn).
      injection Hn as <-. left. reflexivity.
  - destruct (Hk "elastic_constant") as (v & v' & _ & Hn & Hs);
      [unfold typed_keys; simpl; auto 10|].
    unfold util.normalised_value in Hn. eval_names_in Hn. cbn [orb] in Hn.
    exists v'. split; [exact Hs|].
    destruct v; try (right; eapply cast_elastic_tensor_rank4; exact Hn).
    injection Hn as <-. left. reflexivity.
  - destruct (Hk "deformation_potential") as (v & v' & _ & Hn & Hs);
      [unfold typed_keys; simpl; auto 10|].
    unfold util.normalised_value in Hn. eval_names_in Hn.
    exists v'. split; [exact Hs|].
    destruct v as [|x|str|l|l|a|i]; try (injection Hn as <-; split; intros; discriminate).
    apply bind_Ok in Hn. destruct Hn as (d & Hd & Hn). injection Hn as <-.
    split.
    + intros l. destruct d; discriminate.
    + intros path E. destruct d as [p|x|c v]; try discriminate E.
      injection E as ->.
      eapply parse_deformation_potential_file; [exact Hd | reflexivity].
Qed.

Lemma cast_elastic_tensor_rank4_fixed a :
  shape a = [3; 3; 3; 3] -> cast_elastic_tensor (SArray a) = Ok (SArray a).
Proof.
  intros H. unfold util.cast_elastic_tensor. cbn [np_asarray].
  rewrite (shape_eqb_neq (shape a) [6; 6]) by (rewrite H; discriminate).
  cbn [shape_of]. rewrite H. reflexivity.
Qed.

(** Validated values are left as they are by their own normalisation,
    provided the dielectric tensors are 3 by 3. *)
Lemma validated_values_fixed user s :
  normalise_settings user = Ok s ->
  (forall k a, k = "static_dielectric" \/ k = "high_frequency_dielectric" ->
     sget s k = Some (SArray a) -> shape a = [3; 3]) ->
  forall k v, sget s k = Some v -> normalised_value k v = Ok v.
Proof.
  intros H H3 k v Hv.
  destruct (validated_types user s H) as (Td & Tt & Tsd & Tec & Tp).
  unfold util.normalised_value.
  destruct (String.eqb_spec k "doping") as [->|n1].
  { destruct Td as (a & E). rewrite E in Hv. injection Hv as <-. reflexivity. }
  destruct (String.eqb_spec k "temperatures") as [->|n2].
  { destruct Tt as (v0 & E & Ha). rewrite E in Hv. injection Hv as <-.
    destruct v0; try discriminate Ha; reflexivity. }
  destruct (String.eqb_spec k "deformation_potential") as [->|n3].
  { destruct Tp as (v0 & E & Hl & Hs). rewrite E in Hv. injection Hv as <-.
    destruct v0 as [|x|str|l|l|a|i]; try reflexivity.
    - unfold parse_deformation_potential. rewrite (Hs str eq_refl). reflexivity.
    - destruct (Hl l eq_refl). }
  destruct (String.eqb_spec k "static_dielectric") as [->|n4].
  { cbn [orb]. destruct (Tsd "static_dielectric" (or_introl eq_refl)) as (v0 & E & Hv0).
    rewrite E in Hv. injection Hv as <-.
    destruct Hv0 as [->|(a & n & -> & Hs)]; [reflexivity|].
    apply cast_tensor_3x3. apply (H3 "static_dielectric"); auto. }
  destruct (String.eqb_spec k "high_frequency_dielectric") as [->|n5].
  { cbn [orb].
    destruct (Tsd "high_frequency_dielectric" (or_intror eq_refl)) as (v0 & E & Hv0).
    rewrite E in Hv. injection Hv as <-.
    destruct Hv0 as [->|(a & n & -> & Hs)]; [reflexivity|].
    apply cast_tensor_3x3. apply (H3 "high_frequency_dielectric"); auto. }
  cbn [orb].
  destruct (String.eqb_spec k "elastic_constant") as [->|n6]; [|reflexivity].
  destruct Tec as (v0 & E & Hv0). rewrite E in Hv. injection Hv as <-.
  destruct Hv0 as [->|(a & -> & Hs)]; [reflexivity|].
  apply cast_elastic_tensor_rank4_fixed. exact Hs.
Qed.

Lemma sget_None_keys (m m' : sdict (setting F)) k :
  keys m = keys m' -> sget m k = None -> sget m' k = None.
Proof.
  intros Hk Hn. destruct (sget m' k) eqn:E; [|reflexivity].
  exfalso. assert (Hin : In k (keys m')) by (apply sget_In_keys; congruence).
  rewrite <- Hk in Hin. apply sget_In_keys in Hin. contradiction.
Qed.
End SettingsComplete.

(** X3.  [validate_settings] acts key by key.  Whenever it returns settings:
    each value is the normalised value of the one the merged settings (the
    defaults updated with the user's) hold under the same key; a key other
    than the six typed ones keeps its value; and a user's value stands in
    for the default of the same key. *)
Theorem validate_settings_by_key :
  forall (F : Type) (py_float : string -> option F) (py_int : F -> result Z)
         (linspace geomspace : F -> F -> Z -> result (list F))
         (zero one nan : F) (mul : F -> F -> F) (div2 : F -> F)
         (from_voigt : ndarray F -> ndarray F)
         (defaults user_settings s : sdict (setting F)),
    validate_settings F py_float py_int linspace geomspace zero one nan mul div2
                      from_voigt defaults user_settings = Ok s ->
    let merged := update String.eqb defaults user_settings in
    (forall k v, sget merged k = Some v ->
       exists v',
         normalised_value F py_float py_int linspace geomspace zero one nan mul div2
                          from_voigt k v = Ok v'
         /\ sget s k = Some v')
    /\ (forall k, ~ In k typed_keys -> sget s k = sget merged k)
    /\ (NoDup (keys user_settings) ->
        forall k, sget merged k
                  = match sget user_settings k with
                    | Some v => Some v
                    | None => sget defaults k
                    end).
Proof.
  intros F py_float py_int linspace geomspace zero one nan mul div2 from_voigt
         defaults user s H merged.
  apply validate_settings_normalised in H.
  apply normalise_settings_values in H. destruct H as (H1 & _ & H3).
  split; [exact H1|]. split; [exact H3|].
  intros Hn k. apply sget_update. exact Hn.
Qed.

Lemma validate_settings_by_key_witness :
  exists s,
    Ideal.validate_settings Ideal.defaults [("doping", SNum (Ideal.Real 1e19))] = Ok s
    /\ sget s "doping" = Some (SArray (array1 [Ideal.Real 1e19]))
    /\ sget s "temperatures" = Some (SArray (array1 [Ideal.Real 300])).
Proof.
  eexists. split; [reflexivity|].
  pose proof (validate_settings_by_key Ideal.num Ideal.py_float Ideal.py_int
                Ideal.linspace Ideal.geomspace (Ideal.Real 0) (Ideal.Real 1) Ideal.NaN
                Ideal.mul Ideal.div2 Ideal.from_voigt Ideal.defaults
                [("doping", SNum (Ideal.Real 1e19))] _ eq_refl) as (H & _ & _).
  split.
  - destruct (H "doping" (SNum (Ideal.Real 1e19)) eq_refl) as (v' & E & Hs).
    injection E as <-. exact Hs.
  - destruct (H "temperatures" (SList [Ideal.Real 300]) eq_refl) as (v' & E & Hs).
    injection E as <-. exact Hs.
Defined.

(** X10.  What the settings [validate_settings] returns hold under the typed
    keys: [doping] a numeric array; [temperatures] an array; each
    dielectric tensor [None] or a square matrix; [elastic_constant] [None]
    or an array of shape (3, 3, 3, 3); [deformation_potential] never a
    list, and a string only if it has ["h5"] in it. *)
Theorem validate_settings_result_types :
  forall (F : Type) (py_float : string -> option F) (py_int : F -> result Z)
         (linspace geomspace : F -> F -> Z -> result (list F))
         (zero one nan : F) (mul : F -> F -> F) (div2 : F -> F)
         (from_voigt : ndarray F -> ndarray F)
         (defaults user_settings s : sdict (setting F)),
    validate_settings F py_float py_int linspace geomspace zero one nan mul div2
                      from_voigt defaults user_settings = Ok s ->
    (exists a, sget s "doping" = Some (SArray a))
    /\ (exists v, sget s "temperatures" = Some v /\ np_asarray F v = v)
    /\ (forall k, k = "static_dielectric" \/ k = "high_frequency_dielectric" ->
          exists v, sget s k = Some v
                    /\ (v = SNone \/ exists a n, v = SArray a /\ shape a = [n; n]))
    /\ (exists v, sget s "elastic_constant" = Some v
                  /\ (v = SNone \/ exists a, v = SArray a /\ shape a = [3; 3; 3; 3]))
    /\ (exists v, sget s "deformation_potential" = Some v
                  /\ (forall l, v <> SList l)
                  /\ (forall str, v = SStr str -> contains "h5" str = true)).
Proof.
  intros F py_float py_int linspace geomspace zero one nan mul div2 from_voigt
         defaults user s H.
  apply validate_settings_normalised in H.
  exact (validated_types F py_float py_int linspace geomspace zero one nan mul div2
           from_voigt defaults user s H).
Qed.

Lemma validate_settings_result_types_witness :
  exists s,
    Ideal.validate_settings Ideal.defaults [("doping", SNum (Ideal.Real 1e19))] = Ok s
    /\ exists a, sget s "doping" = Some (SArray a).
Proof.
  eexists. split; [reflexivity|].
  apply (validate_settings_result_types Ideal.num Ideal.py_float Ideal.py_int
           Ideal.linspace Ideal.geomspace (Ideal.Real 0) (Ideal.Real 1) Ideal.NaN
           Ideal.mul Ideal.div2 Ideal.from_voigt Ideal.defaults
           [("doping", SNum (Ideal.Real 1e19))] _ eq_refl).
Defined.

(** X27.  [validate_settings] returns settings whenever the user's keys lie in
    the default schema and each of the six typed keys holds, in the
    defaults updated with the user's settings, a value that its own
    normalisation accepts. *)
Theorem validate_settings_succeeds :
  forall (F : Type) (py_float : string -> option F) (py_int : F -> result Z)
         (linspace geomspace : F -> F -> Z -> result (list F))
         (zero one nan : F) (mul : F -> F -> F) (div2 : F -> F)
         (from_voigt : ndarray F -> ndarray F)
         (defaults user_settings : sdict (setting F)),
    (forall k, In k (keys user_settings) -> In k (keys defaults)) ->
    (forall k, In k typed_keys ->
       exists v v',
         sget (update String.eqb defaults user_settings) k = Some v
         /\ normalised_value F py_float py_int linspace geomspace zero one nan mul div2
                             from_voigt k v = Ok v') ->
    exists s,
      validate_settings F py_float py_int linspace geomspace zero one nan mul div2
                        from_voigt defaults user_settings = Ok s
      /\ keys s = keys defaults.
Proof.
  intros F py_float py_int linspace geomspace zero one nan mul div2 from_voigt
         defaults user Hsub Hv.
  destruct (normalise_settings_complete F py_float py_int linspace geomspace zero one nan
              mul div2 from_voigt defaults user Hv) as (s & Hs).
  exists s.
  assert (E : validate_settings F py_float py_int linspace geomspace zero one nan mul div2
                from_voigt defaults user = Ok s)
    by (apply validate_settings_within; assumption).
  split; [exact E|]. apply validate_settings_keys in E. apply E.
Qed.

Lemma validate_settings_succeeds_witness :
  exists s,
    Ideal.validate_settings Ideal.defaults [("static_dielectric", SNum (Ideal.Real 10))] = Ok s
    /\ keys s = keys Ideal.defaults.
Proof.
  apply (validate_settings_succeeds Ideal.num Ideal.py_float Ideal.py_int
           Ideal.linspace Ideal.geomspace (Ideal.Real 0) (Ideal.Real 1) Ideal.NaN
           Ideal.mul Ideal.div2 Ideal.from_voigt Ideal.defaults
           [("static_dielectric", SNum (Ideal.Real 10))]).
  - intros k [<-|[]]. unfold Ideal.defaults. cbn [keys map fst In]. auto 10.
  - intros k Hk. unfold typed_keys in Hk. cbn [In] in Hk.
    destruct Hk as [<-|[<-|[<-|[<-|[<-|[<-|[]]]]]]];
      eexists; eexists; (split; [reflexivity | reflexivity]).
Defined.

(** X28.  Validating validated settings: when the dielectric tensors of the
    result are 3 by 3 (or None), [validate_settings] accepts its own
    result and returns the same value under every key. *)
Theorem validate_settings_idempotent :
  forall (F : Type) (py_float : string -> option F) (py_int : F -> result Z)
         (linspace geomspace : F -> F -> Z -> result (list F))
         (zero one nan : F) (mul : F -> F -> F) (div2 : F -> F)
         (from_voigt : ndarray F -> ndarray F)
         (defaults user_settings s : sdict (setting F)),
    let validate :=
      validate_settings F py_float py_int linspace geomspace zero one nan mul div2
                        from_voigt defaults in
    NoDup (keys defaults) ->
    validate user_settings = Ok s ->
    (forall k a, k = "static_dielectric" \/ k = "high_frequency_dielectric" ->
       sget s k = Some (SArray a) -> shape a = [3; 3]) ->
    exists s', validate s = Ok s' /\ forall k, sget s' k = sget s k.
Proof.
  intros F py_float py_int linspace geomspace zero one nan mul div2 from_voigt
         defaults user s validate Hn H H3.
  pose proof (validate_settings_keys _ _ _ _ _ _ _ _ _ _ _ _ _ _ H) as [Hk _].
  apply validate_settings_normalised in H.
  pose proof (validated_values_fixed F py_float py_int linspace geomspace zero one nan
                mul div2 from_voigt defaults user s H H3) as Hfix.
  destruct (validated_types F py_float py_int linspace geomspace zero one nan
              mul div2 from_voigt defaults user s H) as (Td & Tt & Tsd & Tec & Tp).
  assert (Hm : forall k, sget (update String.eqb defaults s) k = sget s k).
  { intros k. rewrite sget_update by (rewrite Hk; exact Hn).
    destruct (sget s k) eqn:E; [reflexivity|].
    apply (sget_None_keys F s defaults); [exact Hk | exact E]. }
  assert (Hty : forall k, In k typed_keys -> exists v, sget s k = Some v).
  { intros k Hin. unfold typed_keys in Hin. cbn [In] in Hin.
    destruct Hin as [<-|[<-|[<-|[<-|[<-|[<-|[]]]]]]].
    - destruct Td as (a & E). eauto.
    - destruct Tt as (v & E & _). eauto.
    - destruct Tp as (v & E & _). eauto.
    - destruct (Tsd "static_dielectric" (or_introl eq_refl)) as (v & E & _). eauto.
    - destruct (Tsd "high_frequency_dielectric" (or_intror eq_refl)) as (v & E & _). eauto.
    - destruct Tec as (v & E & _). eauto. }
  destruct (normalise_settings_complete F py_float py_int linspace geomspace zero one nan
              mul div2 from_voigt defaults s) as (s' & Hs').
  { intros k Hin. destruct (Hty k Hin) as (v & E).
    exists v, v. split; [rewrite Hm; exact E | apply Hfix; exact E]. }
  exists s'. split.
  - apply validate_settings_within; [exact Hs'|].
    intros k Hin. rewrite <- Hk. exact Hin.
  - intros k.
    apply normalise_settings_values in Hs'. destruct Hs' as (H1 & _ & Hother).
    destruct (sget s k) as [v|] eqn:E.
    + destruct (H1 k v) as (v' & Hv' & Hs'); [rewrite Hm; exact E|].
      rewrite (Hfix k v E) in Hv'. injection Hv' as <-. exact Hs'.
    + destruct (in_dec string_dec k typed_keys) as [Hin|Hout].
      * destruct (Hty k Hin) as (v & Ev). congruence.
      * rewrite (Hother k Hout), Hm. exact E.
Qed.

Lemma validate_settings_idempotent_witness :
  exists s',
    Ideal.validate_settings Ideal.defaults
      [("doping", SArray (array1 [Ideal.Real 1e19]));
       ("temperatures", SArray (array1 [Ideal.Real 300]));
       ("deformation_potential", SNone);
       ("static_dielectric", SNone);
       ("high_frequency_dielectric", SNone);
       ("elastic_constant", SNone)] = Ok s'
    /\ forall k,
         sget s' k
         = sget [("doping", SArray (array1 [Ideal.Real 1e19]));
                 ("temperatures", SArray (array1 [Ideal.Real 300]));
                 ("deformation_potential", SNone);
                 ("static_dielectric", SNone);
                 ("high_frequency_dielectric", SNone);
                 ("elastic_constant", SNone)] k.
Proof.
  apply (validate_settings_idempotent Ideal.num Ideal.py_float Ideal.py_int
           Ideal.linspace Ideal.geomspace (Ideal.Real 0) (Ideal.Real 1) Ideal.NaN
           Ideal.mul Ideal.div2 Ideal.from_voigt Ideal.defaults
           [("doping", SNum (Ideal.Real 1e19))]).
  - unfold Ideal.defaults. cbn [keys map fst].
    repeat constructor; cbn [In]; intuition discriminate.
  - reflexivity.
  - intros k a [->| ->] H; discriminate H.
Defined.

(** X11.  What [cast_tensor] returns is a square matrix, and casting it again
    gives it back exactly when it is 3 by 3: the other diagonal matrices
    [cast_tensor] builds are refused by [cast_tensor] itself. *)
Theorem cast_tensor_result_square :
  forall (F : Type) (zero one : F) (mul : F -> F -> F) (tensor r : setting F),
    cast_tensor F zero one mul tensor = Ok r ->
    exists a n,
      r = SArray a /\ shape a = [n; n]
      /\ (n = 3 -> cast_tensor F zero one mul r = Ok r)
      /\ (n <> 3 -> cast_tensor F zero one mul r = Raise (ValueError tensor_message)).
Proof.
  intros F zero one mul tensor r H.
  destruct (cast_tensor_square F zero one mul tensor r H) as (a & n & -> & Hs).
  exists a, n. split; [reflexivity|]. split; [exact Hs|]. split.
  - intros ->. apply cast_tensor_3x3. exact Hs.
  - intros Hn. apply cast_tensor_other_shape.
    + rewrite Hs. discriminate.
    + rewrite Hs. intros E. injection E as E. contradiction.
Qed.

Lemma cast_tensor_result_square_witness :
  exists a n,
    SArray (mk_ndarray [2; 2] [1; 0; 0; 2]%Z) = SArray a /\ shape a = [n; n]
    /\ (n = 3 -> cast_tensor Z 0%Z 1%Z Z.mul (SArray (mk_ndarray [2; 2] [1; 0; 0; 2]%Z))
                 = Ok (SArray (mk_ndarray [2; 2] [1; 0; 0; 2]%Z)))
    /\ (n <> 3 -> cast_tensor Z 0%Z 1%Z Z.mul (SArray (mk_ndarray [2; 2] [1; 0; 0; 2]%Z))
                  = Raise (ValueError tensor_message)).
Proof.
  apply (cast_tensor_result_square Z 0%Z 1%Z Z.mul (SList [1; 2]%Z)). reflexivity.
Defined.
(** ** Grouping rows by label *)

#[local] Arguments indices_of : simpl never.

Lemma In_add_value k vs v : In v (add_value k vs) <-> v = k \/ In v vs.
Proof.
  induction vs as [|w vs IH]; simpl.
  - split; [intros [E|[]]; auto | intros [E|[]]; auto].
  - destruct (Z.ltb_spec k w); simpl; [split; intros; intuition auto|].
    destruct (Z.eqb_spec k w) as [->|n]; simpl; [split; intros; intuition auto|].
    rewrite IH. split; intros; intuition auto.
Qed.

Lemma add_value_sorted k vs :
  StronglySorted Z.lt vs -> StronglySorted Z.lt (add_value k vs).
Proof.
  induction 1 as [|w vs Hs IH Hw]; simpl.
  - constructor; constructor.
  - destruct (Z.ltb_spec k w).
    + constructor; [constructor; assumption|].
      constructor; [assumption|].
      rewrite Forall_forall in *. intros x Hx. specialize (Hw x Hx). lia.
    + destruct (Z.eqb_spec k w) as [->|n]; [constructor; assumption|].
      constructor; [exact IH|].
      rewrite Forall_forall in *. intros x Hx. apply In_add_value in Hx.
      destruct Hx as [->|Hx]; [lia | auto].
Qed.

Lemma values_of_sorted b idxs : StronglySorted Z.lt (values_of b idxs).
Proof.
  induction idxs as [|i idxs IH]; simpl; [constructor | apply add_value_sorted, IH].
Qed.

Lemma In_values_of b idxs v :
  In v (values_of b idxs) <-> exists j, In j idxs /\ nth j b 0%Z = v.
Proof.
  induction idxs as [|i idxs IH]; simpl.
  - split; [tauto | intros (j & [] & _)].
  - rewrite In_add_value, IH. split.
    + intros [->|(j & Hj & E)]; [exists i; auto | exists j; auto].
    + intros (j & [->|Hj] & E); [left; auto | right; exists j; auto].
Qed.

Lemma indices_of_none b v idxs :
  (forall j, In j idxs -> nth j b 0%Z <> v) -> indices_of b v idxs = [].
Proof.
  intros H. unfold indices_of. induction idxs as [|i idxs IH]; simpl; [reflexivity|].
  destruct (Z.eqb_spec (nth i b 0%Z) v) as [E|_].
  - exfalso. apply (H i); simpl; auto.
  - apply IH. intros j Hj. apply H. simpl. auto.
Qed.

Lemma indices_of_cons_other b v i idxs :
  nth i b 0%Z <> v -> indices_of b v (i :: idxs) = indices_of b v idxs.
Proof.
  intros H. unfold indices_of. simpl.
  destruct (Z.eqb_spec (nth i b 0%Z) v); [contradiction | reflexivity].
Qed.

Lemma indices_of_cons_same b i idxs :
  indices_of b (nth i b 0%Z) (i :: idxs) = i :: indices_of b (nth i b 0%Z) idxs.
Proof. unfold indices_of. simpl. rewrite Z.eqb_refl. reflexivity. Qed.

Lemma indices_of_label b v idxs j : In j (indices_of b v idxs) -> nth j b 0%Z = v.
Proof.
  unfold indices_of. intros H. apply filter_In in H. destruct H as [_ H].
  apply Z.eqb_eq. exact H.
Qed.

Lemma flat_map_indices_other b i idxs vs :
  ~ In (nth i b 0%Z) vs ->
  flat_map (fun v => indices_of b v (i :: idxs)) vs
  = flat_map (fun v => indices_of b v idxs) vs.
Proof.
  induction vs as [|v vs IH]; cbn [flat_map]; intros H; [reflexivity|].
  rewrite indices_of_cons_other by (intros E; apply H; left; auto).
  rewrite IH by (intros E; apply H; right; auto). reflexivity.
Qed.

Lemma insert_index_front b i l :
  (forall j, In j l -> (nth i b 0 <= nth j b 0)%Z) -> insert_index b i l = i :: l.
Proof.
  destruct l as [|j l]; simpl; intros H; [reflexivity|].
  destruct (Z.leb_spec (nth i b 0%Z) (nth j b 0%Z)) as [_|Hlt]; [reflexivity|].
  specialize (H j (or_introl eq_refl)). lia.
Qed.

Lemma insert_index_skip b i l1 l2 :
  (forall j, In j l1 -> (nth j b 0 < nth i b 0)%Z) ->
  insert_index b i (l1 ++ l2) = l1 ++ insert_index b i l2.
Proof.
  induction l1 as [|j l1 IH]; simpl; intros H; [reflexivity|].
  destruct (Z.leb_spec (nth i b 0%Z) (nth j b 0%Z)) as [Hle|_].
  - specialize (H j (or_introl eq_refl)). lia.
  - rewrite IH by (intros j' Hj'; apply H; auto). reflexivity.
Qed.

(** Inserting an index into the blocks of equal labels puts it at the
    front of the block of its own label. *)
Lemma insert_index_blocks b i idxs vs :
  StronglySorted Z.lt vs ->
  (~ In (nth i b 0%Z) vs -> indices_of b (nth i b 0%Z) idxs = []) ->
  insert_index b i (flat_map (fun v => indices_of b v idxs) vs)
  = flat_map (fun v => indices_of b v (i :: idxs)) (add_value (nth i b 0%Z) vs).
Proof.
  intros Hs. induction Hs as [|v vs Hs IH Hv]; intros Hk.
  - simpl. rewrite indices_of_cons_same, Hk by tauto. rewrite app_nil_r. reflexivity.
  - assert (Hge : forall j, In j (flat_map (fun v0 => indices_of b v0 idxs) (v :: vs)) ->
                            (v <= nth j b 0)%Z).
    { intros j Hj. apply in_flat_map in Hj. destruct Hj as (w & Hw & Hj).
      apply indices_of_label in Hj. rewrite Hj.
      destruct Hw as [->|Hw]; [lia|].
      rewrite Forall_forall in Hv. specialize (Hv w Hw). lia. }
    assert (Hnot : forall k, (k <= v)%Z -> ~ In k vs).
    { intros k Hle Hin. rewrite Forall_forall in Hv. specialize (Hv k Hin). lia. }
    cbn [add_value].
    destruct (Z.ltb_spec (nth i b 0%Z) v) as [Hlt|Hle].
    + rewrite insert_index_front by (intros j Hj; specialize (Hge j Hj); lia).
      cbn [flat_map]. rewrite indices_of_cons_same.
      rewrite Hk by (intros [E|Hin]; [lia | revert Hin; apply Hnot; lia]).
      rewrite indices_of_cons_other by lia.
      rewrite flat_map_indices_other by (apply Hnot; lia). reflexivity.
    + destruct (Z.eqb_spec (nth i b 0%Z) v) as [E|Hne].
      * rewrite insert_index_front by (intros j Hj; specialize (Hge j Hj); lia).
        cbn [flat_map]. rewrite <- E at 2. rewrite indices_of_cons_same, E.
        rewrite flat_map_indices_other by (apply Hnot; lia). reflexivity.
      * cbn [flat_map]. rewrite insert_index_skip.
        -- rewrite IH, indices_of_cons_other by (auto || (intros Hin; apply Hk; intros [E|H']; auto)).
           reflexivity.
        -- intros j Hj. apply indices_of_label in Hj. lia.
Qed.

Lemma argsort_blocks b idxs :
  fold_right (insert_index b) [] idxs
  = flat_map (fun v => indices_of b v idxs) (values_of b idxs).
Proof.
  induction idxs as [|i idxs IH]; [reflexivity|].
  cbn [fold_right values_of]. rewrite IH. fold (values_of b idxs).
  apply insert_index_blocks; [apply values_of_sorted|].
  intros H. apply indices_of_none. intros j Hj E. apply H.
  apply In_values_of. exists j. auto.
Qed.

(** The cut positions of a sequence of labels, and the slices between them. *)

Lemma changes_cons2 k0 k1 rest :
  changes (k0 :: k1 :: rest) = negb (k1 =? k0)%Z :: changes (k1 :: rest).
Proof. reflexivity. Qed.

Lemma nonzero_from_cons off x mask :
  nonzero_from off (x :: mask)
  = (if x then [off] else []) ++ nonzero_from (S off) mask.
Proof. unfold nonzero_from. simpl. destruct x; reflexivity. Qed.

Lemma nonzero_from_false off n mask :
  nonzero_from off (repeat false n ++ mask) = nonzero_from (n + off) mask.
Proof.
  revert off. induction n as [|n IH]; intros off; [reflexivity|].
  cbn [repeat app]. rewrite nonzero_from_cons, IH. simpl. f_equal. lia.
Qed.

Lemma nonzero_from_shift n off mask :
  nonzero_from (n + off) mask = map (Nat.add n) (nonzero_from off mask).
Proof.
  revert off. induction mask as [|x mask IH]; intros off; [reflexivity|].
  rewrite !nonzero_from_cons, map_app. rewrite <- IH.
  replace (S (n + off)) with (n + S off) by lia.
  destruct x; reflexivity.
Qed.

(** The mask after its leading [True], for a block of [m + 1] equal labels
    followed by labels that start with another one. *)
Lemma changes_block v m rest :
  (forall k r, rest = k :: r -> k <> v) ->
  changes (repeat v (S m) ++ rest) ++ [true]
  = repeat false m ++ match rest with
                      | [] => [true]
                      | _ => true :: changes rest ++ [true]
                      end.
Proof.
  intros H. induction m as [|m IH].
  - destruct rest as [|k r]; [reflexivity|].
    cbn [repeat app]. rewrite changes_cons2.
    destruct (Z.eqb_spec k v) as [E|_]; [exfalso; eapply H; eauto|]. reflexivity.
  - change (repeat v (S (S m)) ++ rest) with (v :: v :: repeat v m ++ rest).
    rewrite changes_cons2, Z.eqb_refl.
    change (v :: repeat v m ++ rest) with (repeat v (S m) ++ rest).
    cbn [negb app repeat]. cbn [repeat] in IH. rewrite <- IH. reflexivity.
Qed.

Lemma cuts_eq b_sorted : cuts b_sorted = 0 :: nonzero_from 1 (changes b_sorted ++ [true]).
Proof. reflexivity. Qed.

Lemma cuts_block v m rest :
  (forall k r, rest = k :: r -> k <> v) ->
  cuts (repeat v (S m) ++ rest)
  = 0 :: match rest with
         | [] => [S m]
         | _ => map (Nat.add (S m)) (cuts rest)
         end.
Proof.
  intros H. rewrite cuts_eq, changes_block by exact H. f_equal.
  rewrite nonzero_from_false. destruct rest as [|k r].
  - unfold nonzero_from. simpl. f_equal. lia.
  - rewrite cuts_eq. cbn [map]. rewrite nonzero_from_cons. cbn [app].
    f_equal; [lia|].
    rewrite <- nonzero_from_shift. f_equal; lia.
Qed.

Lemma between_cons2 (X : Type) (x y : X) c : between (x :: y :: c) = (x, y) :: between (y :: c).
Proof. reflexivity. Qed.

Lemma between_map (X Y : Type) (f : X -> Y) c :
  between (map f c) = map (fun p => (f (fst p), f (snd p))) (between c).
Proof.
  induction c as [|x [|y c] IH]; [reflexivity | reflexivity|].
  cbn [map]. rewrite !between_cons2. cbn [map fst snd]. f_equal. exact IH.
Qed.

Lemma slice_block (X : Type) (chunk rest : list X) :
  slice (chunk ++ rest) 0 (List.length chunk) = chunk.
Proof.
  unfold slice. rewrite Nat.sub_0_r. simpl.
  rewrite firstn_app, Nat.sub_diag, firstn_all. simpl. apply app_nil_r.
Qed.

Lemma slice_shift (X : Type) (chunk rest : list X) i j :
  slice (chunk ++ rest) (List.length chunk + i) (List.length chunk + j) = slice rest i j.
Proof.
  unfold slice. replace (List.length chunk + j - (List.length chunk + i)) with (j - i) by lia.
  f_equal. rewrite skipn_app.
  rewrite skipn_all2 by lia.
  replace (List.length chunk + i - List.length chunk) with i by lia. reflexivity.
Qed.

Lemma slices_last_block (X : Type) (chunk : list X) v :
  chunk <> [] -> slices chunk (repeat v (List.length chunk)) = [chunk].
Proof.
  intros Hc. destruct chunk as [|x c]; [congruence|].
  unfold slices. change (List.length (x :: c)) with (S (List.length c)).
  rewrite <- (app_nil_r (repeat v (S (List.length c)))).
  rewrite cuts_block by (intros k r E; discriminate E).
  cbn [between removelast tl combine map fst snd].
  change (S (List.length c)) with (List.length (x :: c)).
  rewrite <- (app_nil_r (x :: c)) at 1. rewrite slice_block. reflexivity.
Qed.

Lemma slices_cons_block (X : Type) (chunk rest_x : list X) v k r :
  chunk <> [] -> k <> v ->
  slices (chunk ++ rest_x) (repeat v (List.length chunk) ++ k :: r)
  = chunk :: slices rest_x (k :: r).
Proof.
  intros Hc Hk. destruct chunk as [|x c]; [congruence|].
  unfold slices. change (List.length (x :: c)) with (S (List.length c)).
  rewrite cuts_block by (intros k0 r0 E; injection E as <- _; exact Hk).
  rewrite (cuts_eq (k :: r)).
  set (C := nonzero_from 1 (changes (k :: r) ++ [true])).
  cbn [map]. rewrite Nat.add_0_r, between_cons2. cbn [map fst snd].
  change (S (List.length c)) with (List.length (x :: c)).
  rewrite slice_block. f_equal.
  replace (List.length (x :: c) :: map (Nat.add (List.length (x :: c))) C)
    with (map (Nat.add (List.length (x :: c))) (0 :: C))
    by (cbn [map]; rewrite Nat.add_0_r; reflexivity).
  rewrite between_map, map_map. apply map_ext. intros [i j]. cbn [fst snd].
  apply slice_shift.
Qed.

(** Cutting a sequence of blocks of equal labels, each block under another
    label than the next, gives the blocks back. *)
Lemma slices_blocks (X : Type) (bl : list (Z * list X)) :
  bl <> [] ->
  (forall p, In p bl -> snd p <> []) ->
  StronglySorted Z.lt (map fst bl) ->
  slices (flat_map snd bl) (flat_map (fun p => repeat (fst p) (List.length (snd p))) bl)
  = map snd bl.
Proof.
  induction bl as [|[v c] bl IH]; intros Hne Hc Hs; [congruence|].
  assert (Hcv : c <> []) by (apply (Hc (v, c)); left; reflexivity).
  cbn [flat_map map fst snd].
  destruct bl as [|[v' c'] bl'].
  - cbn [flat_map map]. rewrite !app_nil_r. apply slices_last_block. exact Hcv.
  - assert (Hc' : c' <> []) by (apply (Hc (v', c')); right; left; reflexivity).
    assert (Hlt : (v < v')%Z).
    { inversion Hs as [|? ? _ Hall]; subst. inversion Hall; subst. assumption. }
    assert (IH' := IH ltac:(discriminate)
                      (fun p Hp => Hc p (or_intror Hp))
                      ltac:(inversion Hs; assumption)).
    cbn [flat_map map fst snd] in IH' |- *.
    destruct c' as [|x' c'']; [congruence|].
    change (repeat v' (List.length (x' :: c''))) with (v' :: repeat v' (List.length c'')) in *.
    cbn [app] in IH' |- *.
    rewrite slices_cons_block by (exact Hcv || lia).
    f_equal. exact IH'.
Qed.

Lemma In_insert_index b i l j : In j (insert_index b i l) <-> j = i \/ In j l.
Proof.
  induction l as [|k l IH]; simpl.
  - split; [intros [E|[]]; auto | intros [E|[]]; auto].
  - destruct (nth i b 0 <=? nth k b 0)%Z; simpl; [split; intros; intuition auto|].
    rewrite IH. split; intros; intuition auto.
Qed.

Lemma In_argsort b j : In j (argsort b) <-> j < List.length b.
Proof.
  assert (H : forall idxs, In j (fold_right (insert_index b) [] idxs) <-> In j idxs).
  { induction idxs as [|i idxs IH]; simpl; [tauto|].
    rewrite In_insert_index, IH. split; intros [H|H]; auto. }
  unfold argsort. rewrite H, in_seq. lia.
Qed.

Lemma insert_index_perm b i l : Permutation (i :: l) (insert_index b i l).
Proof.
  induction l as [|j l IH]; simpl; [reflexivity|].
  destruct (nth i b 0 <=? nth j b 0)%Z; [reflexivity|].
  rewrite perm_swap. constructor. exact IH.
Qed.

Lemma argsort_perm b : Permutation (seq 0 (List.length b)) (argsort b).
Proof.
  unfold argsort. generalize (seq 0 (List.length b)) as idxs.
  induction idxs as [|i idxs IH]; simpl; [reflexivity|].
  rewrite <- insert_index_perm. constructor. exact IH.
Qed.

Lemma take_rows_Ok (A : Type) (a : list A) d sidx :
  (forall i, In i sidx -> i < List.length a) ->
  take_rows A a sidx = Ok (map (fun i => nth i a d) sidx).
Proof.
  induction sidx as [|i sidx IH]; intros H; [reflexivity|].
  cbn [take_rows map].
  rewrite (nth_error_nth' a d) by (apply H; left; reflexivity).
  rewrite IH by (intros j Hj; apply H; right; exact Hj). reflexivity.
Qed.

Lemma take_rows_IndexError (A : Type) (a : list A) sidx i :
  In i sidx -> List.length a <= i ->
  take_rows A a sidx = Raise (OtherError "IndexError").
Proof.
  induction sidx as [|j sidx IH]; intros Hin Hi; [destruct Hin|].
  cbn [take_rows]. destruct (nth_error a j) as [x|] eqn:E; [|reflexivity].
  destruct Hin as [->|Hin].
  - apply nth_error_None in Hi. congruence.
  - rewrite IH by assumption. reflexivity.
Qed.

Lemma map_of_flat_map (X Y W : Type) (g : Y -> W) (f : X -> list Y) l :
  map g (flat_map f l) = flat_map (fun x => map g (f x)) l.
Proof.
  induction l as [|x l IH]; simpl; [reflexivity|].
  rewrite map_app, IH. reflexivity.
Qed.

Lemma flat_map_of_map (X Y W : Type) (g : X -> Y) (f : Y -> list W) l :
  flat_map f (map g l) = flat_map (fun x => f (g x)) l.
Proof.
  induction l as [|x l IH]; simpl; [reflexivity|]. rewrite IH. reflexivity.
Qed.

Lemma map_label_indices b v idxs :
  map (fun i => nth i b 0%Z) (indices_of b v idxs)
  = repeat v (List.length (indices_of b v idxs)).
Proof.
  unfold indices_of. induction idxs as [|i idxs IH]; simpl; [reflexivity|].
  destruct (Z.eqb_spec (nth i b 0%Z) v) as [E|_]; [|exact IH].
  simpl. rewrite IH, E. reflexivity.
Qed.

Lemma combine_nth_seq (A : Type) (a : list A) (b : list Z) d :
  List.length a = List.length b ->
  combine a b = map (fun i => (nth i a d, nth i b 0%Z)) (seq 0 (List.length b)).
Proof.
  revert b. induction a as [|x a IH]; intros [|y b] H; simpl in H; try discriminate;
    [reflexivity|].
  cbn [combine List.length seq map nth]. f_equal.
  rewrite <- seq_shift, map_map. apply IH. lia.
Qed.

Lemma filter_of_map (X Y : Type) (f : X -> Y) (p : Y -> bool) l :
  filter p (map f l) = map f (filter (fun x => p (f x)) l).
Proof.
  induction l as [|x l IH]; simpl; [reflexivity|].
  rewrite IH. destruct (p (f x)); reflexivity.
Qed.

Lemma labelled_indices (A : Type) (a : list A) (b : list Z) d v :
  List.length a = List.length b ->
  labelled a b v = map (fun i => nth i a d) (indices_of b v (seq 0 (List.length b))).
Proof.
  intros H. unfold labelled, indices_of.
  rewrite (combine_nth_seq A a b d H), filter_of_map, map_map. reflexivity.
Qed.

Lemma In_values_of_seq b v : In v (values_of b (seq 0 (List.length b))) <-> In v b.
Proof.
  rewrite In_values_of. split.
  - intros (j & Hj & <-). apply nth_In. apply in_seq in Hj. lia.
  - intros H. destruct (In_nth b v 0%Z H) as (j & Hj & E).
    exists j. split; [apply in_seq; lia | exact E].
Qed.

(** The groups in terms of the blocks of indices. *)
Lemma groupby_blocks (A : Type) (a : list A) (b : list Z) d :
  List.length a = List.length b -> b <> [] ->
  groupby A a b
  = Ok (map (fun v => map (fun i => nth i a d) (indices_of b v (seq 0 (List.length b))))
            (values_of b (seq 0 (List.length b)))).
Proof.
  intros Hlen Hb. unfold groupby.
  rewrite (take_rows_Ok A a d) by (intros i Hi; apply In_argsort in Hi; lia).
  cbn [bind]. f_equal.
  change (map (fun ij => slice ?xs (fst ij) (snd ij)) (combine (removelast ?c) (tl ?c)))
    with (map (fun ij => slice xs (fst ij) (snd ij)) (between c)).
  unfold argsort. rewrite argsort_blocks.
  set (n := List.length b). set (vs := values_of b (seq 0 n)).
  rewrite !map_of_flat_map.
  pose (bl := map (fun v => (v, map (fun i => nth i a d) (indices_of b v (seq 0 n)))) vs).
  replace (flat_map (fun x => map (fun i => nth i a d) (indices_of b x (seq 0 n))) vs)
    with (flat_map snd bl) by (unfold bl; rewrite flat_map_of_map; reflexivity).
  replace (flat_map (fun x => map (fun i => nth i b 0%Z) (indices_of b x (seq 0 n))) vs)
    with (flat_map (fun p => repeat (fst p) (List.length (snd p))) bl).
  2:{ unfold bl. rewrite flat_map_of_map. apply flat_map_ext. intros v. cbn [fst snd].
      rewrite length_map, map_label_indices. reflexivity. }
  change (map (fun ij => slice (flat_map snd bl) (fst ij) (snd ij)) (between (flatnonzero (true :: changes ?bs ++ [true]))))
    with (slices (flat_map snd bl) bs).
  rewrite slices_blocks.
  - unfold bl. rewrite map_map. reflexivity.
  - unfold bl. destruct vs as [|v vs'] eqn:E; [|discriminate].
    exfalso. destruct b as [|y b']; [congruence|].
    assert (Hin : In y vs) by (apply In_values_of_seq; left; reflexivity).
    rewrite E in Hin. destruct Hin.
  - intros p Hp. unfold bl in Hp. apply in_map_iff in Hp. destruct Hp as (v & <- & Hv).
    cbn [snd]. apply In_values_of in Hv. destruct Hv as (j & Hj & E).
    intros Hnil. apply map_eq_nil in Hnil.
    assert (Hin : In j (indices_of b v (seq 0 n))).
    { unfold indices_of. apply filter_In. split; [exact Hj | apply Z.eqb_eq; exact E]. }
    rewrite Hnil in Hin. destruct Hin.
  - unfold bl. rewrite map_map. cbn [fst]. rewrite map_id. apply values_of_sorted.
Qed.

(** X16.  [groupby] with as many rows as labels, at least one: one group for
    every distinct label, the labels in increasing order, each group the
    rows under its label in the order they have in [a]. *)
Theorem groupby_groups :
  forall (A : Type) (a : list A) (b : list Z),
    List.length a = List.length b -> b <> [] ->
    exists vs,
      StronglySorted Z.lt vs
      /\ (forall v, In v vs <-> In v b)
      /\ groupby A a b = Ok (map (labelled a b) vs).
Proof.
  intros A a b Hlen Hb.
  destruct a as [|d a']; [destruct b; [congruence | discriminate]|].
  exists (values_of b (seq 0 (List.length b))). split; [|split].
  - apply values_of_sorted.
  - apply In_values_of_seq.
  - rewrite (groupby_blocks A (d :: a') b d Hlen Hb). f_equal.
    apply map_ext. intros v. symmetry. apply labelled_indices. exact Hlen.
Qed.

Lemma groupby_groups_witness :
  exists vs,
    StronglySorted Z.lt vs
    /\ (forall v, In v vs <-> In v [2; 1; 2; 1]%Z)
    /\ groupby string ["a"; "b"; "c"; "d"] [2; 1; 2; 1]%Z
       = Ok (map (labelled ["a"; "b"; "c"; "d"] [2; 1; 2; 1]%Z) vs).
Proof.
  apply (groupby_groups string ["a"; "b"; "c"; "d"] [2; 1; 2; 1]%Z); [reflexivity | discriminate].
Defined.

(** X17.  Every row lands in exactly one group, and no group is empty. *)
Theorem groupby_partition :
  forall (A : Type) (a : list A) (b : list Z),
    List.length a = List.length b -> b <> [] ->
    exists groups,
      groupby A a b = Ok groups
      /\ Permutation (concat groups) a
      /\ Forall (fun g => g <> []) groups.
Proof.
  intros A a b Hlen Hb.
  destruct a as [|d a']; [destruct b; [congruence | discriminate]|].
  set (a := d :: a') in *.
  eexists. split; [apply (groupby_blocks A a b d Hlen Hb)|]. split.
  - rewrite <- flat_map_concat_map.
    rewrite <- (map_of_flat_map _ _ _ (fun i => nth i a d)).
    rewrite <- argsort_blocks. fold (argsort b).
    rewrite <- (argsort_perm b).
    replace (map (fun i => nth i a d) (seq 0 (List.length b))) with a; [reflexivity|].
    rewrite <- Hlen. clear. induction a as [|x a IH]; [reflexivity|].
    cbn [List.length seq map nth]. f_equal.
    rewrite <- seq_shift, map_map. exact IH.
  - apply Forall_forall. intros g Hg. apply in_map_iff in Hg.
    destruct Hg as (v & <- & Hv). apply In_values_of in Hv. destruct Hv as (j & Hj & E).
    intros Hnil. apply map_eq_nil in Hnil.
    assert (Hin : In j (indices_of b v (seq 0 (List.length b)))).
    { unfold indices_of. apply filter_In. split; [exact Hj | apply Z.eqb_eq; exact E]. }
    rewrite Hnil in Hin. destruct Hin.
Qed.

Lemma groupby_partition_witness :
  exists groups,
    groupby string ["a"; "b"; "c"; "d"] [2; 1; 2; 1]%Z = Ok groups
    /\ Permutation (concat groups) ["a"; "b"; "c"; "d"]
    /\ Forall (fun g => g <> []) groups.
Proof.
  apply (groupby_partition string ["a"; "b"; "c"; "d"] [2; 1; 2; 1]%Z); [reflexivity | discriminate].
Defined.

(** X18.  The edges of [groupby]: without labels the result is one empty group;
    with fewer rows than labels the indexing fails; rows beyond the labels
    are left out. *)
Theorem groupby_edges :
  forall (A : Type) (a : list A) (b : list Z),
    groupby A a [] = Ok [[]]
    /\ (List.length a < List.length b ->
        groupby A a b = Raise (OtherError "IndexError"))
    /\ (List.length b <= List.length a ->
        groupby A a b = groupby A (firstn (List.length b) a) b).
Proof.
  intros A a b. split; [reflexivity | split].
  - intros H. unfold groupby.
    rewrite (take_rows_IndexError A a (argsort b) (List.length b - 1)); [reflexivity | | lia].
    apply In_argsort. lia.
  - intros H. unfold groupby.
    assert (E : take_rows A (firstn (List.length b) a) (argsort b) = take_rows A a (argsort b)).
    { assert (Hin : forall i, In i (argsort b) -> i < List.length b)
        by (intros i Hi; apply In_argsort; exact Hi).
      revert Hin. generalize (argsort b) as sidx.
      induction sidx as [|i sidx IH]; intros Hin; [reflexivity|].
      cbn [take_rows]. rewrite nth_error_firstn.
      destruct (Nat.ltb_spec i (List.length b)) as [_|Hge];
        [|specialize (Hin i (or_introl eq_refl)); lia].
      rewrite IH by (intros j Hj; apply Hin; right; exact Hj). reflexivity. }
    rewrite E. reflexivity.
Qed.

(** ** More on the container codec *)

Lemma ascii_compare_refl c : Ascii.compare c c = Eq.
Proof.
  pose proof (Ascii.compare_antisym c c) as H.
  destruct (Ascii.compare c c); (reflexivity || discriminate).
Qed.

Lemma leb_append s t : String.leb s (s ++ t) = true.
Proof.
  unfold String.leb. induction s as [|c s IH]; simpl.
  - destruct t; reflexivity.
  - rewrite ascii_compare_refl. exact IH.
Qed.

Lemma prefix_down_app_up k :
  prefix "_down" k = false -> prefix "_down" (k ++ "_up") = false.
Proof.
  intros Hp. destruct (prefix "_down" (k ++ "_up")) eqn:E; [|reflexivity].
  exfalso. apply prefix_iff in E. destruct E as [t E].
  destruct k as [|c1 [|c2 [|c3 [|c4 [|c5 k]]]]]; simpl in E; try discriminate E.
  injection E as -> -> -> -> -> _.
  assert (H : prefix "_down" (String "_" (String "d" (String "o" (String "w" (String "n" k))))) = true)
    by (apply prefix_iff; exists k; reflexivity).
  congruence.
Qed.

Lemma contains_down_app_up k :
  contains "_down" k = false -> contains "_down" (k ++ "_up") = false.
Proof.
  induction k as [|c k IH]; intros H; [reflexivity|].
  change (String c k ++ "_up")%string with (String c (k ++ "_up")).
  cbn [contains] in H |- *. apply orb_false_elim in H. destruct H as [Hp Hc].
  rewrite IH by exact Hc. rewrite orb_false_r.
  apply (prefix_down_app_up (String c k)). exact Hp.
Qed.

Lemma marked_not_reserved k :
  marked k = true -> k <> "structure" /\ k <> "scattering_labels".
Proof. intros H. split; intros ->; discriminate H. Qed.

Section MeshFacts2.
Variables F Structure : Type.
Variable to_json : Structure -> string.
Variable has_h5_type : ndarray F -> bool.
Variable from_str : string -> result Structure.
Variable astype_U13_other : value F Structure -> result (value F Structure).
Variable decode_other : value F Structure -> result string.

#[local] Abbreviation value := (value F Structure).
#[local] Abbreviation dataset := (dataset F).
#[local] Abbreviation h5file := (h5file F).
#[local] Abbreviation add_data := (add_data F Structure to_json has_h5_type).
#[local] Abbreviation write_items := (write_items F Structure to_json has_h5_type).
#[local] Abbreviation write_entry := (write_entry F Structure to_json has_h5_type).
#[local] Abbreviation write_mesh_data := (write_mesh_data F Structure to_json has_h5_type).
#[local] Abbreviation read_data := (read_data F Structure from_str astype_U13_other decode_other).
#[local] Abbreviation load_items := (load_items F Structure from_str astype_U13_other decode_other).
#[local] Abbreviation load_mesh_data := (load_mesh_data F Structure from_str astype_U13_other decode_other).
#[local] Abbreviation storable := (storable F Structure has_h5_type).
#[local] Abbreviation encoded := (encoded F Structure to_json).
#[local] Abbreviation decoded := (@decoded F Structure).
#[local] Abbreviation h5_get := (@h5_get F Structure).

Lemma load_mesh_data_one (e : string * dataset) :
  load_mesh_data [e] = load_items [] [e].
Proof. reflexivity. Qed.

Lemma write_one k v :
  storable v -> k <> "" -> write_mesh_data [(k, v)] = Ok [(k, encoded v)].
Proof.
  intros Hv Hk. unfold util.write_mesh_data. cbn [util.write_items].
  replace (match v with
           | VDict d => write_spins F Structure to_json has_h5_type [] k d
           | _ => add_data [] k v
           end)
    with (add_data [] k v) by (destruct Hv; reflexivity).
  rewrite add_data_storable by (exact Hv || exact Hk || reflexivity). reflexivity.
Qed.

(** Reading one entry whose name ends in a spin marker. *)
Lemma load_items_spin_entry (m : sdict value) k spin (d : dataset) rest :
  contains "_up" k = false \/ spin = Spin.down ->
  contains "_down" k = false ->
  k <> "structure" -> k <> "scattering_labels" ->
  shas m k = false ->
  load_items m ((k ++ String "_" (Spin.name spin), d)%string :: rest)
  = load_items (m ++ [(k, VDict [(spin, h5_get d)])]) rest.
Proof.
  intros Hu Hd Hs Hl Hm.
  cbn [util.load_items].
  rewrite contains_spin_name, last_part_spin, str_to_spin_name. cbn [bind].
  assert (E : replace ("_" ++ Spin.name spin) "" (k ++ String "_" (Spin.name spin)) = k).
  { destruct spin; cbn [Spin.name String.append].
    - destruct Hu as [Hu|Hu]; [|discriminate].
      apply replace_suffix; [discriminate | apply no_straddle_up | exact Hu].
    - apply replace_suffix; [discriminate | apply no_straddle_down | exact Hd]. }
  rewrite E, Hm, read_data_unreserved by assumption. cbn [bind].
  unfold set_spin. rewrite sset_fresh, sget_fresh by exact Hm. cbn [bind].
  rewrite sset_last by exact Hm. reflexivity.
Qed.

Lemma write_items_fails f items e :
  In e items -> (forall f', is_Ok (write_entry f' e) = false) ->
  is_Ok (write_items f items) = false.
Proof.
  revert f. induction items as [|e0 items IH]; intros f Hin He; [destruct Hin|].
  rewrite write_items_cons.
  destruct Hin as [->|Hin].
  - specialize (He f). destruct (write_entry f e); [discriminate | reflexivity].
  - destruct (write_entry f e0) as [f'|]; [|reflexivity]. cbn [bind]. apply IH; assumption.
Qed.
End MeshFacts2.

(** X5.  A spin mapping with both entries, two storable values, under a plain
    name [k] is written as [k_up] and [k_up_down] and read back split over
    two keys: [k] holds the spin-up entry alone, and a key [k_up] that was
    never written holds the spin-down entry. *)
Theorem spin_pair_read_back_split :
  forall (F Structure : Type) (to_json : Structure -> string)
         (has_h5_type : ndarray F -> bool)
         (from_str : string -> result Structure)
         (astype_U13_other : value F Structure -> result (value F Structure))
         (decode_other : value F Structure -> result string)
         (k : string) (a b : value F Structure),
    plain_name k = true -> storable F Structure has_h5_type a -> storable F Structure has_h5_type b ->
    exists f,
      write_mesh_data F Structure to_json has_h5_type [(k, VDict [(Spin.up, a); (Spin.down, b)])] = Ok f
      /\ keys f = [(k ++ "_up")%string; (k ++ "_up_down")%string]
      /\ load_mesh_data F Structure from_str astype_U13_other decode_other f
         = Ok [(k, VDict [(Spin.up, decoded F Structure a)]);
               ((k ++ "_up")%string, VDict [(Spin.down, decoded F Structure b)])].
Proof.
  intros F Structure to_json has_h5_type from_str astype_U13_other decode_other k a b Hk Ha Hb.
  destruct (plain_name_spec k Hk) as (Hs & Hl & Hu & Hd).
  eexists. split; [apply write_two_spins; assumption|].
  cbn [Spin.name String.append]. split.
  - cbn [keys map fst]. rewrite append_assoc. reflexivity.
  - unfold load_mesh_data. cbn [h5_items fold_right insert_by_name fst].
    rewrite leb_append.
    rewrite (load_items_spin_entry F Structure from_str astype_U13_other decode_other
               [] k Spin.up) by (auto || reflexivity).
    cbn [app].
    assert (Hm : marked (k ++ "_up") = true) by (apply (marked_spin_name k Spin.up)).
    destruct (marked_not_reserved _ Hm) as [Hs' Hl'].
    rewrite (load_items_spin_entry F Structure from_str astype_U13_other decode_other
               [(k, VDict [(Spin.up, h5_get F Structure (encoded F Structure to_json a))])]
               (k ++ "_up") Spin.down).
    + cbn [util.load_items app]. rewrite !(h5_get_encoded F Structure to_json has_h5_type) by assumption. reflexivity.
    + right. reflexivity.
    + apply contains_down_app_up. exact Hd.
    + exact Hs'.
    + exact Hl'.
    + unfold shas, has_key, sget. cbn [getitem].
      destruct (String.eqb_spec (k ++ "_up") k) as [E|_]; [|reflexivity].
      exfalso. revert E. apply append_neq_longer. discriminate.
Qed.

Lemma spin_pair_read_back_split_witness :
  plain_name "energies" = true
  /\ exists f,
       Sample.write_mesh_data
         [("energies", VDict [(Spin.up, VArray (mk_ndarray [1] [5%Z]));
                              (Spin.down, VArray (mk_ndarray [1] [7%Z]))])] = Ok f
       /\ keys f = ["energies_up"; "energies_up_down"]
       /\ Sample.load_mesh_data f
          = Ok [("energies", VDict [(Spin.up, VArray (mk_ndarray [1] [5%Z]))]);
                ("energies_up", VDict [(Spin.down, VArray (mk_ndarray [1] [7%Z]))])].
Proof.
  split; [reflexivity|].
  apply (spin_pair_read_back_split Z string Sample.to_json Sample.has_h5_type Sample.from_str
           Sample.astype_U13_other Sample.decode_other "energies"
           (VArray (mk_ndarray [1] [5%Z])) (VArray (mk_ndarray [1] [7%Z])));
    [reflexivity | constructor; (discriminate || reflexivity)
     | constructor; (discriminate || reflexivity)].
Defined.

(** X21.  A structure is stored under the fixed name ["structure"], whatever key
    it has in the mapping, and read back under that name; a mapping with
    two structures cannot be written. *)
Theorem structure_stored_under_fixed_name :
  forall (F Structure : Type) (to_json : Structure -> string)
         (has_h5_type : ndarray F -> bool)
         (from_str : string -> result Structure)
         (astype_U13_other : value F Structure -> result (value F Structure))
         (decode_other : value F Structure -> result string)
         (k : string) (s : Structure),
    is_ascii (to_json s) = true ->
    write_mesh_data F Structure to_json has_h5_type [(k, VStructure s)]
    = Ok [("structure", DBytes (to_json s))]
    /\ load_mesh_data F Structure from_str astype_U13_other decode_other
         [("structure", DBytes (to_json s))]
       = bind (from_str (to_json s)) (fun s' => Ok [("structure", VStructure s')])
    /\ forall k' s', is_Ok (write_mesh_data F Structure to_json has_h5_type
                              [(k, VStructure s); (k', VStructure s')]) = false.
Proof.
  intros F Structure to_json has_h5_type from_str astype_U13_other decode_other k s Ha.
  split; [|split].
  - unfold write_mesh_data. cbn [write_items add_data]. rewrite Ha. reflexivity.
  - unfold load_mesh_data. cbn [h5_items fold_right insert_by_name].
    rewrite load_items_unmarked by reflexivity.
    rewrite read_data_structure. cbn [h5_get decode]. rewrite Ha. cbn [bind].
    destruct (from_str (to_json s)); reflexivity.
  - intros k' s'. unfold write_mesh_data. cbn [write_items add_data]. rewrite Ha.
    cbn [set_entry shas has_key sget getitem bind app].
    destruct (is_ascii (to_json s')); reflexivity.
Qed.

Lemma structure_stored_under_fixed_name_witness :
  Sample.write_mesh_data [("unit_cell", VStructure "{}")] = Ok [("structure", DBytes "{}")]
  /\ Sample.load_mesh_data [("structure", DBytes "{}")] = Ok [("structure", VStructure "{}")].
Proof.
  destruct (structure_stored_under_fixed_name Z string Sample.to_json Sample.has_h5_type Sample.from_str
              Sample.astype_U13_other Sample.decode_other "unit_cell" "{}" eq_refl)
    as (H1 & H2 & _).
  split; [exact H1 | exact H2].
Defined.

(** X22.  A storable value under the name of a root entry that carries a spin
    marker ([_up] or [_down]) without ending in [_up] or [_down] is
    written, and the container can then not be read: the part of the name
    after its last underscore is looked up as a spin, a KeyError. *)
Theorem marked_name_without_spin_unreadable :
  forall (F Structure : Type) (to_json : Structure -> string)
         (has_h5_type : ndarray F -> bool)
         (from_str : string -> result Structure)
         (astype_U13_other : value F Structure -> result (value F Structure))
         (decode_other : value F Structure -> result string)
         (k : string) (v : value F Structure),
    storable F Structure has_h5_type v ->
    entry_name k = true -> marked k = true ->
    last_part (split "_"%char k) <> "up" -> last_part (split "_"%char k) <> "down" ->
    write_mesh_data F Structure to_json has_h5_type [(k, v)] = Ok [(k, encoded F Structure to_json v)]
    /\ load_mesh_data F Structure from_str astype_U13_other decode_other
         [(k, encoded F Structure to_json v)]
       = Raise (KeyError (last_part (split "_"%char k))).
Proof.
  intros F Structure to_json has_h5_type from_str astype_U13_other decode_other k v
         Hv He Hm Hu Hd.
  split; [apply write_one; [exact Hv | apply entry_name_nonempty; exact He]|].
  unfold load_mesh_data. cbn [h5_items fold_right insert_by_name load_items].
  unfold marked in Hm. rewrite Hm. unfold str_to_spin.
  apply String.eqb_neq in Hu, Hd. rewrite Hu, Hd. reflexivity.
Qed.

Lemma marked_name_without_spin_witness :
  marked "kpoint_updates" = true
  /\ Sample.write_mesh_data [("kpoint_updates", VNum 4%Z)] = Ok [("kpoint_updates", DNum 4%Z)]
  /\ Sample.load_mesh_data [("kpoint_updates", DNum 4%Z)] = Raise (KeyError "updates").
Proof.
  split; [reflexivity|].
  apply (marked_name_without_spin_unreadable Z string Sample.to_json Sample.has_h5_type Sample.from_str
           Sample.astype_U13_other Sample.decode_other "kpoint_updates" (VNum 4%Z)).
  - constructor. reflexivity.
  - reflexivity.
  - reflexivity.
  - vm_compute. discriminate.
  - vm_compute. discriminate.
Defined.

(** X23.  The container does not tell a plain entry [k_up] from the spin-up
    entry of a mapping under a plain name [k]: with a storable value both
    are written as the one entry [k_up], which is read back as the spin
    mapping; the two together cannot be written. *)
Theorem spin_suffix_is_ambiguous :
  forall (F Structure : Type) (to_json : Structure -> string)
         (has_h5_type : ndarray F -> bool)
         (from_str : string -> result Structure)
         (astype_U13_other : value F Structure -> result (value F Structure))
         (decode_other : value F Structure -> result string)
         (k : string) (spin : Spin.t) (v w : value F Structure),
    plain_name k = true -> storable F Structure has_h5_type v -> storable F Structure has_h5_type w ->
    let name := (k ++ "_" ++ Spin.name spin)%string in
    write_mesh_data F Structure to_json has_h5_type [(name, v)] = Ok [(name, encoded F Structure to_json v)]
    /\ write_mesh_data F Structure to_json has_h5_type [(k, VDict [(spin, v)])]
       = Ok [(name, encoded F Structure to_json v)]
    /\ load_mesh_data F Structure from_str astype_U13_other decode_other
         [(name, encoded F Structure to_json v)]
       = Ok [(k, VDict [(spin, decoded F Structure v)])]
    /\ is_Ok (write_mesh_data F Structure to_json has_h5_type
                [(k, VDict [(spin, v)]); (name, w)]) = false.
Proof.
  intros F Structure to_json has_h5_type from_str astype_U13_other decode_other k spin v w Hk Hv Hw name.
  destruct (plain_name_spec k Hk) as (Hs & Hl & Hu & Hd).
  assert (Hne : name <> "") by apply spin_name_nonempty.
  split; [apply write_one; assumption|]. split; [|split].
  - unfold write_mesh_data. cbn [write_items write_spins].
    rewrite add_data_storable by (exact Hv || exact Hne || reflexivity). reflexivity.
  - unfold load_mesh_data. cbn [h5_items fold_right insert_by_name].
    unfold name. cbn [String.append].
    rewrite (load_items_spin_entry F Structure from_str astype_U13_other decode_other [] k spin)
      by (auto || reflexivity).
    cbn [load_items app]. rewrite (h5_get_encoded F Structure to_json has_h5_type) by exact Hv. reflexivity.
  - unfold write_mesh_data. cbn [write_items write_spins].
    rewrite add_data_storable by (exact Hv || exact Hne || reflexivity). cbn [bind app].
    fold name.
    replace (match w with VDict d => write_spins F Structure to_json has_h5_type
                                       [(name, encoded F Structure to_json v)] name d
                     | _ => add_data F Structure to_json has_h5_type
                              [(name, encoded F Structure to_json v)] name w end)
      with (add_data F Structure to_json has_h5_type [(name, encoded F Structure to_json v)] name w)
      by (destruct Hw; reflexivity).
    assert (Hh : shas [(name, encoded F Structure to_json v)] name = true).
    { unfold shas, has_key, sget. cbn [getitem]. rewrite String.eqb_refl. reflexivity. }
    destruct Hw; cbn [add_data]; unfold create_dataset; rewrite Hh;
      repeat match goal with
             | |- context [if ?c then _ else _] => destruct c
             end; reflexivity.
Qed.

Lemma spin_suffix_is_ambiguous_witness :
  Sample.write_mesh_data [("velocities_up", VNum 2%Z)] = Ok [("velocities_up", DNum 2%Z)]
  /\ Sample.write_mesh_data [("velocities", VDict [(Spin.up, VNum 2%Z)])]
     = Ok [("velocities_up", DNum 2%Z)]
  /\ Sample.load_mesh_data [("velocities_up", DNum 2%Z)]
     = Ok [("velocities", VDict [(Spin.up, VNum 2%Z)])]
  /\ is_Ok (Sample.write_mesh_data [("velocities", VDict [(Spin.up, VNum 2%Z)]);
                                    ("velocities_up", VNum 3%Z)]) = false.
Proof.
  apply (spin_suffix_is_ambiguous Z string Sample.to_json Sample.has_h5_type Sample.from_str
           Sample.astype_U13_other Sample.decode_other "velocities" Spin.up
           (VNum 2%Z) (VNum 3%Z));
    [reflexivity | constructor; reflexivity | constructor; reflexivity].
Defined.

(** X24.  Scattering labels are read back cut to their first 13 characters, as
    a text array, which [write_mesh_data] cannot store again. *)
Theorem scattering_labels_cut_to_13 :
  forall (F Structure : Type) (to_json : Structure -> string)
         (has_h5_type : ndarray F -> bool)
         (from_str : string -> result Structure)
         (astype_U13_other : value F Structure -> result (value F Structure))
         (decode_other : value F Structure -> result string)
         (x : string) (l : list string),
    Forall (fun s => is_ascii s = true /\ rstrip_nul s = s) (x :: l) ->
    write_mesh_data F Structure to_json has_h5_type [("scattering_labels", VTextList (x :: l))]
    = Ok [("scattering_labels", DBytesArray (array1 (x :: l)) false)]
    /\ load_mesh_data F Structure from_str astype_U13_other decode_other
         [("scattering_labels", DBytesArray (array1 (x :: l)) false)]
       = Ok [("scattering_labels",
              VTextArray (mk_ndarray [List.length (x :: l)] (map (take 13) (x :: l))))]
    /\ write_mesh_data F Structure to_json has_h5_type
         [("scattering_labels",
           VTextArray (mk_ndarray [List.length (x :: l)] (map (take 13) (x :: l))))]
       = Raise (OtherError "TypeError").
Proof.
  intros F Structure to_json has_h5_type from_str astype_U13_other decode_other x l Hall.
  assert (Ha : forallb is_ascii (x :: l) = true).
  { apply forallb_forall. intros s Hs. rewrite Forall_forall in Hall. apply Hall. exact Hs. }
  assert (Hn : map rstrip_nul (x :: l) = x :: l).
  { rewrite <- (map_id (x :: l)) at 2. apply map_ext_in.
    intros s Hs. rewrite Forall_forall in Hall. apply Hall. exact Hs. }
  split; [|split].
  - unfold write_mesh_data. cbn [write_items add_data]. rewrite Ha, Hn. reflexivity.
  - unfold load_mesh_data. cbn [h5_items fold_right insert_by_name].
    rewrite load_items_unmarked by reflexivity.
    rewrite read_data_labels. cbn [h5_get astype_U13 array1 data shape].
    rewrite Ha. reflexivity.
  - reflexivity.
Qed.

Lemma scattering_labels_cut_witness :
  Sample.write_mesh_data [("scattering_labels", VTextList ["acoustic_deformation"; "IMP"])]
  = Ok [("scattering_labels", DBytesArray (array1 ["acoustic_deformation"; "IMP"]) false)]
  /\ Sample.load_mesh_data
       [("scattering_labels", DBytesArray (array1 ["acoustic_deformation"; "IMP"]) false)]
     = Ok [("scattering_labels", VTextArray (mk_ndarray [2] ["acoustic_defo"; "IMP"]))].
Proof.
  destruct (scattering_labels_cut_to_13 Z string Sample.to_json Sample.has_h5_type Sample.from_str
              Sample.astype_U13_other Sample.decode_other "acoustic_deformation" ["IMP"])
    as (H1 & H2 & _).
  - repeat constructor.
  - split; [exact H1 | exact H2].
Defined.

(** X25.  A list of strings under a plain name comes back as an array of byte
    strings: only the entry ["scattering_labels"] is decoded. *)
Theorem text_list_read_back_as_bytes :
  forall (F Structure : Type) (to_json : Structure -> string)
         (has_h5_type : ndarray F -> bool)
         (from_str : string -> result Structure)
         (astype_U13_other : value F Structure -> result (value F Structure))
         (decode_other : value F Structure -> result string)
         (k x : string) (l : list string),
    plain_name k = true ->
    forallb is_ascii (x :: l) = true ->
    write_mesh_data F Structure to_json has_h5_type [(k, VTextList (x :: l))]
    = Ok [(k, DBytesArray (array1 (map rstrip_nul (x :: l))) false)]
    /\ load_mesh_data F Structure from_str astype_U13_other decode_other
         [(k, DBytesArray (array1 (map rstrip_nul (x :: l))) false)]
       = Ok [(k, VBytesArray (array1 (map rstrip_nul (x :: l))))].
Proof.
  intros F Structure to_json has_h5_type from_str astype_U13_other decode_other k x l Hk Ha.
  destruct (plain_name_spec k Hk) as (Hs & Hl & Hu & Hd).
  destruct (plain_name_entry k Hk) as (_ & Hne & _).
  split.
  - unfold write_mesh_data. cbn [write_items add_data]. rewrite Ha.
    rewrite create_dataset_Ok by (reflexivity || assumption). reflexivity.
  - unfold load_mesh_data. cbn [h5_items fold_right insert_by_name].
    rewrite load_items_unmarked by (unfold marked; rewrite Hu, Hd; reflexivity).
    rewrite read_data_plain by exact Hk. reflexivity.
Qed.

Lemma text_list_read_back_as_bytes_witness :
  Sample.write_mesh_data [("band_names", VTextList ["vb"; "cb"])]
  = Ok [("band_names", DBytesArray (array1 ["vb"; "cb"]) false)]
  /\ Sample.load_mesh_data [("band_names", DBytesArray (array1 ["vb"; "cb"]) false)]
     = Ok [("band_names", VBytesArray (array1 ["vb"; "cb"]))].
Proof.
  apply (text_list_read_back_as_bytes Z string Sample.to_json Sample.has_h5_type Sample.from_str
           Sample.astype_U13_other Sample.decode_other "band_names" "vb" ["cb"]);
    reflexivity.
Defined.

(** X26.  Empty containers in a mesh mapping: an empty list or tuple makes the
    whole write fail, and an empty spin mapping is not written at all. *)
Theorem write_mesh_data_empty_values :
  forall (F Structure : Type) (to_json : Structure -> string)
         (has_h5_type : ndarray F -> bool)
         (mesh_data : sdict (value F Structure)) (k : string),
    (In (k, VNumList []) mesh_data \/ In (k, VTextList []) mesh_data ->
     is_Ok (write_mesh_data F Structure to_json has_h5_type mesh_data) = false)
    /\ write_mesh_data F Structure to_json has_h5_type [(k, VNumList [])] = Raise (OtherError "IndexError")
    /\ write_mesh_data F Structure to_json has_h5_type ((k, VDict []) :: mesh_data)
       = write_mesh_data F Structure to_json has_h5_type mesh_data.
Proof.
  intros F Structure to_json has_h5_type mesh_data k. split; [|split; reflexivity].
  intros [H|H]; unfold write_mesh_data;
    apply (write_items_fails F Structure to_json has_h5_type [] mesh_data _ H); reflexivity.
Qed.

Lemma compare_append_common k a b :
  String.compare (k ++ a) (k ++ b) = String.compare a b.
Proof.
  induction k as [|c k IH]; [reflexivity|].
  simpl. rewrite ascii_compare_refl. exact IH.
Qed.

Lemma leb_down_up k : String.leb (k ++ "_down") (k ++ "_up") = true.
Proof. unfold String.leb. rewrite compare_append_common. reflexivity. Qed.

Lemma leb_up_down k : String.leb (k ++ "_up") (k ++ "_down") = false.
Proof. unfold String.leb. rewrite compare_append_common. reflexivity. Qed.

Section MeshFacts3.
Variables F Structure : Type.
Variable from_str : string -> result Structure.
Variable astype_U13_other : value F Structure -> result (value F Structure).
Variable decode_other : value F Structure -> result string.

#[local] Abbreviation value := (value F Structure).
#[local] Abbreviation dataset := (dataset F).
#[local] Abbreviation load_items := (load_items F Structure from_str astype_U13_other decode_other).
#[local] Abbreviation h5_get := (@h5_get F Structure).

(** Reading an entry whose name ends in a spin marker, when the mapping
    for its key is there already. *)
Lemma load_items_spin_entry_again (m : sdict value) k spin (d : dataset) dd rest :
  contains "_up" k = false \/ spin = Spin.down ->
  contains "_down" k = false ->
  k <> "structure" -> k <> "scattering_labels" ->
  sget m k = Some (VDict dd) ->
  load_items m ((k ++ String "_" (Spin.name spin), d)%string :: rest)
  = load_items (sset m k (VDict (setitem Spin.eqb dd spin (h5_get d)))) rest.
Proof.
  intros Hu Hd Hs Hl Hm.
  cbn [util.load_items].
  rewrite contains_spin_name, last_part_spin, str_to_spin_name. cbn [bind].
  assert (E : replace ("_" ++ Spin.name spin) "" (k ++ String "_" (Spin.name spin)) = k).
  { destruct spin; cbn [Spin.name String.append].
    - destruct Hu as [Hu|Hu]; [|discriminate].
      apply replace_suffix; [discriminate | apply no_straddle_up | exact Hu].
    - apply replace_suffix; [discriminate | apply no_straddle_down | exact Hd]. }
  assert (Hh : shas m k = true).
  { unfold shas, has_key. fold (sget m k). rewrite Hm. reflexivity. }
  rewrite E, Hh, (read_data_unreserved F Structure from_str astype_U13_other decode_other)
    by assumption.
  cbn [bind]. unfold set_spin. rewrite Hm. reflexivity.
Qed.
End MeshFacts3.

(** X29.  The reader on the names it expects: for a plain name [k], a
    container with the entries [k_up] and [k_down], created in either
    order, is read back as the one key [k] holding both spins. *)
Theorem spin_pair_entries_read_back :
  forall (F Structure : Type) (from_str : string -> result Structure)
         (astype_U13_other : value F Structure -> result (value F Structure))
         (decode_other : value F Structure -> result string)
         (k : string) (da db : dataset F),
    plain_name k = true ->
    load_mesh_data F Structure from_str astype_U13_other decode_other
      [((k ++ "_up")%string, da); ((k ++ "_down")%string, db)]
    = Ok [(k, VDict [(Spin.down, h5_get F Structure db); (Spin.up, h5_get F Structure da)])]
    /\ load_mesh_data F Structure from_str astype_U13_other decode_other
         [((k ++ "_down")%string, db); ((k ++ "_up")%string, da)]
       = Ok [(k, VDict [(Spin.down, h5_get F Structure db); (Spin.up, h5_get F Structure da)])].
Proof.
  intros F Structure from_str astype_U13_other decode_other k da db Hk.
  destruct (plain_name_spec k Hk) as (Hs & Hl & Hu & Hd).
  assert (E : load_items F Structure from_str astype_U13_other decode_other []
                [((k ++ "_down")%string, db); ((k ++ "_up")%string, da)]
              = Ok [(k, VDict [(Spin.down, h5_get F Structure db);
                               (Spin.up, h5_get F Structure da)])]).
  { rewrite (load_items_spin_entry F Structure from_str astype_U13_other decode_other
               [] k Spin.down) by (auto || reflexivity).
    cbn [app].
    rewrite (load_items_spin_entry_again F Structure from_str astype_U13_other decode_other
               _ k Spin.up da [(Spin.down, h5_get F Structure db)]).
    - cbn [load_items]. unfold sset. cbn [setitem]. rewrite String.eqb_refl. reflexivity.
    - auto.
    - exact Hd.
    - exact Hs.
    - exact Hl.
    - unfold sget. cbn [getitem]. rewrite String.eqb_refl. reflexivity. }
  split.
  - unfold load_mesh_data. cbn [h5_items fold_right insert_by_name fst].
    rewrite leb_up_down. exact E.
  - unfold load_mesh_data. cbn [h5_items fold_right insert_by_name fst].
    rewrite leb_down_up. exact E.
Qed.

Lemma spin_pair_entries_read_back_witness :
  Sample.load_mesh_data [("energies_up", DNum 5%Z); ("energies_down", DNum 7%Z)]
  = Ok [("energies", VDict [(Spin.down, VNum 7%Z); (Spin.up, VNum 5%Z)])].
Proof.
  apply (spin_pair_entries_read_back Z string Sample.from_str Sample.astype_U13_other
           Sample.decode_other "energies" (DNum 5%Z) (DNum 7%Z) eq_refl).
Defined.

Section MeshFacts4.
Variables F Structure : Type.
Variable to_json : Structure -> string.
Variable has_h5_type : ndarray F -> bool.

#[local] Abbreviation value := (value F Structure).
#[local] Abbreviation h5file := (h5file F).
#[local] Abbreviation add_data := (add_data F Structure to_json has_h5_type).
#[local] Abbreviation write_spins := (write_spins F Structure to_json has_h5_type).
#[local] Abbreviation write_items := (write_items F Structure to_json has_h5_type).

(** A dataset is only ever created under a name the container does not
    hold yet. *)
Lemma add_data_fresh (f f' : h5file) name v :
  add_data f name v = Ok f' -> exists e, f' = f ++ [e] /\ shas f (fst e) = false.
Proof.
  unfold util.add_data, create_dataset, set_entry.
  destruct v as [| | | | | | [|? ?] | [|? ?] | | | |];
    repeat match goal with
           | |- context [if ?c then _ else _] => destruct c eqn:?
           end; intros H; try discriminate; injection H as <-;
    eexists; (split; [reflexivity | assumption]).
Qed.

Lemma add_data_NoDup (f f' : h5file) name v :
  add_data f name v = Ok f' -> NoDup (keys f) -> NoDup (keys f').
Proof.
  intros H Hn. apply add_data_fresh in H. destruct H as ([n d] & -> & Hf).
  rewrite keys_app. cbn [keys map fst] in *.
  apply NoDup_app; [exact Hn | constructor; [tauto | constructor] |].
  intros x Hx [<-|[]]. apply shas_not_In_keys in Hf. contradiction.
Qed.

Lemma write_spins_NoDup items : forall (f f' : h5file) k,
  write_spins f k items = Ok f' -> NoDup (keys f) -> NoDup (keys f').
Proof.
  induction items as [|[spin v] items IH]; intros f f' k H Hn; simpl in H.
  - injection H as <-. exact Hn.
  - apply bind_Ok in H. destruct H as (f1 & H1 & H).
    eapply IH; [exact H|]. eapply add_data_NoDup; eassumption.
Qed.

Lemma write_items_NoDup items : forall (f f' : h5file),
  write_items f items = Ok f' -> NoDup (keys f) -> NoDup (keys f').
Proof.
  induction items as [|e0 items IH]; intros f f' H Hn.
  - simpl in H. injection H as <-. exact Hn.
  - rewrite write_items_cons in H. apply bind_Ok in H. destruct H as (f1 & H1 & H).
    eapply IH; [exact H|].
    unfold write_entry in H1. destruct (snd e0) eqn:Ev;
      try (eapply add_data_NoDup; eassumption).
    eapply write_spins_NoDup; eassumption.
Qed.

Lemma write_items_count items : forall (f f' : h5file),
  write_items f items = Ok f' ->
  List.length f'
  = List.length f
    + list_sum (map (fun e => match snd e with
                              | VDict d => List.length d
                              | _ => 1
                              end) items).
Proof.
  assert (Hs : forall d (f f' : h5file) k,
             write_spins f k d = Ok f' -> List.length f' = List.length f + List.length d).
  { induction d as [|[spin v] d IH]; intros f f' k H; simpl in H.
    - injection H as <-. simpl. lia.
    - apply bind_Ok in H. destruct H as (f1 & H1 & H).
      apply IH in H. apply add_data_fresh in H1. destruct H1 as (e & -> & _).
      rewrite length_app in H. simpl in *. lia. }
  induction items as [|e0 items IH]; intros f f' H.
  - simpl in H. injection H as <-. simpl. lia.
  - rewrite write_items_cons in H. apply bind_Ok in H. destruct H as (f1 & H1 & H).
    apply IH in H. cbn [map list_sum]. rewrite H.
    unfold write_entry in H1.
    destruct (snd e0) eqn:Ev; cbv beta iota;
      change (list_sum (?a :: ?l)) with (a + list_sum l);
      try (apply add_data_fresh in H1; destruct H1 as (e & -> & _);
           rewrite length_app; simpl List.length; lia).
    apply Hs in H1. lia.
Qed.
End MeshFacts4.

(** X30.  [write_mesh_data] never overwrites: whenever it succeeds, the names of
    the datasets it created are distinct, and there is one dataset for
    every entry that is not a spin mapping and one for every entry of a
    spin mapping. *)
Theorem write_mesh_data_creates_distinct_names :
  forall (F Structure : Type) (to_json : Structure -> string)
         (has_h5_type : ndarray F -> bool)
         (mesh_data : sdict (value F Structure)) (f : h5file F),
    write_mesh_data F Structure to_json has_h5_type mesh_data = Ok f ->
    NoDup (keys f)
    /\ List.length f
       = list_sum (map (fun e => match snd e with
                                 | VDict d => List.length d
                                 | _ => 1
                                 end) mesh_data).
Proof.
  intros F Structure to_json has_h5_type mesh_data f H. unfold write_mesh_data in H. split.
  - eapply write_items_NoDup; [exact H | constructor].
  - apply write_items_count in H. exact H.
Qed.

Lemma write_mesh_data_creates_distinct_names_witness :
  exists f,
    Sample.write_mesh_data Sample.sample_mesh = Ok f
    /\ NoDup (keys f) /\ List.length f = 6.
Proof.
  eexists. split; [reflexivity|].
  apply (write_mesh_data_creates_distinct_names Z string Sample.to_json Sample.has_h5_type
           Sample.sample_mesh _ eq_refl).
Defined.
